(** * ArduCopter Auto mode (ArduCopter/mode_auto.cpp): a shallow embedding

    The Auto flight mode owns a submode tag, a handful of timers and flags,
    and the state of its loiter-to-altitude and payload-place
    sub-controllers.  Every call it makes on a collaborator that lives
    outside the file (motors, position controller, waypoint navigation,
    ground station, ...) is recorded as an [Action]; every value it reads
    from a collaborator is a field of [Env].

    Numbers: [int32_t], [uint16_t] and [uint32_t] quantities are [Z], with
    the wrap-around of unsigned subtraction written out; [float] quantities
    are exact rationals ([Q]) and a conversion from [float] to an integer
    type truncates toward zero.

    Build: the optional features the file compiles conditionally (guided
    navigation, scripting, payload place, gripper, landing gear, precision
    landing, rangefinder, mount, fence, winch) are all enabled.

    Texts: a ground-station text is its format string and its numeric
    arguments; the ["%s"] of the payload-place texts stands for the prefix
    ["PayloadPlace:"]. *)

From Stdlib Require Import ZArith QArith Qabs Bool List String Lia.
Import ListNotations.

Open Scope Z_scope.

(** ** Arithmetic of the C++ types *)

Definition wrap_uint32 (z : Z) : Z := z mod 2 ^ 32.

Definition wrap_int32 (z : Z) : Z := (z + 2 ^ 31) mod 2 ^ 32 - 2 ^ 31.

(** [uint32_t] subtraction, as in [now_ms - start_ms]. *)
Definition sub_uint32 (a b : Z) : Z := wrap_uint32 (a - b).

(** Conversion of a [float] to an integer type: the fraction is dropped. *)
Definition float_to_int (q : Q) : Z := Z.quot (Qnum q) (Zpos (Qden q)).

Definition fltb (a b : Q) : bool := negb (Qle_bool b a).   (* a < b *)
Definition fleb (a b : Q) : bool := Qle_bool a b.          (* a <= b *)
Definition fgtb (a b : Q) : bool := fltb b a.              (* a > b *)
Definition fgeb (a b : Q) : bool := fleb b a.              (* a >= b *)

(** The MIN and MAX macros. *)
Definition MINf (a b : Q) : Q := if fltb a b then a else b.
Definition MAXf (a b : Q) : Q := if fgtb a b then a else b.
Definition MAXi (a b : Z) : Z := if a >? b then a else b.

Definition fabsf (q : Q) : Q := Qabs q.
Definition sq (q : Q) : Q := (q * q)%Q.

(** Modelled from the spec: AP_Math's [is_positive] and [is_zero] are
    declared outside this file; a speed override is "unset" when it is not
    positive, and zero is the unset value. *)
Definition is_positive (q : Q) : bool := fgtb q 0.
Definition is_zero (q : Q) : bool := Qeq_bool q 0.

(** [HIGHBYTE] of a [uint16_t]. *)
Definition HIGHBYTE (p : Z) : Z := Z.land (Z.shiftr p 8) 255.

(** ** Locations and mission commands *)

(** Modelled from the spec: the altitude-reference-frame enumeration of a
    location (above-home, above-origin, above-terrain). *)
Inductive AltFrame := ABOVE_HOME | ABOVE_ORIGIN | ABOVE_TERRAIN.

Definition AltFrame_eqb (a b : AltFrame) : bool :=
  match a, b with
  | ABOVE_HOME, ABOVE_HOME | ABOVE_ORIGIN, ABOVE_ORIGIN
  | ABOVE_TERRAIN, ABOVE_TERRAIN => true
  | _, _ => false
  end.

(** Modelled from the spec: a location is latitude, longitude, altitude
    (cm, [int32_t]) and the frame the altitude is expressed in, with the
    loiter direction bit the circle command reads. *)
Record Location := {
  lat : Z;
  lng : Z;
  alt : Z;
  alt_frame : AltFrame;
  loiter_ccw : bool
}.

Definition get_alt_frame (l : Location) : AltFrame := alt_frame l.

(** Modelled from the spec: [Location::set_alt_cm] stores an altitude and
    the frame it is expressed in. *)
Definition set_alt_cm (a : Z) (f : AltFrame) (l : Location) : Location :=
  {| lat := lat l; lng := lng l; alt := a; alt_frame := f;
     loiter_ccw := loiter_ccw l |}.

(** Modelled from the spec: [Location::copy_alt_from] takes over the other
    location's altitude and frame. *)
Definition copy_alt_from (other l : Location) : Location :=
  set_alt_cm (alt other) (alt_frame other) l.

Definition set_lat_lng (la lo : Z) (l : Location) : Location :=
  {| lat := la; lng := lo; alt := alt l; alt_frame := alt_frame l;
     loiter_ccw := loiter_ccw l |}.

(** The command identifiers the dispatcher distinguishes; any other
    identifier is [MAV_CMD_other]. *)
Inductive MAV_CMD :=
| MAV_CMD_NAV_WAYPOINT | MAV_CMD_NAV_LOITER_UNLIM | MAV_CMD_NAV_LOITER_TURNS
| MAV_CMD_NAV_LOITER_TIME | MAV_CMD_NAV_RETURN_TO_LAUNCH | MAV_CMD_NAV_LAND
| MAV_CMD_NAV_TAKEOFF | MAV_CMD_NAV_LOITER_TO_ALT | MAV_CMD_NAV_SPLINE_WAYPOINT
| MAV_CMD_NAV_VTOL_TAKEOFF | MAV_CMD_NAV_VTOL_LAND | MAV_CMD_NAV_GUIDED_ENABLE
| MAV_CMD_NAV_DELAY | MAV_CMD_NAV_PAYLOAD_PLACE | MAV_CMD_NAV_SCRIPT_TIME
| MAV_CMD_NAV_ATTITUDE_TIME
| MAV_CMD_CONDITION_DELAY | MAV_CMD_CONDITION_DISTANCE | MAV_CMD_CONDITION_YAW
| MAV_CMD_DO_CHANGE_SPEED | MAV_CMD_DO_SET_HOME | MAV_CMD_DO_SET_ROI_LOCATION
| MAV_CMD_DO_SET_ROI_NONE | MAV_CMD_DO_SET_ROI | MAV_CMD_DO_MOUNT_CONTROL
| MAV_CMD_DO_GUIDED_LIMITS | MAV_CMD_DO_FENCE_ENABLE | MAV_CMD_DO_WINCH
| MAV_CMD_DO_RETURN_PATH_START | MAV_CMD_DO_LAND_START
| MAV_CMD_other (raw_id : Z).

Definition MAV_CMD_is_NAV_LOITER_TO_ALT (c : MAV_CMD) : bool :=
  match c with MAV_CMD_NAV_LOITER_TO_ALT => true | _ => false end.

(** The fields of [AP_Mission::Mission_Command] that the Auto mode reads.
    [loiter_turns] is the value of [cmd.get_loiter_turns()] and [time_sec]
    is [content.nav_attitude_time.time_sec]. *)
Record Mission_Command := {
  id : MAV_CMD;
  index : Z;
  p1 : Z;
  location : Location;
  type_specific_bits : Z;
  loiter_turns : Q;
  time_sec : Z
}.

(** ** Enumerations of the mode *)

Inductive SubMode :=
| TAKEOFF | WP | LAND | RTL | CIRCLE_MOVE_TO_EDGE | CIRCLE | NAVGUIDED
| LOITER | LOITER_TO_ALT | NAV_PAYLOAD_PLACE | NAV_SCRIPT_TIME
| NAV_ATTITUDE_TIME.

Definition SubMode_eqb (a b : SubMode) : bool :=
  match a, b with
  | TAKEOFF, TAKEOFF | WP, WP | LAND, LAND | RTL, RTL
  | CIRCLE_MOVE_TO_EDGE, CIRCLE_MOVE_TO_EDGE | CIRCLE, CIRCLE
  | NAVGUIDED, NAVGUIDED | LOITER, LOITER | LOITER_TO_ALT, LOITER_TO_ALT
  | NAV_PAYLOAD_PLACE, NAV_PAYLOAD_PLACE | NAV_SCRIPT_TIME, NAV_SCRIPT_TIME
  | NAV_ATTITUDE_TIME, NAV_ATTITUDE_TIME => true
  | _, _ => false
  end.

(** Modelled from the spec: the yaw policy's mode (Hold, Fixed, ROI,
    Circle, Default); [AutoYaw] itself is declared outside this file. *)
Module AutoYaw.
Inductive Mode := HOLD | FIXED | ROI | CIRCLE | DEFAULT.
Definition is_ROI (m : Mode) : bool :=
  match m with ROI => true | _ => false end.
Definition is_FIXED (m : Mode) : bool :=
  match m with FIXED => true | _ => false end.
End AutoYaw.

(** [ModeAuto::State], the two phases of a land command. *)
Inductive State := FlyToLocation | Descending.

(** [PayloadPlace::State] and the fields of the [PayloadPlace] object. *)
Module PayloadPlace.
Inductive State :=
| FlyToLocation | Descent_Start | Descent | Release | Releasing | Delay
| Ascent_Start | Ascent | Done.

Record t := {
  state : State;
  descent_established_time_ms : Z;
  place_start_time_ms : Z;
  descent_thrust_level : Q;
  descent_start_altitude_cm : Q;
  descent_speed_cms : Q;
  descent_max_cm : Q
}.

(** Position of a state in the order the state machine is laid out in. *)
Definition rank (s : State) : Z :=
  match s with
  | FlyToLocation => 0 | Descent_Start => 1 | Descent => 2 | Release => 3
  | Releasing => 4 | Delay => 5 | Ascent_Start => 6 | Ascent => 7
  | Done => 8
  end.

Definition eqb (a b : State) : bool := rank a =? rank b.
End PayloadPlace.

Inductive MAV_SEVERITY :=
| MAV_SEVERITY_CRITICAL | MAV_SEVERITY_WARNING | MAV_SEVERITY_INFO.

(** ** What the mode reads from its collaborators

    One [Env] holds the answers the collaborators give during one call of a
    function of the mode.  Values whose computation lives outside the file
    (frame conversion of an altitude, the closest point on the circle, ...)
    are fields too. *)

(** [copter], [copter.ap], [motors], [AP_HAL::millis()] and the mission. *)
Record Copter := {
  motors_armed : bool;
  land_complete : bool;
  land_complete_maybe : bool;
  is_disarmed_or_landed : bool;
  get_interlock : bool;
  spool_state_is_GROUND_IDLE : bool;
  flightmode_is_mode_auto : bool;      (* copter.flightmode == &copter.mode_auto *)
  millis : Z;
  current_loc : Location;
  current_loc_initialised : bool;
  mission_present : bool;
  starts_with_takeoff_cmd : bool;
  continue_after_land_check_for_takeoff : bool
}.

Record AC_WPNav := {
  is_active : bool;
  reached_wp_destination : bool;
  reached_wp_destination_NE : bool;
  set_wp_destination_loc : Location -> bool;
  get_wp_destination_loc : option Location;
  get_wp_distance_to_destination_cm : Q;
  get_default_speed_down_cms : Q;
  get_terrain_offset_cm : option Q
}.

Record AC_PosControl := {
  get_pos_estimate_U_cm : Q;           (* get_pos_estimate_NEU_cm().z *)
  get_pos_desired_U_cm : Q;
  get_vel_desired_U_cms : Q;           (* get_vel_desired_NEU_cms().z *)
  get_max_speed_up_cms : Q;
  get_max_accel_U_cmss : Q;
  is_active_NE : bool;
  is_active_U : bool
}.

(** The circle controller.  [get_angle_total_turns] is
    [get_angle_total_rad() / float(M_2PI)]: the accumulated angle is read in
    turns because 2 pi is not a rational number. *)
Record AC_Circle := {
  get_angle_total_turns : Q;
  get_distance_to_target_cm : Q;
  get_rate_degs : Q;
  get_radius_cm : Q;
  closest_point_on_circle : Location;  (* as a Location above the origin *)
  dist_to_edge : Q;
  dist_to_center : Q
}.

(** Gripper, rangefinder and the throttle the attitude controller reports. *)
Record Payload := {
  gripper_valid : bool;
  gripper_released : bool;
  rangefinder_enabled : bool;
  rangefinder_alt_ok : bool;
  rangefinder_glitch_count : Z;
  rangefinder_alt_cm : Z;
  get_throttle_in : Q
}.

(** Parameters ([copter.g], [copter.g2]).  [Option_AllowTakeOffWithoutRaisingThrottle]
    is the value of that enumerator of [ModeAuto::Option]. *)
Record Parameters := {
  auto_options : Z;
  Option_AllowTakeOffWithoutRaisingThrottle : Z;
  pldp_descent_speed_ms : Q;
  land_speed : Z;
  pldp_thrust_placed_fraction : Q;
  pldp_range_finder_maximum_m : Q;
  pldp_delay_s : Q;
  wp_yaw_behavior_is_NONE : bool
}.

(** The controllers the mode delegates to, and the [Location] library. *)
Record Others := {
  auto_takeoff_complete : bool;
  auto_takeoff_get_completion_pos : bool;
  mode_rtl_state_complete : bool;
  mode_rtl_state_is_FINAL_DESCENT_or_LAND : bool;
  mode_guided_limit_check : bool;
  reached_fixed_yaw_target : bool;
  get_alt_cm : Location -> AltFrame -> option Z;
  offset_by_pos_offsets : Location -> Location
}.

Record Env := {
  copter : Copter;
  wp_nav : AC_WPNav;
  pos_control : AC_PosControl;
  circle_nav : AC_Circle;
  payload : Payload;
  g : Parameters;
  others : Others
}.

(** ** What the mode asks of its collaborators *)

Inductive Action :=
| gcs_send_text (severity : MAV_SEVERITY) (fmt : string) (args : list Q)
| gcs_send_mission_item_reached_message (cmd_index : Z)
| make_safe_ground_handling
| motors_set_desired_spool_state_THROTTLE_UNLIMITED
| wp_nav_update_wpnav
| circle_nav_update_cms
| failsafe_terrain_set_status
| failsafe_terrain_on_event
| failsafe_ekf_recheck
| pos_control_update_U_controller
| pos_control_set_pos_target_U_from_climb_rate_cm
| pos_control_set_max_speed_accel_NE_cm
| pos_control_set_correction_speed_accel_NE_cm
| pos_control_init_NE_controller
| pos_control_set_max_speed_accel_U_cm
| pos_control_set_correction_speed_accel_U_cmss
| pos_control_init_U_controller
| pos_control_init_U_controller_no_descent
| pos_control_soften_for_landing_NE
| pos_control_land_at_climb_rate_cm (rate_cms : Q) (ignore_descent_limit : bool)
| pos_control_input_pos_vel_accel_U_cm (pos_cm : Q)
| attitude_control_input_thrust_vector_heading
| attitude_control_input_euler_angle_roll_pitch_yaw_rad
| land_run_normal_or_precland
| land_run_horizontal_control
| surface_tracking_update_surface_offset
| auto_takeoff_run
| auto_takeoff_start (alt_target_cm : Z) (alt_target_terrain : bool)
| mode_rtl_run (disarm_on_land : bool)
| mode_guided_run
| set_auto_armed (b : bool)
| gripper_release
| wp_nav_wp_and_spline_init_cm (speed_cms : Q) (from_takeoff_completion_pos : bool)
| wp_nav_set_speed_up_cms (speed_cms : Q)
| wp_nav_set_speed_down_cms (speed_cms : Q)
| circle_nav_set_center (center : Location)
| circle_nav_set_radius_cm (radius_cm : Q)
| circle_nav_set_rate_degs (rate : Q)
| circle_nav_init_NEU_cm
| mis_change_detector_check_for_mission_change
| mode_guided_limit_clear
| ap_land_repo_active_false
| ap_prec_land_active_false
| precland_statemachine_init
| landinggear_deploy_for_landing
| landinggear_retract_after_takeoff
| arming_disarm_LANDED
| AP_Notify_events_waypoint_complete
| LOGGER_WRITE_ERROR_MISSING_TERRAIN_DATA
| INTERNAL_ERROR_flow_of_control.

(** ** The state the mode owns *)

Record desired_speed_override_t := { xy : Q; up : Q; down : Q }.

(** The [loiter_to_alt] struct; [target_alt] is its field [alt]. *)
Record loiter_to_alt_t := {
  reached_destination_xy : bool;
  loiter_start_done : bool;
  reached_alt : bool;
  alt_error_cm : Q;
  target_alt : Z
}.

Record nav_scripting_t := {
  done : bool;
  start_ms : Z;
  timeout_s : Z
}.

Record ModeAuto := {
  _mode : SubMode;
  auto_RTL : bool;
  waiting_to_start : bool;
  desired_speed_override : desired_speed_override_t;
  auto_yaw : AutoYaw.Mode;
  loiter_time : Z;
  loiter_time_max : Z;
  loiter_to_alt : loiter_to_alt_t;
  payload_place : PayloadPlace.t;
  state : State;
  circle_last_num_complete : Q;
  nav_delay_time_start_ms : Z;
  nav_delay_time_max_ms : Z;
  nav_scripting : nav_scripting_t;
  nav_attitude_time_start_ms : Z;
  condition_start : Z;
  condition_value : Z
}.

(** Assignment to one field of the mode. *)

Definition set_mode v (s : ModeAuto) : ModeAuto :=
  {| _mode := v; auto_RTL := auto_RTL s;
     waiting_to_start := waiting_to_start s;
     desired_speed_override := desired_speed_override s;
     auto_yaw := auto_yaw s; loiter_time := loiter_time s;
     loiter_time_max := loiter_time_max s; loiter_to_alt := loiter_to_alt s;
     payload_place := payload_place s; state := state s;
     circle_last_num_complete := circle_last_num_complete s;
     nav_delay_time_start_ms := nav_delay_time_start_ms s;
     nav_delay_time_max_ms := nav_delay_time_max_ms s;
     nav_scripting := nav_scripting s;
     nav_attitude_time_start_ms := nav_attitude_time_start_ms s;
     condition_start := condition_start s;
     condition_value := condition_value s |}.

Definition set_auto_RTL v (s : ModeAuto) : ModeAuto :=
  {| _mode := _mode s; auto_RTL := v;
     waiting_to_start := waiting_to_start s;
     desired_speed_override := desired_speed_override s;
     auto_yaw := auto_yaw s; loiter_time := loiter_time s;
     loiter_time_max := loiter_time_max s; loiter_to_alt := loiter_to_alt s;
     payload_place := payload_place s; state := state s;
     circle_last_num_complete := circle_last_num_complete s;
     nav_delay_time_start_ms := nav_delay_time_start_ms s;
     nav_delay_time_max_ms := nav_delay_time_max_ms s;
     nav_scripting := nav_scripting s;
     nav_attitude_time_start_ms := nav_attitude_time_start_ms s;
     condition_start := condition_start s;
     condition_value := condition_value s |}.

Definition set_waiting_to_start v (s : ModeAuto) : ModeAuto :=
  {| _mode := _mode s; auto_RTL := auto_RTL s; waiting_to_start := v;
     desired_speed_override := desired_speed_override s;
     auto_yaw := auto_yaw s; loiter_time := loiter_time s;
     loiter_time_max := loiter_time_max s; loiter_to_alt := loiter_to_alt s;
     payload_place := payload_place s; state := state s;
     circle_last_num_complete := circle_last_num_complete s;
     nav_delay_time_start_ms := nav_delay_time_start_ms s;
     nav_delay_time_max_ms := nav_delay_time_max_ms s;
     nav_scripting := nav_scripting s;
     nav_attitude_time_start_ms := nav_attitude_time_start_ms s;
     condition_start := condition_start s;
     condition_value := condition_value s |}.

Definition set_desired_speed_override v (s : ModeAuto) : ModeAuto :=
  {| _mode := _mode s; auto_RTL := auto_RTL s;
     waiting_to_start := waiting_to_start s; desired_speed_override := v;
     auto_yaw := auto_yaw s; loiter_time := loiter_time s;
     loiter_time_max := loiter_time_max s; loiter_to_alt := loiter_to_alt s;
     payload_place := payload_place s; state := state s;
     circle_last_num_complete := circle_last_num_complete s;
     nav_delay_time_start_ms := nav_delay_time_start_ms s;
     nav_delay_time_max_ms := nav_delay_time_max_ms s;
     nav_scripting := nav_scripting s;
     nav_attitude_time_start_ms := nav_attitude_time_start_ms s;
     condition_start := condition_start s;
     condition_value := condition_value s |}.

Definition set_auto_yaw v (s : ModeAuto) : ModeAuto :=
  {| _mode := _mode s; auto_RTL := auto_RTL s;
     waiting_to_start := waiting_to_start s;
     desired_speed_override := desired_speed_override s; auto_yaw := v;
     loiter_time := loiter_time s; loiter_time_max := loiter_time_max s;
     loiter_to_alt := loiter_to_alt s; payload_place := payload_place s;
     state := state s;
     circle_last_num_complete := circle_last_num_complete s;
     nav_delay_time_start_ms := nav_delay_time_start_ms s;
     nav_delay_time_max_ms := nav_delay_time_max_ms s;
     nav_scripting := nav_scripting s;
     nav_attitude_time_start_ms := nav_attitude_time_start_ms s;
     condition_start := condition_start s;
     condition_value := condition_value s |}.

Definition set_loiter_time v (s : ModeAuto) : ModeAuto :=
  {| _mode := _mode s; auto_RTL := auto_RTL s;
     waiting_to_start := waiting_to_start s;
     desired_speed_override := desired_speed_override s;
     auto_yaw := auto_yaw s; loiter_time := v;
     loiter_time_max := loiter_time_max s; loiter_to_alt := loiter_to_alt s;
     payload_place := payload_place s; state := state s;
     circle_last_num_complete := circle_last_num_complete s;
     nav_delay_time_start_ms := nav_delay_time_start_ms s;
     nav_delay_time_max_ms := nav_delay_time_max_ms s;
     nav_scripting := nav_scripting s;
     nav_attitude_time_start_ms := nav_attitude_time_start_ms s;
     condition_start := condition_start s;
     condition_value := condition_value s |}.

Definition set_loiter_time_max v (s : ModeAuto) : ModeAuto :=
  {| _mode := _mode s; auto_RTL := auto_RTL s;
     waiting_to_start := waiting_to_start s;
     desired_speed_override := desired_speed_override s;
     auto_yaw := auto_yaw s; loiter_time := loiter_time s;
     loiter_time_max := v; loiter_to_alt := loiter_to_alt s;
     payload_place := payload_place s; state := state s;
     circle_last_num_complete := circle_last_num_complete s;
     nav_delay_time_start_ms := nav_delay_time_start_ms s;
     nav_delay_time_max_ms := nav_delay_time_max_ms s;
     nav_scripting := nav_scripting s;
     nav_attitude_time_start_ms := nav_attitude_time_start_ms s;
     condition_start := condition_start s;
     condition_value := condition_value s |}.

Definition set_loiter_to_alt v (s : ModeAuto) : ModeAuto :=
  {| _mode := _mode s; auto_RTL := auto_RTL s;
     waiting_to_start := waiting_to_start s;
     desired_speed_override := desired_speed_override s;
     auto_yaw := auto_yaw s; loiter_time := loiter_time s;
     loiter_time_max := loiter_time_max s; loiter_to_alt := v;
     payload_place := payload_place s; state := state s;
     circle_last_num_complete := circle_last_num_complete s;
     nav_delay_time_start_ms := nav_delay_time_start_ms s;
     nav_delay_time_max_ms := nav_delay_time_max_ms s;
     nav_scripting := nav_scripting s;
     nav_attitude_time_start_ms := nav_attitude_time_start_ms s;
     condition_start := condition_start s;
     condition_value := condition_value s |}.

Definition set_payload_place v (s : ModeAuto) : ModeAuto :=
  {| _mode := _mode s; auto_RTL := auto_RTL s;
     waiting_to_start := waiting_to_start s;
     desired_speed_override := desired_speed_override s;
     auto_yaw := auto_yaw s; loiter_time := loiter_time s;
     loiter_time_max := loiter_time_max s; loiter_to_alt := loiter_to_alt s;
     payload_place := v; state := state s;
     circle_last_num_complete := circle_last_num_complete s;
     nav_delay_time_start_ms := nav_delay_time_start_ms s;
     nav_delay_time_max_ms := nav_delay_time_max_ms s;
     nav_scripting := nav_scripting s;
     nav_attitude_time_start_ms := nav_attitude_time_start_ms s;
     condition_start := condition_start s;
     condition_value := condition_value s |}.

Definition set_state v (s : ModeAuto) : ModeAuto :=
  {| _mode := _mode s; auto_RTL := auto_RTL s;
     waiting_to_start := waiting_to_start s;
     desired_speed_override := desired_speed_override s;
     auto_yaw := auto_yaw s; loiter_time := loiter_time s;
     loiter_time_max := loiter_time_max s; loiter_to_alt := loiter_to_alt s;
     payload_place := payload_place s; state := v;
     circle_last_num_complete := circle_last_num_complete s;
     nav_delay_time_start_ms := nav_delay_time_start_ms s;
     nav_delay_time_max_ms := nav_delay_time_max_ms s;
     nav_scripting := nav_scripting s;
     nav_attitude_time_start_ms := nav_attitude_time_start_ms s;
     condition_start := condition_start s;
     condition_value := condition_value s |}.

Definition set_circle_last_num_complete v (s : ModeAuto) : ModeAuto :=
  {| _mode := _mode s; auto_RTL := auto_RTL s;
     waiting_to_start := waiting_to_start s;
     desired_speed_override := desired_speed_override s;
     auto_yaw := auto_yaw s; loiter_time := loiter_time s;
     loiter_time_max := loiter_time_max s; loiter_to_alt := loiter_to_alt s;
     payload_place := payload_place s; state := state s;
     circle_last_num_complete := v;
     nav_delay_time_start_ms := nav_delay_time_start_ms s;
     nav_delay_time_max_ms := nav_delay_time_max_ms s;
     nav_scripting := nav_scripting s;
     nav_attitude_time_start_ms := nav_attitude_time_start_ms s;
     condition_start := condition_start s;
     condition_value := condition_value s |}.

Definition set_nav_delay_time_start_ms v (s : ModeAuto) : ModeAuto :=
  {| _mode := _mode s; auto_RTL := auto_RTL s;
     waiting_to_start := waiting_to_start s;
     desired_speed_override := desired_speed_override s;
     auto_yaw := auto_yaw s; loiter_time := loiter_time s;
     loiter_time_max := loiter_time_max s; loiter_to_alt := loiter_to_alt s;
     payload_place := payload_place s; state := state s;
     circle_last_num_complete := circle_last_num_complete s;
     nav_delay_time_start_ms := v;
     nav_delay_time_max_ms := nav_delay_time_max_ms s;
     nav_scripting := nav_scripting s;
     nav_attitude_time_start_ms := nav_attitude_time_start_ms s;
     condition_start := condition_start s;
     condition_value := condition_value s |}.

Definition set_nav_delay_time_max_ms v (s : ModeAuto) : ModeAuto :=
  {| _mode := _mode s; auto_RTL := auto_RTL s;
     waiting_to_start := waiting_to_start s;
     desired_speed_override := desired_speed_override s;
     auto_yaw := auto_yaw s; loiter_time := loiter_time s;
     loiter_time_max := loiter_time_max s; loiter_to_alt := loiter_to_alt s;
     payload_place := payload_place s; state := state s;
     circle_last_num_complete := circle_last_num_complete s;
     nav_delay_time_start_ms := nav_delay_time_start_ms s;
     nav_delay_time_max_ms := v; nav_scripting := nav_scripting s;
     nav_attitude_time_start_ms := nav_attitude_time_start_ms s;
     condition_start := condition_start s;
     condition_value := condition_value s |}.

Definition set_nav_scripting v (s : ModeAuto) : ModeAuto :=
  {| _mode := _mode s; auto_RTL := auto_RTL s;
     waiting_to_start := waiting_to_start s;
     desired_speed_override := desired_speed_override s;
     auto_yaw := auto_yaw s; loiter_time := loiter_time s;
     loiter_time_max := loiter_time_max s; loiter_to_alt := loiter_to_alt s;
     payload_place := payload_place s; state := state s;
     circle_last_num_complete := circle_last_num_complete s;
     nav_delay_time_start_ms := nav_delay_time_start_ms s;
     nav_delay_time_max_ms := nav_delay_time_max_ms s; nav_scripting := v;
     nav_attitude_time_start_ms := nav_attitude_time_start_ms s;
     condition_start := condition_start s;
     condition_value := condition_value s |}.

Definition set_nav_attitude_time_start_ms v (s : ModeAuto) : ModeAuto :=
  {| _mode := _mode s; auto_RTL := auto_RTL s;
     waiting_to_start := waiting_to_start s;
     desired_speed_override := desired_speed_override s;
     auto_yaw := auto_yaw s; loiter_time := loiter_time s;
     loiter_time_max := loiter_time_max s; loiter_to_alt := loiter_to_alt s;
     payload_place := payload_place s; state := state s;
     circle_last_num_complete := circle_last_num_complete s;
     nav_delay_time_start_ms := nav_delay_time_start_ms s;
     nav_delay_time_max_ms := nav_delay_time_max_ms s;
     nav_scripting := nav_scripting s; nav_attitude_time_start_ms := v;
     condition_start := condition_start s;
     condition_value := condition_value s |}.

Definition set_condition_start v (s : ModeAuto) : ModeAuto :=
  {| _mode := _mode s; auto_RTL := auto_RTL s;
     waiting_to_start := waiting_to_start s;
     desired_speed_override := desired_speed_override s;
     auto_yaw := auto_yaw s; loiter_time := loiter_time s;
     loiter_time_max := loiter_time_max s; loiter_to_alt := loiter_to_alt s;
     payload_place := payload_place s; state := state s;
     circle_last_num_complete := circle_last_num_complete s;
     nav_delay_time_start_ms := nav_delay_time_start_ms s;
     nav_delay_time_max_ms := nav_delay_time_max_ms s;
     nav_scripting := nav_scripting s;
     nav_attitude_time_start_ms := nav_attitude_time_start_ms s;
     condition_start := v; condition_value := condition_value s |}.

Definition set_condition_value v (s : ModeAuto) : ModeAuto :=
  {| _mode := _mode s; auto_RTL := auto_RTL s;
     waiting_to_start := waiting_to_start s;
     desired_speed_override := desired_speed_override s;
     auto_yaw := auto_yaw s; loiter_time := loiter_time s;
     loiter_time_max := loiter_time_max s; loiter_to_alt := loiter_to_alt s;
     payload_place := payload_place s; state := state s;
     circle_last_num_complete := circle_last_num_complete s;
     nav_delay_time_start_ms := nav_delay_time_start_ms s;
     nav_delay_time_max_ms := nav_delay_time_max_ms s;
     nav_scripting := nav_scripting s;
     nav_attitude_time_start_ms := nav_attitude_time_start_ms s;
     condition_start := condition_start s; condition_value := v |}.

(** Assignment to one field of the payload-place object. *)

Definition pp_set_state v (p : PayloadPlace.t) : PayloadPlace.t :=
  {| PayloadPlace.state := v;
     PayloadPlace.descent_established_time_ms := PayloadPlace.descent_established_time_ms p;
     PayloadPlace.place_start_time_ms := PayloadPlace.place_start_time_ms p;
     PayloadPlace.descent_thrust_level := PayloadPlace.descent_thrust_level p;
     PayloadPlace.descent_start_altitude_cm := PayloadPlace.descent_start_altitude_cm p;
     PayloadPlace.descent_speed_cms := PayloadPlace.descent_speed_cms p;
     PayloadPlace.descent_max_cm := PayloadPlace.descent_max_cm p |}.

Definition pp_set_descent_established_time_ms v (p : PayloadPlace.t) : PayloadPlace.t :=
  {| PayloadPlace.state := PayloadPlace.state p;
     PayloadPlace.descent_established_time_ms := v;
     PayloadPlace.place_start_time_ms := PayloadPlace.place_start_time_ms p;
     PayloadPlace.descent_thrust_level := PayloadPlace.descent_thrust_level p;
     PayloadPlace.descent_start_altitude_cm := PayloadPlace.descent_start_altitude_cm p;
     PayloadPlace.descent_speed_cms := PayloadPlace.descent_speed_cms p;
     PayloadPlace.descent_max_cm := PayloadPlace.descent_max_cm p |}.

Definition pp_set_place_start_time_ms v (p : PayloadPlace.t) : PayloadPlace.t :=
  {| PayloadPlace.state := PayloadPlace.state p;
     PayloadPlace.descent_established_time_ms := PayloadPlace.descent_established_time_ms p;
     PayloadPlace.place_start_time_ms := v;
     PayloadPlace.descent_thrust_level := PayloadPlace.descent_thrust_level p;
     PayloadPlace.descent_start_altitude_cm := PayloadPlace.descent_start_altitude_cm p;
     PayloadPlace.descent_speed_cms := PayloadPlace.descent_speed_cms p;
     PayloadPlace.descent_max_cm := PayloadPlace.descent_max_cm p |}.

Definition pp_set_descent_thrust_level v (p : PayloadPlace.t) : PayloadPlace.t :=
  {| PayloadPlace.state := PayloadPlace.state p;
     PayloadPlace.descent_established_time_ms := PayloadPlace.descent_established_time_ms p;
     PayloadPlace.place_start_time_ms := PayloadPlace.place_start_time_ms p;
     PayloadPlace.descent_thrust_level := v;
     PayloadPlace.descent_start_altitude_cm := PayloadPlace.descent_start_altitude_cm p;
     PayloadPlace.descent_speed_cms := PayloadPlace.descent_speed_cms p;
     PayloadPlace.descent_max_cm := PayloadPlace.descent_max_cm p |}.

Definition pp_set_descent_start_altitude_cm v (p : PayloadPlace.t) : PayloadPlace.t :=
  {| PayloadPlace.state := PayloadPlace.state p;
     PayloadPlace.descent_established_time_ms := PayloadPlace.descent_established_time_ms p;
     PayloadPlace.place_start_time_ms := PayloadPlace.place_start_time_ms p;
     PayloadPlace.descent_thrust_level := PayloadPlace.descent_thrust_level p;
     PayloadPlace.descent_start_altitude_cm := v;
     PayloadPlace.descent_speed_cms := PayloadPlace.descent_speed_cms p;
     PayloadPlace.descent_max_cm := PayloadPlace.descent_max_cm p |}.

Definition pp_set_descent_speed_cms v (p : PayloadPlace.t) : PayloadPlace.t :=
  {| PayloadPlace.state := PayloadPlace.state p;
     PayloadPlace.descent_established_time_ms := PayloadPlace.descent_established_time_ms p;
     PayloadPlace.place_start_time_ms := PayloadPlace.place_start_time_ms p;
     PayloadPlace.descent_thrust_level := PayloadPlace.descent_thrust_level p;
     PayloadPlace.descent_start_altitude_cm := PayloadPlace.descent_start_altitude_cm p;
     PayloadPlace.descent_speed_cms := v;
     PayloadPlace.descent_max_cm := PayloadPlace.descent_max_cm p |}.

Definition pp_set_descent_max_cm v (p : PayloadPlace.t) : PayloadPlace.t :=
  {| PayloadPlace.state := PayloadPlace.state p;
     PayloadPlace.descent_established_time_ms := PayloadPlace.descent_established_time_ms p;
     PayloadPlace.place_start_time_ms := PayloadPlace.place_start_time_ms p;
     PayloadPlace.descent_thrust_level := PayloadPlace.descent_thrust_level p;
     PayloadPlace.descent_start_altitude_cm := PayloadPlace.descent_start_altitude_cm p;
     PayloadPlace.descent_speed_cms := PayloadPlace.descent_speed_cms p;
     PayloadPlace.descent_max_cm := v |}.

(** Assignment to one field of the loiter-to-altitude struct. *)

Definition lta_set_reached_destination_xy v (l : loiter_to_alt_t) : loiter_to_alt_t :=
  {| reached_destination_xy := v; loiter_start_done := loiter_start_done l;
     reached_alt := reached_alt l; alt_error_cm := alt_error_cm l;
     target_alt := target_alt l |}.

Definition lta_set_loiter_start_done v (l : loiter_to_alt_t) : loiter_to_alt_t :=
  {| reached_destination_xy := reached_destination_xy l;
     loiter_start_done := v; reached_alt := reached_alt l;
     alt_error_cm := alt_error_cm l; target_alt := target_alt l |}.

Definition lta_set_reached_alt v (l : loiter_to_alt_t) : loiter_to_alt_t :=
  {| reached_destination_xy := reached_destination_xy l;
     loiter_start_done := loiter_start_done l; reached_alt := v;
     alt_error_cm := alt_error_cm l; target_alt := target_alt l |}.

Definition lta_set_alt_error_cm v (l : loiter_to_alt_t) : loiter_to_alt_t :=
  {| reached_destination_xy := reached_destination_xy l;
     loiter_start_done := loiter_start_done l; reached_alt := reached_alt l;
     alt_error_cm := v; target_alt := target_alt l |}.

Definition lta_set_target_alt v (l : loiter_to_alt_t) : loiter_to_alt_t :=
  {| reached_destination_xy := reached_destination_xy l;
     loiter_start_done := loiter_start_done l; reached_alt := reached_alt l;
     alt_error_cm := alt_error_cm l; target_alt := v |}.

(** ** Running a function of the mode

    A function of the mode takes the state it finds, and gives its return
    value, the state it leaves and the calls it made, in order. *)

Definition M (A : Type) : Type := ModeAuto -> A * ModeAuto * list Action.

Definition ret {A} (a : A) : M A := fun s => (a, s, []).

Definition bind {A B} (m : M A) (k : A -> M B) : M B :=
  fun s =>
    let '(a, s1, l1) := m s in
    let '(b, s2, l2) := k a s1 in
    (b, s2, l1 ++ l2).

Definition get : M ModeAuto := fun s => (s, s, []).
Definition modify (f : ModeAuto -> ModeAuto) : M unit := fun s => (tt, f s, []).
Definition call (a : Action) : M unit := fun s => (tt, s, [a]).
Definition when (b : bool) (m : M unit) : M unit := if b then m else ret tt.

Declare Scope auto_scope.
Delimit Scope auto_scope with auto.
Notation "x <- m ;; k" := (bind m (fun x => k))
  (at level 61, m at next level, right associativity) : auto_scope.
Notation "m ;; k" := (bind m (fun _ => k))
  (at level 61, right associativity) : auto_scope.
Open Scope auto_scope.

Definition result {A} (r : A * ModeAuto * list Action) : A := fst (fst r).
Definition after {A} (r : A * ModeAuto * list Action) : ModeAuto := snd (fst r).
Definition calls {A} (r : A * ModeAuto * list Action) : list Action := snd r.

(** Assignments to the nested structs. *)
Definition set_pp (f : PayloadPlace.t -> PayloadPlace.t) : M unit :=
  modify (fun s => set_payload_place (f (payload_place s)) s).
Definition set_lta (f : loiter_to_alt_t -> loiter_to_alt_t) : M unit :=
  modify (fun s => set_loiter_to_alt (f (loiter_to_alt s)) s).

(** ** Mode entry and the submode *)

Definition init (env : Env) (ignore_checks : bool) : M bool :=
  modify (set_auto_RTL false) ;;
  if mission_present (copter env) || ignore_checks then
    if motors_armed (copter env) && land_complete (copter env)
       && negb (starts_with_takeoff_cmd (copter env)) then
      call (gcs_send_text MAV_SEVERITY_CRITICAL "Auto: Missing Takeoff Cmd" []) ;;
      ret false
    else
      modify (set_mode LOITER) ;;
      s <- get ;;
      when (AutoYaw.is_ROI (auto_yaw s)) (modify (set_auto_yaw AutoYaw.HOLD)) ;;
      call (wp_nav_wp_and_spline_init_cm 0 false) ;;
      modify (set_desired_speed_override {| xy := 0; up := 0; down := 0 |}) ;;
      modify (set_waiting_to_start true) ;;
      call mis_change_detector_check_for_mission_change ;;
      call mode_guided_limit_clear ;;
      call ap_land_repo_active_false ;;
      call precland_statemachine_init ;;
      ret true
  else
    ret false.

Definition set_submode (new_submode : SubMode) : M unit :=
  s <- get ;;
  if SubMode_eqb new_submode (_mode s) then ret tt
  else
    let old_submode := _mode s in
    modify (set_mode new_submode) ;;
    when (SubMode_eqb old_submode NAV_ATTITUDE_TIME) (call failsafe_ekf_recheck).

Definition option_is_enabled (env : Env) (option : Z) : bool :=
  negb (Z.land (auto_options (g env)) option =? 0).

(** ** Starting the sub-controllers *)

(** The altitude the vehicle is at, in the frame the takeoff target is
    expressed in, and whether that frame is above-terrain. *)
Definition takeoff_uses_terrain (env : Env) (dest_loc : Location) : option Q :=
  if AltFrame_eqb (get_alt_frame dest_loc) ABOVE_TERRAIN
  then get_terrain_offset_cm (wp_nav env) else None.

Definition takeoff_current_alt_cm (env : Env) (dest_loc : Location) : Q :=
  match takeoff_uses_terrain env dest_loc with
  | Some terrain_offset => (get_pos_estimate_U_cm (pos_control env) - terrain_offset)%Q
  | None => get_pos_estimate_U_cm (pos_control env)
  end.

(** [alt_target_min_cm]: the lowest target the sanity check lets through. *)
Definition takeoff_alt_target_min_cm (env : Env) (dest_loc : Location) : Z :=
  float_to_int (takeoff_current_alt_cm env dest_loc
                + inject_Z (if land_complete (copter env) then 100 else 0))%Q.

(** [alt_target_cm] before the sanity check, with [alt_target_terrain]. *)
Definition takeoff_alt_target (env : Env) (dest_loc : Location) : Z * bool :=
  match takeoff_uses_terrain env dest_loc with
  | Some _ => (alt dest_loc, true)
  | None =>
      let dest := set_lat_lng (lat (current_loc (copter env)))
                              (lng (current_loc (copter env))) dest_loc in
      match get_alt_cm (others env) dest ABOVE_ORIGIN with
      | Some alt_target_cm => (alt_target_cm, false)
      | None =>
          (float_to_int (takeoff_current_alt_cm env dest_loc + inject_Z (alt dest))%Q,
           false)
      end
  end.

(** The target could not be expressed above the origin: the fall-back to
    the current altitude plus the commanded altitude is in use. *)
Definition takeoff_terrain_data_missing (env : Env) (dest_loc : Location) : bool :=
  match takeoff_uses_terrain env dest_loc with
  | Some _ => false
  | None =>
      let dest := set_lat_lng (lat (current_loc (copter env)))
                              (lng (current_loc (copter env))) dest_loc in
      match get_alt_cm (others env) dest ABOVE_ORIGIN with
      | Some _ => false
      | None => true
      end
  end.

(** [alt_target_cm] after the sanity check. *)
Definition takeoff_alt_target_cm (env : Env) (dest_loc : Location) : Z :=
  MAXi (fst (takeoff_alt_target env dest_loc)) (takeoff_alt_target_min_cm env dest_loc).

Definition takeoff_start (env : Env) (dest_loc : Location) : M unit :=
  if negb (current_loc_initialised (copter env)) then
    call INTERNAL_ERROR_flow_of_control
  else
    when (takeoff_terrain_data_missing env dest_loc)
      (call LOGGER_WRITE_ERROR_MISSING_TERRAIN_DATA) ;;
    modify (set_auto_yaw AutoYaw.HOLD) ;;
    call pos_control_init_U_controller ;;
    call (auto_takeoff_start (takeoff_alt_target_cm env dest_loc)
                             (snd (takeoff_alt_target env dest_loc))) ;;
    set_submode TAKEOFF.

Definition wp_start (env : Env) (dest_loc : Location) : M bool :=
  s <- get ;;
  when (negb (is_active (wp_nav env)))
    (let from_takeoff := SubMode_eqb (_mode s) TAKEOFF
                         && auto_takeoff_get_completion_pos (others env) in
     let des_speed_xy_cm :=
       if is_positive (xy (desired_speed_override s))
       then (xy (desired_speed_override s) * 100)%Q else 0%Q in
     call (wp_nav_wp_and_spline_init_cm des_speed_xy_cm from_takeoff) ;;
     when (is_positive (up (desired_speed_override s)))
       (call (wp_nav_set_speed_up_cms (up (desired_speed_override s) * 100)%Q)) ;;
     when (is_positive (down (desired_speed_override s)))
       (call (wp_nav_set_speed_down_cms (down (desired_speed_override s) * 100)%Q))) ;;
  if negb (set_wp_destination_loc (wp_nav env) dest_loc) then ret false
  else
    when (negb (AutoYaw.is_ROI (auto_yaw s))
          && negb (AutoYaw.is_FIXED (auto_yaw s) && wp_yaw_behavior_is_NONE (g env)))
      (modify (set_auto_yaw AutoYaw.DEFAULT)) ;;
    set_submode WP ;;
    ret true.

Definition land_start (env : Env) : M unit :=
  call pos_control_set_max_speed_accel_NE_cm ;;
  call pos_control_set_correction_speed_accel_NE_cm ;;
  when (negb (is_active_NE (pos_control env))) (call pos_control_init_NE_controller) ;;
  call pos_control_set_max_speed_accel_U_cm ;;
  call pos_control_set_correction_speed_accel_U_cmss ;;
  when (negb (is_active_U (pos_control env))) (call pos_control_init_U_controller) ;;
  modify (set_auto_yaw AutoYaw.HOLD) ;;
  call landinggear_deploy_for_landing ;;
  call ap_land_repo_active_false ;;
  call ap_prec_land_active_false ;;
  set_submode LAND.

Definition circle_start : M unit :=
  call circle_nav_init_NEU_cm ;;
  s <- get ;;
  when (negb (AutoYaw.is_ROI (auto_yaw s))) (modify (set_auto_yaw AutoYaw.CIRCLE)) ;;
  set_submode CIRCLE.

Definition circle_movetoedge_start (env : Env) (circle_center : Location)
    (radius_m : Q) (ccw_turn : bool) : M unit :=
  call (circle_nav_set_center circle_center) ;;
  when (negb (is_zero radius_m)) (call (circle_nav_set_radius_cm (radius_m * 100)%Q)) ;;
  let current_rate := get_rate_degs (circle_nav env) in
  call (circle_nav_set_rate_degs
          (if ccw_turn then (- fabsf current_rate)%Q else fabsf current_rate)) ;;
  if fgtb (dist_to_edge (circle_nav env)) 300 then
    let circle_edge :=
      copy_alt_from circle_center (closest_point_on_circle (circle_nav env)) in
    when (negb (set_wp_destination_loc (wp_nav env) circle_edge))
      (call failsafe_terrain_on_event) ;;
    s <- get ;;
    when (negb (AutoYaw.is_ROI (auto_yaw s)))
      (if fgtb (dist_to_center (circle_nav env)) (get_radius_cm (circle_nav env))
          && fgtb (dist_to_center (circle_nav env)) 500
       then modify (set_auto_yaw AutoYaw.DEFAULT)
       else modify (set_auto_yaw AutoYaw.HOLD)) ;;
    set_submode CIRCLE_MOVE_TO_EDGE
  else
    circle_start.

Definition PayloadPlace_start_descent (env : Env) : M unit :=
  call pos_control_set_max_speed_accel_NE_cm ;;
  call pos_control_set_correction_speed_accel_NE_cm ;;
  when (negb (is_active_NE (pos_control env))) (call pos_control_init_NE_controller) ;;
  call pos_control_set_max_speed_accel_U_cm ;;
  call pos_control_set_correction_speed_accel_U_cmss ;;
  when (negb (is_active_U (pos_control env))) (call pos_control_init_U_controller) ;;
  modify (set_auto_yaw AutoYaw.HOLD) ;;
  set_pp (pp_set_state PayloadPlace.Descent_Start).

(** ** The per-submode controllers called by [ModeAuto::run] *)

Definition takeoff_run (env : Env) : M unit :=
  when (option_is_enabled env (Option_AllowTakeOffWithoutRaisingThrottle (g env)))
    (call (set_auto_armed true)) ;;
  call auto_takeoff_run.

Definition wp_run (env : Env) : M unit :=
  if is_disarmed_or_landed (copter env) then
    call make_safe_ground_handling
  else
    call motors_set_desired_spool_state_THROTTLE_UNLIMITED ;;
    call wp_nav_update_wpnav ;;
    call failsafe_terrain_set_status ;;
    call pos_control_update_U_controller ;;
    call attitude_control_input_thrust_vector_heading.

Definition land_run (env : Env) : M unit :=
  if is_disarmed_or_landed (copter env) then
    call make_safe_ground_handling
  else
    call motors_set_desired_spool_state_THROTTLE_UNLIMITED ;;
    call land_run_normal_or_precland.

Definition rtl_run : M unit := call (mode_rtl_run false).

Definition circle_run : M unit :=
  call circle_nav_update_cms ;;
  call failsafe_terrain_set_status ;;
  call pos_control_update_U_controller ;;
  call attitude_control_input_thrust_vector_heading.

Definition nav_guided_run : M unit := call mode_guided_run.

Definition loiter_run (env : Env) : M unit :=
  if is_disarmed_or_landed (copter env) then
    call make_safe_ground_handling
  else
    call motors_set_desired_spool_state_THROTTLE_UNLIMITED ;;
    call wp_nav_update_wpnav ;;
    call failsafe_terrain_set_status ;;
    call pos_control_update_U_controller ;;
    call attitude_control_input_thrust_vector_heading.

(** [copter.current_loc.alt - loiter_to_alt.alt], an [int32_t] difference
    stored in a [float]. *)
Definition loiter_to_alt_error_cm (env : Env) (s : ModeAuto) : Q :=
  inject_Z (wrap_int32 (alt (current_loc (copter env)) - target_alt (loiter_to_alt s))).

Definition loiter_to_alt_run (env : Env) : M unit :=
  if is_disarmed_or_landed (copter env) || negb (get_interlock (copter env)) then
    call make_safe_ground_handling
  else
    s <- get ;;
    let reached_xy :=
      reached_destination_xy (loiter_to_alt s)
      || reached_wp_destination_NE (wp_nav env) in
    set_lta (lta_set_reached_destination_xy reached_xy) ;;
    if negb reached_xy then wp_run env
    else
      when (negb (loiter_start_done (loiter_to_alt s)))
        (call pos_control_set_max_speed_accel_NE_cm ;;
         call pos_control_set_correction_speed_accel_NE_cm ;;
         when (negb (is_active_NE (pos_control env)))
           (call pos_control_init_NE_controller) ;;
         set_lta (lta_set_loiter_start_done true)) ;;
      let alt_error := loiter_to_alt_error_cm env s in
      (if fltb (fabsf alt_error) 5 then
         set_lta (lta_set_reached_alt true)
       else if fltb (alt_error * alt_error_cm (loiter_to_alt s))%Q 0 then
         set_lta (lta_set_reached_alt true)
       else ret tt) ;;
      set_lta (lta_set_alt_error_cm alt_error) ;;
      call land_run_horizontal_control ;;
      call surface_tracking_update_surface_offset ;;
      call pos_control_set_pos_target_U_from_climb_rate_cm ;;
      call pos_control_update_U_controller.

Definition nav_attitude_time_run (env : Env) : M unit :=
  if is_disarmed_or_landed (copter env) || negb (get_interlock (copter env)) then
    call make_safe_ground_handling
  else
    call attitude_control_input_euler_angle_roll_pitch_yaw_rad ;;
    call pos_control_set_pos_target_U_from_climb_rate_cm ;;
    call pos_control_update_U_controller.

(** ** Payload place *)

Definition descent_thrust_cal_duration_ms : Z := 2000.
Definition placed_check_duration_ms : Z := 500.

Definition pp_state (s : ModeAuto) : PayloadPlace.State :=
  PayloadPlace.state (payload_place s).

(** The bodies of the labels of the main [switch (state)], last label
    first: a label that falls through continues with the next one. *)

Definition PayloadPlace_case_Ascent (env : Env) : M unit :=
  s <- get ;;
  let vel_threshold_fraction := (1 # 10)%Q in
  let stop_distance :=
    ((1 # 2) * sq (vel_threshold_fraction * get_max_speed_up_cms (pos_control env))
     / get_max_accel_U_cmss (pos_control env))%Q in
  let reached_altitude :=
    fgeb (get_pos_desired_U_cm (pos_control env))
         (PayloadPlace.descent_start_altitude_cm (payload_place s) - stop_distance)%Q in
  when reached_altitude (set_pp (pp_set_state PayloadPlace.Done)).

Definition PayloadPlace_case_Ascent_Start (env : Env) : M unit :=
  set_pp (pp_set_state PayloadPlace.Ascent) ;;
  PayloadPlace_case_Ascent env.

Definition PayloadPlace_case_Delay (env : Env) : M unit :=
  s <- get ;;
  let now_ms := millis (copter env) in
  if fltb (inject_Z (sub_uint32 now_ms (PayloadPlace.place_start_time_ms (payload_place s))))
          (inject_Z placed_check_duration_ms + pldp_delay_s (g env) * 1000)%Q
  then ret tt
  else PayloadPlace_case_Ascent_Start env.

Definition PayloadPlace_case_Releasing (env : Env) : M unit :=
  if gripper_valid (payload env) && negb (gripper_released (payload env)) then ret tt
  else
    set_pp (pp_set_state PayloadPlace.Delay) ;;
    PayloadPlace_case_Delay env.

Definition PayloadPlace_case_Release (env : Env) : M unit :=
  call pos_control_init_U_controller_no_descent ;;
  if gripper_valid (payload env) then
    call (gcs_send_text MAV_SEVERITY_INFO "%s Releasing the gripper" []) ;;
    call gripper_release ;;
    set_pp (pp_set_state PayloadPlace.Releasing)
  else
    set_pp (pp_set_state PayloadPlace.Delay).

Definition PayloadPlace_case_Descent (env : Env) : M unit :=
  s <- get ;;
  let p := payload_place s in
  let now_ms := millis (copter env) in
  let thrust_level := get_throttle_in (payload env) in
  let placed_threshold :=
    (pldp_thrust_placed_fraction (g env) * PayloadPlace.descent_thrust_level p)%Q in
  let check_placed : M unit :=
    when (sub_uint32 now_ms (PayloadPlace.place_start_time_ms p) >? placed_check_duration_ms)
      (set_pp (pp_set_state PayloadPlace.Release) ;;
       call (gcs_send_text MAV_SEVERITY_INFO
               "%s payload release thrust threshold: %f" [placed_threshold])) in
  if negb (is_zero (PayloadPlace.descent_max_cm p))
     && fgtb (PayloadPlace.descent_start_altitude_cm p
              - get_pos_desired_U_cm (pos_control env))%Q
             (PayloadPlace.descent_max_cm p)
  then
    set_pp (pp_set_state PayloadPlace.Ascent_Start) ;;
    call (gcs_send_text MAV_SEVERITY_WARNING "%s Reached maximum descent" [])
  else if fgtb (get_vel_desired_U_cms (pos_control env))
               (- (95 # 100) * PayloadPlace.descent_speed_cms p)%Q
  then
    set_pp (pp_set_descent_established_time_ms now_ms)
  else if sub_uint32 now_ms (PayloadPlace.descent_established_time_ms p)
          <? descent_thrust_cal_duration_ms
  then
    set_pp (pp_set_descent_thrust_level
              (MINf (PayloadPlace.descent_thrust_level p) thrust_level)) ;;
    set_pp (pp_set_place_start_time_ms now_ms)
  else if fgtb thrust_level placed_threshold
  then
    set_pp (pp_set_place_start_time_ms now_ms)
  else if is_positive (pldp_range_finder_maximum_m (g env))
  then
    if negb (rangefinder_enabled (payload env)) then
      set_pp (pp_set_state PayloadPlace.Ascent_Start) ;;
      call (gcs_send_text MAV_SEVERITY_WARNING
              "%s PLDP_RNG_MAX set and rangefinder not enabled" [])
    else if rangefinder_alt_ok (payload env)
            && (rangefinder_glitch_count (payload env) =? 0)
            && fgtb (inject_Z (rangefinder_alt_cm (payload env)))
                    (pldp_range_finder_maximum_m (g env) * 100)%Q
    then
      set_pp (pp_set_place_start_time_ms now_ms)
    else check_placed
  else check_placed.

Definition PayloadPlace_case_Descent_Start (env : Env) : M unit :=
  set_pp (pp_set_descent_established_time_ms (millis (copter env))) ;;
  set_pp (pp_set_descent_start_altitude_cm (get_pos_desired_U_cm (pos_control env))) ;;
  set_pp (pp_set_descent_speed_cms
            (MINf (if is_positive (pldp_descent_speed_ms (g env))
                   then (pldp_descent_speed_ms (g env) * 100)%Q
                   else inject_Z (Z.abs (land_speed (g env))))
                  (get_default_speed_down_cms (wp_nav env)))) ;;
  set_pp (pp_set_descent_thrust_level 1) ;;
  set_pp (pp_set_state PayloadPlace.Descent) ;;
  PayloadPlace_case_Descent env.

(** First block: landing detected. *)
Definition PayloadPlace_landed_block (env : Env) : M unit :=
  when (land_complete (copter env) || land_complete_maybe (copter env))
    (call pos_control_soften_for_landing_NE ;;
     s <- get ;;
     match pp_state s with
     | PayloadPlace.Descent =>
         call (gcs_send_text MAV_SEVERITY_INFO "%s landed" []) ;;
         set_pp (pp_set_state PayloadPlace.Release)
     | _ => ret tt
     end).

(** Second block: the pilot opened the gripper. *)
Definition PayloadPlace_gripper_block (env : Env) : M unit :=
  when (gripper_valid (payload env) && gripper_released (payload env))
    (s <- get ;;
     match pp_state s with
     | PayloadPlace.FlyToLocation | PayloadPlace.Descent_Start =>
         call (gcs_send_text MAV_SEVERITY_INFO "%s Abort: Gripper Open" []) ;;
         set_pp (pp_set_descent_start_altitude_cm
                   (get_pos_desired_U_cm (pos_control env))) ;;
         set_pp (pp_set_state PayloadPlace.Done)
     | PayloadPlace.Descent =>
         call (gcs_send_text MAV_SEVERITY_INFO "%s Manual release" []) ;;
         set_pp (pp_set_state PayloadPlace.Release)
     | _ => ret tt
     end).

Definition PayloadPlace_state_switch (env : Env) : M unit :=
  s <- get ;;
  match pp_state s with
  | PayloadPlace.FlyToLocation =>
      when (reached_wp_destination (wp_nav env)) (PayloadPlace_start_descent env)
  | PayloadPlace.Descent_Start => PayloadPlace_case_Descent_Start env
  | PayloadPlace.Descent => PayloadPlace_case_Descent env
  | PayloadPlace.Release => PayloadPlace_case_Release env
  | PayloadPlace.Releasing => PayloadPlace_case_Releasing env
  | PayloadPlace.Delay => PayloadPlace_case_Delay env
  | PayloadPlace.Ascent_Start => PayloadPlace_case_Ascent_Start env
  | PayloadPlace.Ascent => PayloadPlace_case_Ascent env
  | PayloadPlace.Done => ret tt
  end.

(** Last [switch (state)]: the controller outputs for the state reached. *)
Definition PayloadPlace_output (env : Env) : M unit :=
  s <- get ;;
  match pp_state s with
  | PayloadPlace.FlyToLocation => wp_run env
  | PayloadPlace.Descent_Start | PayloadPlace.Descent =>
      call land_run_horizontal_control ;;
      call (pos_control_land_at_climb_rate_cm
              (- PayloadPlace.descent_speed_cms (payload_place s))%Q true) ;;
      call pos_control_update_U_controller
  | PayloadPlace.Release | PayloadPlace.Releasing | PayloadPlace.Delay
  | PayloadPlace.Ascent_Start =>
      call land_run_horizontal_control ;;
      call (pos_control_land_at_climb_rate_cm 0 false) ;;
      call pos_control_update_U_controller
  | PayloadPlace.Ascent | PayloadPlace.Done =>
      call land_run_horizontal_control ;;
      call (pos_control_input_pos_vel_accel_U_cm
              (PayloadPlace.descent_start_altitude_cm (payload_place s))) ;;
      call pos_control_update_U_controller
  end.

Definition PayloadPlace_run (env : Env) : M unit :=
  if is_disarmed_or_landed (copter env) then
    call make_safe_ground_handling
  else
    call motors_set_desired_spool_state_THROTTLE_UNLIMITED ;;
    PayloadPlace_landed_block env ;;
    PayloadPlace_gripper_block env ;;
    PayloadPlace_state_switch env ;;
    PayloadPlace_output env.

Definition PayloadPlace_verify (s : ModeAuto) : bool :=
  match pp_state s with
  | PayloadPlace.Done => true
  | _ => false
  end.

(** ** [ModeAuto::run]: the call of the controller of the active submode *)

Definition run_submode (env : Env) : M unit :=
  s <- get ;;
  match _mode s with
  | TAKEOFF => takeoff_run env
  | WP | CIRCLE_MOVE_TO_EDGE => wp_run env
  | LAND => land_run env
  | RTL => rtl_run
  | CIRCLE => circle_run
  | NAVGUIDED | NAV_SCRIPT_TIME => nav_guided_run
  | LOITER => loiter_run env
  | LOITER_TO_ALT => loiter_to_alt_run env
  | NAV_PAYLOAD_PLACE => PayloadPlace_run env
  | NAV_ATTITUDE_TIME => nav_attitude_time_run env
  end.

(** ** Mission commands: start handlers *)

Definition loc_from_cmd (env : Env) (cmd : Mission_Command)
    (default_loc : Location) : Location :=
  let ret0 := location cmd in
  let ret1 :=
    if (lat ret0 =? 0) && (lng ret0 =? 0)
    then set_lat_lng (lat default_loc) (lng default_loc) ret0
    else ret0 in
  if alt ret1 =? 0 then
    match get_alt_cm (others env) default_loc (get_alt_frame ret1) with
    | Some default_alt => set_alt_cm default_alt (get_alt_frame ret1) ret1
    | None => copy_alt_from default_loc ret1
    end
  else ret1.

(** [subtract_pos_offsets]: the shift itself is [Location::offset]. *)
Definition subtract_pos_offsets (env : Env) (target_loc : Location) : Location :=
  offset_by_pos_offsets (others env) target_loc.

Definition do_takeoff (env : Env) (cmd : Mission_Command) : M unit :=
  takeoff_start env (location cmd).

(** The default location of the waypoint-like commands: the current
    location, or the previous destination when it has been reached. *)
Definition default_loc_for_cmd (env : Env) : M Location :=
  let default_loc := subtract_pos_offsets env (current_loc (copter env)) in
  if is_active (wp_nav env) && reached_wp_destination (wp_nav env) then
    match get_wp_destination_loc (wp_nav env) with
    | Some l => ret l
    | None => call INTERNAL_ERROR_flow_of_control ;; ret default_loc
    end
  else ret default_loc.

Definition do_loiter_unlimited (env : Env) (cmd : Mission_Command) : M unit :=
  default_loc <- default_loc_for_cmd env ;;
  let target_loc := loc_from_cmd env cmd default_loc in
  started <- wp_start env target_loc ;;
  when (negb started) (call failsafe_terrain_on_event).

Definition do_circle (env : Env) (cmd : Mission_Command) : M unit :=
  let default_loc := subtract_pos_offsets env (current_loc (copter env)) in
  let circle_center := loc_from_cmd env cmd default_loc in
  let circle_radius_m :=
    match id cmd with
    | MAV_CMD_NAV_LOITER_TURNS =>
        if Z.testbit (type_specific_bits cmd) 0
        then (HIGHBYTE (p1 cmd) * 10) mod 2 ^ 16
        else HIGHBYTE (p1 cmd)
    | _ => HIGHBYTE (p1 cmd)
    end in
  let circle_direction_ccw := loiter_ccw (location cmd) in
  circle_movetoedge_start env circle_center (inject_Z circle_radius_m)
                          circle_direction_ccw ;;
  modify (set_circle_last_num_complete (-1)%Q).

Definition do_loiter_time (env : Env) (cmd : Mission_Command) : M unit :=
  do_loiter_unlimited env cmd ;;
  modify (set_loiter_time 0) ;;
  modify (set_loiter_time_max (p1 cmd)).

(** The location whose altitude [do_loiter_to_alt] resolves: the command's,
    at the current position when the command names none. *)
Definition loiter_to_alt_target_loc (env : Env) (cmd : Mission_Command) : Location :=
  if (lat (location cmd) =? 0) && (lng (location cmd) =? 0)
  then set_lat_lng (lat (current_loc (copter env)))
                   (lng (current_loc (copter env))) (location cmd)
  else location cmd.

Definition do_loiter_to_alt (env : Env) (cmd : Mission_Command) : M unit :=
  do_loiter_unlimited env cmd ;;
  match get_alt_cm (others env) (loiter_to_alt_target_loc env cmd) ABOVE_HOME with
  | None =>
      set_lta (lta_set_reached_destination_xy true) ;;
      set_lta (lta_set_reached_alt true) ;;
      call (gcs_send_text MAV_SEVERITY_INFO "bad do_loiter_to_alt" [])
  | Some a =>
      set_lta (lta_set_target_alt a) ;;
      set_lta (lta_set_reached_destination_xy false) ;;
      set_lta (lta_set_loiter_start_done false) ;;
      set_lta (lta_set_reached_alt false) ;;
      set_lta (lta_set_alt_error_cm 0) ;;
      call pos_control_set_max_speed_accel_U_cm ;;
      call pos_control_set_correction_speed_accel_U_cmss ;;
      set_submode LOITER_TO_ALT
  end.

(** ** Mission commands: verify handlers *)

Definition verify_takeoff (env : Env) : M bool :=
  when (auto_takeoff_complete (others env)) (call landinggear_retract_after_takeoff) ;;
  ret (auto_takeoff_complete (others env)).

(** [state] has two values, so the [default] label of the source's switch
    (an internal error) is never taken. *)
Definition verify_land (env : Env) : M bool :=
  s <- get ;;
  match state s with
  | FlyToLocation =>
      when (reached_wp_destination (wp_nav env))
        (land_start env ;; modify (set_state Descending)) ;;
      ret false
  | Descending =>
      let retval := land_complete (copter env)
                    && spool_state_is_GROUND_IDLE (copter env) in
      if retval && negb (continue_after_land_check_for_takeoff (copter env))
         && motors_armed (copter env)
      then call arming_disarm_LANDED ;; ret false
      else ret retval
  end.

Definition verify_loiter_unlimited : M bool := ret false.

(** The loiter timer shared by the waypoint-like verify handlers:
    [((millis() - loiter_time) / 1000) >= loiter_time_max]. *)
Definition loiter_timer_expired (env : Env) (s : ModeAuto) : bool :=
  sub_uint32 (millis (copter env)) (loiter_time s) / 1000 >=? loiter_time_max s.

Definition verify_loiter_time (env : Env) (cmd : Mission_Command) : M bool :=
  if negb (reached_wp_destination (wp_nav env)) then ret false
  else
    s <- get ;;
    when (loiter_time s =? 0) (modify (set_loiter_time (millis (copter env)))) ;;
    s <- get ;;
    if loiter_timer_expired env s then
      call (gcs_send_text MAV_SEVERITY_INFO "Reached command #%i" [inject_Z (index cmd)]) ;;
      ret true
    else ret false.

Definition verify_loiter_to_alt : M bool :=
  s <- get ;;
  ret (reached_destination_xy (loiter_to_alt s) && reached_alt (loiter_to_alt s)).

Definition verify_RTL (env : Env) : M bool :=
  ret (mode_rtl_state_complete (others env)
       && mode_rtl_state_is_FINAL_DESCENT_or_LAND (others env)
       && spool_state_is_GROUND_IDLE (copter env)).

Definition verify_wait_delay (env : Env) : M bool :=
  s <- get ;;
  if sub_uint32 (millis (copter env)) (condition_start s)
     >? wrap_uint32 (MAXi (condition_value s) 0)
  then modify (set_condition_value 0) ;; ret true
  else ret false.

Definition wp_distance_m (env : Env) (s : ModeAuto) : Q :=
  match _mode s with
  | CIRCLE => (get_distance_to_target_cm (circle_nav env) * (1 # 100))%Q
  | _ => (get_wp_distance_to_destination_cm (wp_nav env) * (1 # 100))%Q
  end.

Definition verify_within_distance (env : Env) : M bool :=
  s <- get ;;
  if fltb (wp_distance_m env s) (inject_Z (MAXi (condition_value s) 0))
  then modify (set_condition_value 0) ;; ret true
  else ret false.

Definition verify_yaw (env : Env) : M bool :=
  modify (set_auto_yaw AutoYaw.FIXED) ;;
  ret (reached_fixed_yaw_target (others env)).

Definition verify_nav_wp (env : Env) (cmd : Mission_Command) : M bool :=
  if negb (reached_wp_destination (wp_nav env)) then ret false
  else
    s <- get ;;
    when (loiter_time s =? 0)
      (modify (set_loiter_time (millis (copter env))) ;;
       when (loiter_time_max s >? 0) (call AP_Notify_events_waypoint_complete)) ;;
    s <- get ;;
    if loiter_timer_expired env s then
      when (loiter_time_max s =? 0) (call AP_Notify_events_waypoint_complete) ;;
      call (gcs_send_text MAV_SEVERITY_INFO "Reached command #%i" [inject_Z (index cmd)]) ;;
      ret true
    else ret false.

Definition verify_circle (env : Env) (cmd : Mission_Command) : M bool :=
  s <- get ;;
  if SubMode_eqb (_mode s) CIRCLE_MOVE_TO_EDGE then
    when (reached_wp_destination (wp_nav env)) circle_start ;;
    ret false
  else
    let turns := loiter_turns cmd in
    let num_circles_completed := fabsf (get_angle_total_turns (circle_nav env)) in
    when (negb (float_to_int num_circles_completed
                =? float_to_int (circle_last_num_complete s)))
      (modify (set_circle_last_num_complete num_circles_completed) ;;
       call (gcs_send_text MAV_SEVERITY_INFO "Mission: starting circle %u/%u"
               [inject_Z (float_to_int num_circles_completed + 1);
                inject_Z (float_to_int turns)])) ;;
    ret (fgeb num_circles_completed turns).

Definition verify_spline_wp (env : Env) (cmd : Mission_Command) : M bool :=
  if negb (reached_wp_destination (wp_nav env)) then ret false
  else
    s <- get ;;
    when (loiter_time s =? 0) (modify (set_loiter_time (millis (copter env)))) ;;
    s <- get ;;
    if loiter_timer_expired env s then
      call (gcs_send_text MAV_SEVERITY_INFO "Reached command #%i" [inject_Z (index cmd)]) ;;
      ret true
    else ret false.

Definition verify_nav_guided_enable (env : Env) (cmd : Mission_Command) : M bool :=
  if p1 cmd =? 0 then ret true
  else ret (mode_guided_limit_check (others env)).

Definition verify_nav_delay (env : Env) (cmd : Mission_Command) : M bool :=
  s <- get ;;
  if sub_uint32 (millis (copter env)) (nav_delay_time_start_ms s)
     >? nav_delay_time_max_ms s
  then modify (set_nav_delay_time_max_ms 0) ;; ret true
  else ret false.

Definition verify_nav_script_time (env : Env) : M bool :=
  s <- get ;;
  ret (done (nav_scripting s)
       || ((timeout_s (nav_scripting s) >? 0)
           && (sub_uint32 (millis (copter env)) (start_ms (nav_scripting s))
               >? timeout_s (nav_scripting s) * 1000))).

Definition verify_nav_attitude_time (env : Env) (cmd : Mission_Command) : M bool :=
  s <- get ;;
  ret (sub_uint32 (millis (copter env)) (nav_attitude_time_start_ms s)
       >? time_sec cmd * 1000).

(** The end of [verify_command], after its switch has set [cmd_complete]:
    "send message to GCS", then return. *)
Definition verify_command_finish (cmd : Mission_Command) (verify : M bool) : M bool :=
  cmd_complete <- verify ;;
  when cmd_complete (call (gcs_send_mission_item_reached_message (index cmd))) ;;
  ret cmd_complete.

Definition verify_command (env : Env) (cmd : Mission_Command) : M bool :=
  if negb (flightmode_is_mode_auto (copter env)) then ret false
  else
    let finish := verify_command_finish cmd in
    match id cmd with
    | MAV_CMD_NAV_VTOL_TAKEOFF | MAV_CMD_NAV_TAKEOFF => finish (verify_takeoff env)
    | MAV_CMD_NAV_WAYPOINT => finish (verify_nav_wp env cmd)
    | MAV_CMD_NAV_VTOL_LAND | MAV_CMD_NAV_LAND => finish (verify_land env)
    | MAV_CMD_NAV_PAYLOAD_PLACE => finish (s <- get ;; ret (PayloadPlace_verify s))
    | MAV_CMD_NAV_LOITER_UNLIM => finish verify_loiter_unlimited
    | MAV_CMD_NAV_LOITER_TURNS => finish (verify_circle env cmd)
    | MAV_CMD_NAV_LOITER_TIME => finish (verify_loiter_time env cmd)
    | MAV_CMD_NAV_LOITER_TO_ALT => verify_loiter_to_alt
    | MAV_CMD_NAV_RETURN_TO_LAUNCH => finish (verify_RTL env)
    | MAV_CMD_NAV_SPLINE_WAYPOINT => finish (verify_spline_wp env cmd)
    | MAV_CMD_NAV_GUIDED_ENABLE => finish (verify_nav_guided_enable env cmd)
    | MAV_CMD_NAV_DELAY => finish (verify_nav_delay env cmd)
    | MAV_CMD_NAV_SCRIPT_TIME => finish (verify_nav_script_time env)
    | MAV_CMD_NAV_ATTITUDE_TIME => finish (verify_nav_attitude_time env cmd)
    | MAV_CMD_CONDITION_DELAY => finish (verify_wait_delay env)
    | MAV_CMD_CONDITION_DISTANCE => finish (verify_within_distance env)
    | MAV_CMD_CONDITION_YAW => finish (verify_yaw env)
    | MAV_CMD_DO_CHANGE_SPEED | MAV_CMD_DO_SET_HOME | MAV_CMD_DO_SET_ROI_LOCATION
    | MAV_CMD_DO_SET_ROI_NONE | MAV_CMD_DO_SET_ROI | MAV_CMD_DO_MOUNT_CONTROL
    | MAV_CMD_DO_GUIDED_LIMITS | MAV_CMD_DO_FENCE_ENABLE | MAV_CMD_DO_WINCH
    | MAV_CMD_DO_RETURN_PATH_START | MAV_CMD_DO_LAND_START => finish (ret true)
    | MAV_CMD_other raw_id =>
        finish (call (gcs_send_text MAV_SEVERITY_WARNING "Skipping invalid cmd #%i"
                        [inject_Z raw_id]) ;;
                ret true)
    end.

(** ** Sequences of calls *)

(** The controller of the active submode, called once per element of
    [envs]. *)
Fixpoint run_ticks (envs : list Env) (s : ModeAuto) : ModeAuto :=
  match envs with
  | [] => s
  | env :: rest => run_ticks rest (after (run_submode env s))
  end.

Fixpoint loiter_to_alt_ticks (envs : list Env) (s : ModeAuto) : ModeAuto :=
  match envs with
  | [] => s
  | env :: rest => loiter_to_alt_ticks rest (after (loiter_to_alt_run env s))
  end.

(** Polls of [verify_circle] for one command: the results and the calls
    made, poll by poll. *)
Fixpoint verify_circle_polls (envs : list Env) (cmd : Mission_Command)
    (s : ModeAuto) : list (bool * list Action) :=
  match envs with
  | [] => []
  | env :: rest =>
      let r := verify_circle env cmd s in
      (result r, calls r) :: verify_circle_polls rest cmd (after r)
  end.

(** ** Vocabulary of the properties *)

(** Calls that ask the motors or the controllers for thrust. *)
Definition commands_thrust (a : Action) : bool :=
  match a with
  | motors_set_desired_spool_state_THROTTLE_UNLIMITED
  | pos_control_update_U_controller
  | pos_control_set_pos_target_U_from_climb_rate_cm
  | pos_control_land_at_climb_rate_cm _ _
  | pos_control_input_pos_vel_accel_U_cm _
  | attitude_control_input_thrust_vector_heading
  | attitude_control_input_euler_angle_roll_pitch_yaw_rad => true
  | _ => false
  end.

Definition is_make_safe_ground_handling (a : Action) : bool :=
  match a with make_safe_ground_handling => true | _ => false end.

(** A tick that is safe on the ground: it asks for safe ground handling and
    for no thrust. *)
Definition safe_on_ground (l : list Action) : bool :=
  existsb is_make_safe_ground_handling l && negb (existsb commands_thrust l).

(** The submodes whose controller is written in this file with the
    disarmed-or-landed guard. *)
Definition guarded_submode (m : SubMode) : bool :=
  match m with
  | WP | CIRCLE_MOVE_TO_EDGE | LAND | LOITER | LOITER_TO_ALT
  | NAV_PAYLOAD_PLACE | NAV_ATTITUDE_TIME => true
  | TAKEOFF | RTL | CIRCLE | NAVGUIDED | NAV_SCRIPT_TIME => false
  end.

Definition is_mission_item_reached (a : Action) : bool :=
  match a with gcs_send_mission_item_reached_message _ => true | _ => false end.

Definition is_starting_circle (a : Action) : bool :=
  match a with
  | gcs_send_text _ fmt _ => String.eqb fmt "Mission: starting circle %u/%u"
  | _ => false
  end.

(** One step forward in the payload-place order, or the jump to
    [Ascent_Start]: the only moves the linear reading of the state machine
    allows. *)
Definition linear_or_abort_to_Ascent_Start (a b : PayloadPlace.State) : bool :=
  PayloadPlace.eqb a b
  || (PayloadPlace.rank b =? PayloadPlace.rank a + 1)
  || PayloadPlace.eqb b PayloadPlace.Ascent_Start.

(** The moves one call of [PayloadPlace::run] can make. *)
Definition PayloadPlace_edge (a b : PayloadPlace.State) : bool :=
  PayloadPlace.eqb a b ||
  match a, b with
  | PayloadPlace.FlyToLocation, (PayloadPlace.Descent_Start | PayloadPlace.Done)
  | PayloadPlace.Descent_Start, (PayloadPlace.Descent | PayloadPlace.Ascent_Start
                                 | PayloadPlace.Done)
  | PayloadPlace.Descent, (PayloadPlace.Release | PayloadPlace.Releasing
                           | PayloadPlace.Delay | PayloadPlace.Ascent_Start)
  | PayloadPlace.Release, (PayloadPlace.Releasing | PayloadPlace.Delay)
  | PayloadPlace.Releasing, (PayloadPlace.Delay | PayloadPlace.Ascent | PayloadPlace.Done)
  | PayloadPlace.Delay, (PayloadPlace.Ascent | PayloadPlace.Done)
  | PayloadPlace.Ascent_Start, (PayloadPlace.Ascent | PayloadPlace.Done)
  | PayloadPlace.Ascent, PayloadPlace.Done => true
  | _, _ => false
  end.

(** The loiter-to-altitude tick gets as far as the altitude check. *)
Definition loiter_to_alt_checks_altitude (env : Env) (s : ModeAuto) : bool :=
  negb (is_disarmed_or_landed (copter env) || negb (get_interlock (copter env)))
  && (reached_destination_xy (loiter_to_alt s)
      || reached_wp_destination_NE (wp_nav env)).

(** The reading of [loc_from_cmd] in which every zero field is replaced on
    its own account. *)
Definition resolves_per_field (env : Env) (cmd : Mission_Command)
    (default_loc : Location) : bool :=
  let r := loc_from_cmd env cmd default_loc in
  (lat r =? (if lat (location cmd) =? 0 then lat default_loc else lat (location cmd)))
  && (lng r =? (if lng (location cmd) =? 0 then lng default_loc else lng (location cmd)))
  && (if alt (location cmd) =? 0 then true else alt r =? alt (location cmd)).

(** [init] refuses with no state change at all. *)
Definition refuses_without_change (r : bool * ModeAuto * list Action)
    (s : ModeAuto) : Prop :=
  result r = false /\ after r = s.

(** What the verify handlers themselves send never includes the
    mission-item-reached message. *)
Definition silent (verify : M bool) : Prop :=
  forall s, filter is_mission_item_reached (calls (verify s)) = [].

(** [keeps f m]: running [m] does not change what [f] reads in the state. *)
Definition keeps {X A} (f : ModeAuto -> X) (m : M A) : Prop :=
  forall s, f (after (m s)) = f s.

(** The reading of the altitude check in which every tick performs it. *)
Definition reached_alt_set_on_every_tick (env : Env) (s : ModeAuto) : bool :=
  let e := loiter_to_alt_error_cm env s in
  let prev := alt_error_cm (loiter_to_alt s) in
  Bool.eqb (reached_alt (loiter_to_alt (after (loiter_to_alt_run env s))))
           (reached_alt (loiter_to_alt s) || fltb (fabsf e) 5 || fltb (e * prev) 0).

(** The command completed itself: both flags of the struct are set. *)
Definition self_completed (s : ModeAuto) : bool :=
  reached_destination_xy (loiter_to_alt s) && reached_alt (loiter_to_alt s).

(** The reading of the state machine as a line with aborts to
    [Ascent_Start] only: what C2 states about one call of [run]. *)
Definition moves_linearly (env : Env) (s : ModeAuto) : bool :=
  linear_or_abort_to_Ascent_Start
    (pp_state s) (pp_state (after (PayloadPlace_run env s))).

(** The moves of the main switch alone. *)
Definition PayloadPlace_switch_edge (a b : PayloadPlace.State) : bool :=
  match a, b with
  | PayloadPlace.FlyToLocation, (PayloadPlace.FlyToLocation | PayloadPlace.Descent_Start)
  | PayloadPlace.Descent_Start, (PayloadPlace.Descent | PayloadPlace.Ascent_Start)
  | PayloadPlace.Descent, (PayloadPlace.Descent | PayloadPlace.Ascent_Start
                           | PayloadPlace.Release)
  | PayloadPlace.Release, (PayloadPlace.Releasing | PayloadPlace.Delay)
  | PayloadPlace.Releasing, (PayloadPlace.Releasing | PayloadPlace.Delay
                             | PayloadPlace.Ascent | PayloadPlace.Done)
  | PayloadPlace.Delay, (PayloadPlace.Delay | PayloadPlace.Ascent | PayloadPlace.Done)
  | PayloadPlace.Ascent_Start, (PayloadPlace.Ascent | PayloadPlace.Done)
  | PayloadPlace.Ascent, (PayloadPlace.Ascent | PayloadPlace.Done)
  | PayloadPlace.Done, PayloadPlace.Done => true
  | _, _ => false
  end.

(** The reading of the sanity check as a bound by the current altitude
    itself: target >= current altitude + 100 cm when landed, + 0 cm
    otherwise. *)
Definition takeoff_target_clears_current_alt (env : Env) (dest_loc : Location) : bool :=
  fleb (takeoff_current_alt_cm env dest_loc
        + inject_Z (if land_complete (copter env) then 100 else 0))%Q
       (inject_Z (takeoff_alt_target_cm env dest_loc)).

(** The progress text of [verify_circle]. *)
Definition starting_circle (k n : Z) : Action :=
  gcs_send_text MAV_SEVERITY_INFO "Mission: starting circle %u/%u"
                [inject_Z k; inject_Z n].

(** ** A concrete vehicle, used to run the functions on examples *)

Module Fixture.

Definition loc (la lo al : Z) (f : AltFrame) : Location :=
  {| lat := la; lng := lo; alt := al; alt_frame := f; loiter_ccw := false |}.

Definition cmd (c : MAV_CMD) (l : Location) (turns : Q) : Mission_Command :=
  {| id := c; index := 3; p1 := 2; location := l; type_specific_bits := 0;
     loiter_turns := turns; time_sec := 0 |}.

(** The vehicle, armed: in Auto or not, landed or not, possibly landed or
    not, at altitude [al] above home. *)
Definition vehicle (in_auto on_ground maybe_landed : bool) (al : Z) : Copter :=
  {| motors_armed := true; land_complete := on_ground;
     land_complete_maybe := maybe_landed; is_disarmed_or_landed := on_ground;
     get_interlock := true; spool_state_is_GROUND_IDLE := false;
     flightmode_is_mode_auto := in_auto; millis := 60000;
     current_loc := loc 10 20 al ABOVE_HOME; current_loc_initialised := true;
     mission_present := false; starts_with_takeoff_cmd := false;
     continue_after_land_check_for_takeoff := false |}.

(** The same vehicle with a mission loaded that does not begin with a
    takeoff. *)
Definition with_mission (c : Copter) : Copter :=
  {| motors_armed := motors_armed c; land_complete := land_complete c;
     land_complete_maybe := land_complete_maybe c;
     is_disarmed_or_landed := is_disarmed_or_landed c;
     get_interlock := get_interlock c;
     spool_state_is_GROUND_IDLE := spool_state_is_GROUND_IDLE c;
     flightmode_is_mode_auto := flightmode_is_mode_auto c; millis := millis c;
     current_loc := current_loc c;
     current_loc_initialised := current_loc_initialised c;
     mission_present := true; starts_with_takeoff_cmd := false;
     continue_after_land_check_for_takeoff := false |}.

Definition navigation (reached : bool) : AC_WPNav :=
  {| is_active := true; reached_wp_destination := reached;
     reached_wp_destination_NE := reached;
     set_wp_destination_loc := fun _ => true;
     get_wp_destination_loc := Some (loc 10 20 1000 ABOVE_HOME);
     get_wp_distance_to_destination_cm := 0;
     get_default_speed_down_cms := 150;
     get_terrain_offset_cm := None |}.

Definition position (z : Q) : AC_PosControl :=
  {| get_pos_estimate_U_cm := z; get_pos_desired_U_cm := z;
     get_vel_desired_U_cms := 0; get_max_speed_up_cms := 250;
     get_max_accel_U_cmss := 100; is_active_NE := true; is_active_U := true |}.

Definition circling (turns : Q) : AC_Circle :=
  {| get_angle_total_turns := turns; get_distance_to_target_cm := 0;
     get_rate_degs := 20; get_radius_cm := 1000;
     closest_point_on_circle := loc 10 20 0 ABOVE_ORIGIN;
     dist_to_edge := 0; dist_to_center := 1000 |}.

Definition gripper (valid released : bool) : Payload :=
  {| gripper_valid := valid; gripper_released := released;
     rangefinder_enabled := false; rangefinder_alt_ok := false;
     rangefinder_glitch_count := 0; rangefinder_alt_cm := 0;
     get_throttle_in := 1 # 2 |}.

Definition parameters : Parameters :=
  {| auto_options := 0; Option_AllowTakeOffWithoutRaisingThrottle := 2;
     pldp_descent_speed_ms := 0; land_speed := 50;
     pldp_thrust_placed_fraction := 9 # 10;
     pldp_range_finder_maximum_m := 0; pldp_delay_s := 0;
     wp_yaw_behavior_is_NONE := false |}.

(** [alt_cm] answers every frame conversion of an altitude. *)
Definition library (alt_cm : option Z) : Others :=
  {| auto_takeoff_complete := false; auto_takeoff_get_completion_pos := false;
     mode_rtl_state_complete := false;
     mode_rtl_state_is_FINAL_DESCENT_or_LAND := false;
     mode_guided_limit_check := false; reached_fixed_yaw_target := false;
     get_alt_cm := fun _ _ => alt_cm;
     offset_by_pos_offsets := fun l => l |}.

Definition env (v : Copter) (reached : bool) (z turns : Q) (p : Payload)
    (alt_cm : option Z) : Env :=
  {| copter := v; wp_nav := navigation reached; pos_control := position z;
     circle_nav := circling turns; payload := p; g := parameters;
     others := library alt_cm |}.

(** In Auto, flying at 10 m, destination not reached. *)
Definition flying : Env :=
  env (vehicle true false false 1000) false 1000 0 (gripper false false) (Some 900).

(** The same vehicle on the ground. *)
Definition on_ground : Env :=
  env (vehicle true true true 1000) false 1000 0 (gripper false false) (Some 900).

(** The mode as it is before its first use, in submode [m], with the
    payload-place state machine in [p]. *)
Definition mode (m : SubMode) (p : PayloadPlace.State) : ModeAuto :=
  {| _mode := m; auto_RTL := false; waiting_to_start := false;
     desired_speed_override := {| xy := 0; up := 0; down := 0 |};
     auto_yaw := AutoYaw.HOLD; loiter_time := 0; loiter_time_max := 0;
     loiter_to_alt :=
       {| reached_destination_xy := false; loiter_start_done := false;
          reached_alt := false; alt_error_cm := 0; target_alt := 1000 |};
     payload_place :=
       {| PayloadPlace.state := p;
          PayloadPlace.descent_established_time_ms := 0;
          PayloadPlace.place_start_time_ms := 0;
          PayloadPlace.descent_thrust_level := 1;
          PayloadPlace.descent_start_altitude_cm := 0;
          PayloadPlace.descent_speed_cms := 0;
          PayloadPlace.descent_max_cm := 0 |};
     state := FlyToLocation; circle_last_num_complete := 0;
     nav_delay_time_start_ms := 0; nav_delay_time_max_ms := 0;
     nav_scripting := {| done := false; start_ms := 0; timeout_s := 0 |};
     nav_attitude_time_start_ms := 0; condition_start := 0;
     condition_value := 0 |}.

End Fixture.

(** * Further functions of the mode *)

(** ** Small queries *)

Definition requires_GPS (s : ModeAuto) : bool :=
  negb (SubMode_eqb (_mode s) NAV_ATTITUDE_TIME).

(** [mode_rtl_is_landing] is the answer of [copter.mode_rtl.is_landing()]. *)
Definition is_landing (mode_rtl_is_landing : bool) (s : ModeAuto) : bool :=
  match _mode s with
  | LAND => true
  | RTL => mode_rtl_is_landing
  | _ => false
  end.

Definition is_taking_off (env : Env) (s : ModeAuto) : bool :=
  SubMode_eqb (_mode s) TAKEOFF && negb (auto_takeoff_complete (others env)).

(** [Option_AllowArming] is the value of that enumerator of
    [ModeAuto::Option]. *)
Definition allows_arming (env : Env) (Option_AllowArming : Z) (s : ModeAuto) : bool :=
  if auto_RTL s then false else option_is_enabled env Option_AllowArming.

(** ** Speed overrides *)

Definition dso_set_up (v : Q) (d : desired_speed_override_t) : desired_speed_override_t :=
  {| xy := xy d; up := v; down := down d |}.

Definition dso_set_down (v : Q) (d : desired_speed_override_t) : desired_speed_override_t :=
  {| xy := xy d; up := up d; down := v |}.

Definition set_speed_up_cms (speed_up_cms : Q) : M bool :=
  call (wp_nav_set_speed_up_cms speed_up_cms) ;;
  modify (fun s => set_desired_speed_override
                     (dso_set_up (speed_up_cms * (1 # 100))%Q (desired_speed_override s)) s) ;;
  ret true.

Definition set_speed_down_cms (speed_down_cms : Q) : M bool :=
  call (wp_nav_set_speed_down_cms speed_down_cms) ;;
  modify (fun s => set_desired_speed_override
                     (dso_set_down (speed_down_cms * (1 # 100))%Q (desired_speed_override s)) s) ;;
  ret true.

(** ** Condition delay

    [cmd.content.delay.seconds * 1000] is a product of [float]s: it is
    rounded to single precision before it is converted to [int32_t], and
    the rounding decides the millisecond that is stored (4.1f gives 4100,
    where the exact product of 4.1f and 1000 would give 4099).  A [float]
    is here a [spec_float] of the Standard Library at precision 24 and
    maximal exponent 128, and the product is its [SFmul], rounded to
    nearest, ties to even. *)

From Stdlib Require SpecFloat.

Definition float32 : Type := SpecFloat.spec_float.

Definition float32_mul (x y : float32) : float32 := SpecFloat.SFmul 24 128 x y.

Definition float32_div (x y : float32) : float32 := SpecFloat.SFdiv 24 128 x y.

(** The conversion of an integer to [float]. *)
Definition float32_of_int (z : Z) : float32 :=
  SpecFloat.binary_normalize 24 128 z 0 false.

Definition float32_is_finite (x : float32) : bool :=
  match x with
  | SpecFloat.S754_zero _ | SpecFloat.S754_finite _ _ _ => true
  | _ => false
  end.

(** The conversion of a [float] to an integer type: the fraction is
    dropped.  C++ defines it only for a finite value that fits the integer
    type; elsewhere this function answers 0, or the integer that does not
    fit. *)
Definition float32_to_int (x : float32) : Z :=
  match x with
  | SpecFloat.S754_finite s m e =>
      let magnitude :=
        if 0 <=? e then Zpos m * 2 ^ e else Z.quot (Zpos m) (2 ^ (- e)) in
      if s then - magnitude else magnitude
  | _ => 0
  end.

(** [seconds] is [cmd.content.delay.seconds], a [float]; the product is
    stored in the [int32_t] [condition_value]. *)
Definition do_wait_delay (env : Env) (seconds : float32) : M unit :=
  modify (set_condition_start (millis (copter env))) ;;
  modify (set_condition_value
            (float32_to_int (float32_mul seconds (float32_of_int 1000)))).


(** ** Land, payload place and waypoint commands

    Answers of the collaborators that the functions above do not ask
    for; one [Reads] holds them for one call, like [Env]. *)
Record Reads := {
  (* wp_nav->get_terrain_source() == AC_WPNav::TerrainSource::TERRAIN_FROM_RANGEFINDER *)
  terrain_source_is_TERRAIN_FROM_RANGEFINDER : bool;
  get_rangefinder_height_interpolated_cm : option Z;
  get_pos_offset_U_cm : Q;
  (* Location::change_alt_frame: the location in the frame asked for *)
  change_alt_frame : Location -> AltFrame -> option Location;
  set_wp_destination_next_loc : Location -> bool;
  set_spline_destination_loc : Location -> Location -> bool -> bool;
  set_spline_destination_next_loc : Location -> Location -> bool -> bool;
  (* mission.get_next_nav_cmd, by start index *)
  get_next_nav_cmd : Z -> option Mission_Command
}.

(** The new [target_loc], or [None] where the source returns false and
    leaves [target_loc] alone.  The differences with the position offset
    are [float]s stored in [int32_t]s. *)
Definition shift_alt_to_current_alt (env : Env) (rd : Reads)
    (target_loc : Location) : option Location :=
  if AltFrame_eqb (get_alt_frame target_loc) ABOVE_TERRAIN
     && terrain_source_is_TERRAIN_FROM_RANGEFINDER rd
  then
    match get_rangefinder_height_interpolated_cm rd with
    | Some curr_rngfnd_alt_cm =>
        let curr_rngfnd_alt_cm :=
          float_to_int (inject_Z curr_rngfnd_alt_cm - get_pos_offset_U_cm rd)%Q in
        Some (set_alt_cm (MAXi curr_rngfnd_alt_cm 200) ABOVE_TERRAIN target_loc)
    | None => None
    end
  else
    match change_alt_frame rd (current_loc (copter env)) (get_alt_frame target_loc) with
    | None => None
    | Some currloc =>
        Some (set_alt_cm (float_to_int (inject_Z (alt currloc) - get_pos_offset_U_cm rd)%Q)
                         (get_alt_frame currloc) target_loc)
    end.

(** [cmd.content.location.lat != 0 || cmd.content.location.lng != 0]. *)
Definition location_provided (cmd : Mission_Command) : bool :=
  negb (lat (location cmd) =? 0) || negb (lng (location cmd) =? 0).

(** The target of a land or payload-place command with a location: the
    location at the current altitude, or at the current altitude above
    home, with an error logged and reported, when the shift fails. *)
Definition target_at_current_alt (env : Env) (rd : Reads) (cmd : Mission_Command)
    (report : string) : M Location :=
  match shift_alt_to_current_alt env rd (location cmd) with
  | Some target_loc => ret target_loc
  | None =>
      call LOGGER_WRITE_ERROR_MISSING_TERRAIN_DATA ;;
      call (gcs_send_text MAV_SEVERITY_CRITICAL report []) ;;
      ret (set_alt_cm (alt (current_loc (copter env))) ABOVE_HOME (location cmd))
  end.

Definition do_land (env : Env) (rd : Reads) (cmd : Mission_Command) : M unit :=
  if location_provided cmd then
    modify (set_state FlyToLocation) ;;
    target_loc <- target_at_current_alt env rd cmd
                    "Land: no terrain data, using alt-above-home" ;;
    ok <- wp_start env target_loc ;;
    when (negb ok) (call failsafe_terrain_on_event)
  else
    modify (set_state Descending) ;;
    land_start env.

Definition do_payload_place (env : Env) (rd : Reads) (cmd : Mission_Command) : M unit :=
  let finish :=
    set_pp (pp_set_descent_max_cm (inject_Z (p1 cmd))) ;;
    set_submode NAV_PAYLOAD_PLACE in
  if location_provided cmd then
    set_pp (pp_set_state PayloadPlace.FlyToLocation) ;;
    target_loc <- target_at_current_alt env rd cmd
                    "PayloadPlace: no terrain data, using alt-above-home" ;;
    ok <- wp_start env target_loc ;;
    if negb ok then call failsafe_terrain_on_event
    else finish
  else
    PayloadPlace_start_descent env ;;
    finish.

Definition MAV_CMD_is_NAV_SPLINE_WAYPOINT (c : MAV_CMD) : bool :=
  match c with MAV_CMD_NAV_SPLINE_WAYPOINT => true | _ => false end.

(** [dest_loc], [next_dest_loc] and [next_dest_loc_is_spline]. *)
Definition get_spline_from_cmd (env : Env) (rd : Reads) (cmd : Mission_Command)
    (default_loc : Location) : Location * Location * bool :=
  let dest_loc := loc_from_cmd env cmd default_loc in
  if p1 cmd =? 0 then
    match get_next_nav_cmd rd (index cmd + 1) with
    | Some temp_cmd =>
        (dest_loc, loc_from_cmd env temp_cmd dest_loc,
         MAV_CMD_is_NAV_SPLINE_WAYPOINT (id temp_cmd))
    | None => (dest_loc, dest_loc, false)
    end
  else (dest_loc, dest_loc, false).

Definition set_next_wp (env : Env) (rd : Reads) (current_cmd : Mission_Command)
    (default_loc : Location) : bool :=
  if p1 current_cmd >? 0 then true
  else
    match get_next_nav_cmd rd (index current_cmd + 1) with
    | None => true
    | Some next_cmd =>
        match id next_cmd with
        | MAV_CMD_NAV_WAYPOINT | MAV_CMD_NAV_LOITER_UNLIM
        | MAV_CMD_NAV_PAYLOAD_PLACE | MAV_CMD_NAV_LOITER_TIME =>
            let dest_loc := loc_from_cmd env current_cmd default_loc in
            let next_dest_loc := loc_from_cmd env next_cmd dest_loc in
            set_wp_destination_next_loc rd next_dest_loc
        | MAV_CMD_NAV_SPLINE_WAYPOINT =>
            let '(next_dest_loc, next_next_dest_loc, next_next_dest_loc_is_spline) :=
              get_spline_from_cmd env rd next_cmd default_loc in
            set_spline_destination_next_loc rd next_dest_loc next_next_dest_loc
                                            next_next_dest_loc_is_spline
        | _ => true
        end
    end.

Definition do_nav_wp (env : Env) (rd : Reads) (cmd : Mission_Command) : M unit :=
  default_loc <- default_loc_for_cmd env ;;
  let target_loc := loc_from_cmd env cmd default_loc in
  ok <- wp_start env target_loc ;;
  if negb ok then call failsafe_terrain_on_event
  else
    modify (set_loiter_time 0) ;;
    modify (set_loiter_time_max (p1 cmd)) ;;
    when (negb (set_next_wp env rd cmd target_loc)) (call failsafe_terrain_on_event).

Definition do_spline_wp (env : Env) (rd : Reads) (cmd : Mission_Command) : M unit :=
  default_loc <- default_loc_for_cmd env ;;
  let '(dest_loc, next_dest_loc, next_dest_loc_is_spline) :=
    get_spline_from_cmd env rd cmd default_loc in
  if negb (set_spline_destination_loc rd dest_loc next_dest_loc next_dest_loc_is_spline)
  then call failsafe_terrain_on_event
  else
    modify (set_loiter_time 0) ;;
    modify (set_loiter_time_max (p1 cmd)) ;;
    if negb (set_next_wp env rd cmd dest_loc) then call failsafe_terrain_on_event
    else
      s <- get ;;
      when (negb (AutoYaw.is_ROI (auto_yaw s))
            && negb (AutoYaw.is_FIXED (auto_yaw s) && wp_yaw_behavior_is_NONE (g env)))
        (modify (set_auto_yaw AutoYaw.DEFAULT)) ;;
      set_submode WP.

(** ** Script commands

    [nav_scripting.id], [command] and [arg1] to [arg4], which the state
    above leaves out, are passed explicitly: a function takes the struct
    it finds and returns the one it leaves. *)
Module Scripting.
Record t := { id : Z; command : Z; arg1 : Q; arg2 : Q; arg3 : Z; arg4 : Z }.
End Scripting.

(** [cmd.content.nav_script_time]. *)
Record nav_script_time_Command := {
  script_command : Z;
  script_timeout_s : Z;
  script_arg1 : Q;
  script_arg2 : Q;
  script_arg3 : Z;
  script_arg4 : Z
}.

Definition ns_set_done v (n : nav_scripting_t) : nav_scripting_t :=
  {| done := v; start_ms := start_ms n; timeout_s := timeout_s n |}.

(** [mode_guided_init] is the answer of [copter.mode_guided.init(true)];
    [nav_scripting.id] is a [uint16_t], as the out-parameter of
    [nav_script_time] shows, so [id++] wraps. *)
Definition do_nav_script_time (env : Env) (mode_guided_init : bool)
    (content : nav_script_time_Command) (x : Scripting.t) : M Scripting.t :=
  if mode_guided_init then
    modify (fun s => set_nav_scripting
                       {| done := false; start_ms := millis (copter env);
                          timeout_s := script_timeout_s content |} s) ;;
    set_submode NAV_SCRIPT_TIME ;;
    ret {| Scripting.id := (Scripting.id x + 1) mod 2 ^ 16;
           Scripting.command := script_command content;
           Scripting.arg1 := script_arg1 content;
           Scripting.arg2 := script_arg2 content;
           Scripting.arg3 := script_arg3 content;
           Scripting.arg4 := script_arg4 content |}
  else
    modify (fun s => set_nav_scripting (ns_set_done true (nav_scripting s)) s) ;;
    ret x.

(** The out-parameters, or [None] where the source returns false. *)
Definition nav_script_time (x : Scripting.t) (s : ModeAuto) : option Scripting.t :=
  if SubMode_eqb (_mode s) NAV_SCRIPT_TIME then Some x else None.

Definition nav_script_time_done (id : Z) (x : Scripting.t) : M unit :=
  s <- get ;;
  when (SubMode_eqb (_mode s) NAV_SCRIPT_TIME && (id =? Scripting.id x))
    (modify (fun s => set_nav_scripting (ns_set_done true (nav_scripting s)) s)).

(** * The mission, the flight mode and the speed command

    Calls that the functions above do not make. *)
Inductive ModeReason := MISSION_END | AUTO_RTL_EXIT | ModeReason_other (n : Z).

Inductive Mode_Number := Number_AUTO | Number_LAND.

Inductive More_Action :=
| mission_stop
| mission_set_force_resume (force_resume : bool)
| camera_mount_set_mode_to_default
| logger_Write_Mode (reason : ModeReason)   (* of the current flight mode *)
| LOGGER_WRITE_ERROR_FLIGHT_MODE_AUTO_RTL
| AP_Notify_events_user_mode_change
| AP_Notify_events_user_mode_change_failed
| AP_Notify_events_mission_complete
| wp_nav_set_wp_destination_NEU_cm_stopping_point
| arming_disarm_MISSIONEXIT
| wp_nav_set_speed_NE_cms (speed_cms : Q).

Inductive Call :=
| old (a : Action)
| new (a : More_Action).

(** A function that makes such calls: as [M], with the longer list. *)
Definition M2 (A : Type) : Type := ModeAuto -> A * ModeAuto * list Call.

Definition ret2 {A} (a : A) : M2 A := fun s => (a, s, []).

Definition bind2 {A B} (m : M2 A) (k : A -> M2 B) : M2 B :=
  fun s =>
    let '(a, s1, l1) := m s in
    let '(b, s2, l2) := k a s1 in
    (b, s2, l1 ++ l2).

Definition get2 : M2 ModeAuto := fun s => (s, s, []).
Definition modify2 (f : ModeAuto -> ModeAuto) : M2 unit := fun s => (tt, f s, []).
Definition call2 (a : More_Action) : M2 unit := fun s => (tt, s, [new a]).
Definition when2 (b : bool) (m : M2 unit) : M2 unit := if b then m else ret2 tt.

(** A function of the first kind, run as one of the second. *)
Definition lift {A} (m : M A) : M2 A :=
  fun s => let '(a, s1, l1) := m s in (a, s1, map old l1).

Definition result2 {A} (r : A * ModeAuto * list Call) : A := fst (fst r).
Definition after2 {A} (r : A * ModeAuto * list Call) : ModeAuto := snd (fst r).
Definition calls2 {A} (r : A * ModeAuto * list Call) : list Call := snd r.

Declare Scope auto2_scope.
Delimit Scope auto2_scope with auto2.
Notation "x <- m ;; k" := (bind2 m (fun x => k))
  (at level 61, m at next level, right associativity) : auto2_scope.
Notation "m ;; k" := (bind2 m (fun _ => k))
  (at level 61, right associativity) : auto2_scope.

(** What the mode reads from the mission, and the functions of the
    mission that call back into the mode ([start_command],
    [verify_command], [exit_mission]): they are given as the functions of
    the mode's state they amount to. *)
Record Mission := {
  state_is_MISSION_RUNNING : bool;
  state_is_MISSION_COMPLETE : bool;
  get_in_landing_sequence_flag : bool;
  get_in_return_path_flag : bool;
  check_for_mission_change : bool;
  jump_to_landing_sequence : bool;
  jump_to_closest_mission_leg : bool;
  start_or_resume : M2 unit;
  update : M2 unit;
  restart_current_nav_cmd : M2 bool
}.

(** What the mode reads from the vehicle, and the vehicle's change of
    flight mode, which enters or leaves the mode. *)
Record Vehicle := {
  ahrs_get_origin : bool;
  position_ok : bool;
  ap_initialised : bool;
  copter_set_mode : Mode_Number -> ModeReason -> M2 bool
}.

Definition exit (ms : Mission) : M2 unit :=
  (when2 (state_is_MISSION_RUNNING ms) (call2 mission_stop) ;;
   call2 camera_mount_set_mode_to_default ;;
   modify2 (set_auto_RTL false))%auto2.

(** The first part of [run]: "start or update mission". *)
Definition run_mission (ms : Mission) (v : Vehicle) : M2 unit :=
  (s <- get2 ;;
   if waiting_to_start s then
     when2 (ahrs_get_origin v)
       (start_or_resume ms ;;
        modify2 (set_waiting_to_start false) ;;
        lift (call mis_change_detector_check_for_mission_change))
   else
     when2 (check_for_mission_change ms)
       (s <- get2 ;;
        when2 (state_is_MISSION_RUNNING ms && SubMode_eqb (_mode s) WP)
          (restarted <- restart_current_nav_cmd ms ;;
           if restarted then
             lift (call (gcs_send_text MAV_SEVERITY_CRITICAL
                           "Auto mission changed, restarted command" []))
           else
             lift (call (gcs_send_text MAV_SEVERITY_CRITICAL
                           "Auto mission changed but failed to restart command" [])))) ;;
     update ms)%auto2.

(** [run]: the mission, then the controller of the submode, then the
    check of Auto RTL. *)
Definition run (env : Env) (ms : Mission) (v : Vehicle) : M2 unit :=
  (run_mission ms v ;;
   lift (run_submode env) ;;
   s <- get2 ;;
   let auto_rtl_active :=
     get_in_landing_sequence_flag ms || get_in_return_path_flag ms
     || state_is_MISSION_COMPLETE ms in
   when2 (auto_RTL s && negb auto_rtl_active)
     (modify2 (set_auto_RTL false) ;;
      call2 (logger_Write_Mode AUTO_RTL_EXIT)))%auto2.

Definition enter_auto_rtl (env : Env) (v : Vehicle) (reason : ModeReason) : M2 bool :=
  (call2 (mission_set_force_resume true) ;;
   ok <- (if flightmode_is_mode_auto (copter env) then ret2 true
          else copter_set_mode v Number_AUTO reason) ;;
   if ok then
     modify2 (set_auto_RTL true) ;;
     call2 (logger_Write_Mode reason) ;;
     when2 (ap_initialised v) (call2 AP_Notify_events_user_mode_change) ;;
     ret2 true
   else
     call2 (mission_set_force_resume false) ;;
     call2 LOGGER_WRITE_ERROR_FLIGHT_MODE_AUTO_RTL ;;
     when2 (ap_initialised v) (call2 AP_Notify_events_user_mode_change_failed) ;;
     ret2 false)%auto2.

(** The failure branch the three entries into Auto RTL share. *)
Definition auto_RTL_not_found (v : Vehicle) (text : string) : M2 bool :=
  (call2 LOGGER_WRITE_ERROR_FLIGHT_MODE_AUTO_RTL ;;
   when2 (ap_initialised v) (call2 AP_Notify_events_user_mode_change_failed) ;;
   lift (call (gcs_send_text MAV_SEVERITY_WARNING text [])) ;;
   ret2 false)%auto2.

Definition jump_to_landing_sequence_auto_RTL (env : Env) (ms : Mission)
    (v : Vehicle) (reason : ModeReason) : M2 bool :=
  if negb (jump_to_landing_sequence ms) then
    auto_RTL_not_found v "Mode change to AUTO RTL failed: No landing sequence found"
  else enter_auto_rtl env v reason.

Definition return_path_start_auto_RTL (env : Env) (ms : Mission)
    (v : Vehicle) (reason : ModeReason) : M2 bool :=
  if negb (jump_to_closest_mission_leg ms) then
    auto_RTL_not_found v "Mode change to AUTO RTL failed: No return path found"
  else enter_auto_rtl env v reason.

Definition return_path_or_jump_to_landing_sequence_auto_RTL (env : Env)
    (ms : Mission) (v : Vehicle) (reason : ModeReason) : M2 bool :=
  if negb (jump_to_closest_mission_leg ms) && negb (jump_to_landing_sequence ms) then
    auto_RTL_not_found v
      "Mode change to AUTO RTL failed: No return path or landing sequence found"
  else enter_auto_rtl env v reason.

Definition loiter_start (v : Vehicle) : M2 bool :=
  if negb (position_ok v) then ret2 false
  else
    (modify2 (set_mode LOITER) ;;
     call2 wp_nav_set_wp_destination_NEU_cm_stopping_point ;;
     modify2 (set_auto_yaw AutoYaw.HOLD) ;;
     ret2 true)%auto2.

Definition exit_mission (env : Env) (v : Vehicle) : M2 unit :=
  (call2 AP_Notify_events_mission_complete ;;
   if negb (land_complete (copter env)) then
     ok <- loiter_start v ;;
     if negb ok then
       _ <- copter_set_mode v Number_LAND MISSION_END ;; ret2 tt
     else ret2 tt
   else call2 arming_disarm_MISSIONEXIT)%auto2.

(** [cmd.content.speed]. *)
Inductive SPEED_TYPE :=
| SPEED_TYPE_AIRSPEED | SPEED_TYPE_GROUNDSPEED | SPEED_TYPE_CLIMB_SPEED
| SPEED_TYPE_DESCENT_SPEED | SPEED_TYPE_other.

Definition dso_set_xy (v : Q) (d : desired_speed_override_t) : desired_speed_override_t :=
  {| xy := v; up := up d; down := down d |}.

Definition do_change_speed (speed_type : SPEED_TYPE) (target_ms : Q) : M2 unit :=
  when2 (fgtb target_ms 0)
    match speed_type with
    | SPEED_TYPE_CLIMB_SPEED =>
        (lift (call (wp_nav_set_speed_up_cms (target_ms * 100)%Q)) ;;
         modify2 (fun s => set_desired_speed_override
                             (dso_set_up target_ms (desired_speed_override s)) s))%auto2
    | SPEED_TYPE_DESCENT_SPEED =>
        (lift (call (wp_nav_set_speed_down_cms (target_ms * 100)%Q)) ;;
         modify2 (fun s => set_desired_speed_override
                             (dso_set_down target_ms (desired_speed_override s)) s))%auto2
    | SPEED_TYPE_AIRSPEED | SPEED_TYPE_GROUNDSPEED =>
        (call2 (wp_nav_set_speed_NE_cms (target_ms * 100)%Q) ;;
         modify2 (fun s => set_desired_speed_override
                             (dso_set_xy target_ms (desired_speed_override s)) s))%auto2
    | SPEED_TYPE_other => ret2 tt
    end.

(** ** Vocabulary of the further properties *)

Definition is_failsafe_terrain_on_event (a : Action) : bool :=
  match a with failsafe_terrain_on_event => true | _ => false end.

Definition is_wp_nav_set_speed (a : Action) : bool :=
  match a with
  | wp_nav_set_speed_up_cms _ | wp_nav_set_speed_down_cms _ => true
  | _ => false
  end.

Definition is_circle_nav_set_radius_cm (a : Action) : bool :=
  match a with circle_nav_set_radius_cm _ => true | _ => false end.

(** The yaw mode [wp_start] leaves when it succeeds. *)
Definition wp_start_yaw (env : Env) (y : AutoYaw.Mode) : AutoYaw.Mode :=
  if negb (AutoYaw.is_ROI y)
     && negb (AutoYaw.is_FIXED y && wp_yaw_behavior_is_NONE (g env))
  then AutoYaw.DEFAULT else y.

(** None of the ticks of [envs] finds the horizontal destination reached. *)
Definition never_arrives (envs : list Env) : bool :=
  forallb (fun e => negb (reached_wp_destination_NE (wp_nav e))) envs.

(** Touchdown evidence from the thrust, as the Descent label asks for it:
    the descent rate is established, the thrust calibration is over, the
    thrust is at or below the placed fraction of the calibrated level, the
    rangefinder (when in use) does not say the vehicle is still high, and
    all of that for more than 500 ms. *)
Definition PayloadPlace_thrust_says_placed (env : Env) (s : ModeAuto) : bool :=
  let p := payload_place s in
  let now_ms := millis (copter env) in
  negb (fgtb (get_vel_desired_U_cms (pos_control env))
             (- (95 # 100) * PayloadPlace.descent_speed_cms p)%Q)
  && negb (sub_uint32 now_ms (PayloadPlace.descent_established_time_ms p)
           <? descent_thrust_cal_duration_ms)
  && negb (fgtb (get_throttle_in (payload env))
                (pldp_thrust_placed_fraction (g env) * PayloadPlace.descent_thrust_level p)%Q)
  && (sub_uint32 now_ms (PayloadPlace.place_start_time_ms p) >? placed_check_duration_ms).

(** The descent has gone further than the maximum the command allows; a
    maximum of 0 allows any descent. *)
Definition PayloadPlace_max_descent_exceeded (env : Env) (s : ModeAuto) : bool :=
  let p := payload_place s in
  negb (is_zero (PayloadPlace.descent_max_cm p))
  && fgtb (PayloadPlace.descent_start_altitude_cm p
           - get_pos_desired_U_cm (pos_control env))%Q
          (PayloadPlace.descent_max_cm p).

(** The two reasons for which a descent is given up. *)
Definition PayloadPlace_descent_given_up (env : Env) (s : ModeAuto) : bool :=
  PayloadPlace_max_descent_exceeded env s
  || (is_positive (pldp_range_finder_maximum_m (g env))
      && negb (rangefinder_enabled (payload env))).

Definition is_warning (a : Action) : bool :=
  match a with gcs_send_text MAV_SEVERITY_WARNING _ _ => true | _ => false end.

(** The calls by which [wp_start] re-initialises a waypoint controller
    that is not active. *)
Definition wp_start_init_calls (env : Env) (s : ModeAuto) : list Action :=
  if is_active (wp_nav env) then []
  else
    [wp_nav_wp_and_spline_init_cm
       (if is_positive (xy (desired_speed_override s))
        then (xy (desired_speed_override s) * 100)%Q else 0%Q)
       (SubMode_eqb (_mode s) TAKEOFF && auto_takeoff_get_completion_pos (others env))]
    ++ (if is_positive (up (desired_speed_override s))
        then [wp_nav_set_speed_up_cms (up (desired_speed_override s) * 100)%Q] else [])
    ++ (if is_positive (down (desired_speed_override s))
        then [wp_nav_set_speed_down_cms (down (desired_speed_override s) * 100)%Q] else []).

(** ** More concrete vehicles *)

Module More.

Definition with_wp_nav (w : AC_WPNav) (env : Env) : Env :=
  {| copter := copter env; wp_nav := w; pos_control := pos_control env;
     circle_nav := circle_nav env; payload := payload env; g := g env;
     others := others env |}.

Definition with_copter (c : Copter) (env : Env) : Env :=
  {| copter := c; wp_nav := wp_nav env; pos_control := pos_control env;
     circle_nav := circle_nav env; payload := payload env; g := g env;
     others := others env |}.

Definition with_payload (p : Payload) (env : Env) : Env :=
  {| copter := copter env; wp_nav := wp_nav env; pos_control := pos_control env;
     circle_nav := circle_nav env; payload := p; g := g env;
     others := others env |}.

(** The waypoint controller is not active, not at its destination, and
    accepts or refuses every destination. *)
Definition idle_navigation (accepts : bool) : AC_WPNav :=
  {| is_active := false; reached_wp_destination := false;
     reached_wp_destination_NE := false;
     set_wp_destination_loc := fun _ => accepts;
     get_wp_destination_loc := None;
     get_wp_distance_to_destination_cm := 0;
     get_default_speed_down_cms := 150;
     get_terrain_offset_cm := None |}.

Definition inactive (env : Env) : Env := with_wp_nav (idle_navigation true) env.

(** The clock reads [t] ms. *)
Definition at_time (t : Z) (env : Env) : Env :=
  with_copter
    {| motors_armed := motors_armed (copter env);
       land_complete := land_complete (copter env);
       land_complete_maybe := land_complete_maybe (copter env);
       is_disarmed_or_landed := is_disarmed_or_landed (copter env);
       get_interlock := get_interlock (copter env);
       spool_state_is_GROUND_IDLE := spool_state_is_GROUND_IDLE (copter env);
       flightmode_is_mode_auto := flightmode_is_mode_auto (copter env);
       millis := t;
       current_loc := current_loc (copter env);
       current_loc_initialised := current_loc_initialised (copter env);
       mission_present := mission_present (copter env);
       starts_with_takeoff_cmd := starts_with_takeoff_cmd (copter env);
       continue_after_land_check_for_takeoff :=
         continue_after_land_check_for_takeoff (copter env) |}
    env.

(** The destination has been reached. *)
Definition arrived (env : Env) : Env :=
  with_wp_nav (Fixture.navigation true) env.

Definition with_circle_nav (c : AC_Circle) (env : Env) : Env :=
  {| copter := copter env; wp_nav := wp_nav env; pos_control := pos_control env;
     circle_nav := c; payload := payload env; g := g env;
     others := others env |}.

(** 20 m outside a circle of 10 m radius, [turns] turns flown. *)
Definition outside_circle (turns : Q) : AC_Circle :=
  {| get_angle_total_turns := turns; get_distance_to_target_cm := 0;
     get_rate_degs := 20; get_radius_cm := 1000;
     closest_point_on_circle := Fixture.loc 10 20 0 ABOVE_ORIGIN;
     dist_to_edge := 2000; dist_to_center := 3000 |}.

End More.

Definition is_waypoint_complete_tone (a : Action) : bool :=
  match a with AP_Notify_events_waypoint_complete => true | _ => false end.

(** The factor of the radius of a circle command: LOITER_TURNS commands
    with bit 0 of their type-specific bits set store the radius in units
    of 10 m. *)
Definition circle_radius_scale (cmd : Mission_Command) : Z :=
  match id cmd with
  | MAV_CMD_NAV_LOITER_TURNS => if Z.testbit (type_specific_bits cmd) 0 then 10 else 1
  | _ => 1
  end.

(** The yaw mode [circle_movetoedge_start] leaves, from the yaw mode [y]. *)
Definition circle_yaw (env : Env) (y : AutoYaw.Mode) : AutoYaw.Mode :=
  if AutoYaw.is_ROI y then y
  else if fgtb (dist_to_edge (circle_nav env)) 300 then
    if fgtb (dist_to_center (circle_nav env)) (get_radius_cm (circle_nav env))
       && fgtb (dist_to_center (circle_nav env)) 500
    then AutoYaw.DEFAULT else AutoYaw.HOLD
  else AutoYaw.CIRCLE.

(** The thrust level calibrated for the descent. *)
Definition PayloadPlace_thrust_level (s : ModeAuto) : Q :=
  PayloadPlace.descent_thrust_level (payload_place s).

Definition is_input_pos_vel_accel_U_cm (a : Action) : bool :=
  match a with pos_control_input_pos_vel_accel_U_cm _ => true | _ => false end.

(** The location a land or payload-place command flies to. *)
Definition target_of (env : Env) (rd : Reads) (cmd : Mission_Command) : Location :=
  match shift_alt_to_current_alt env rd (location cmd) with
  | Some target_loc => target_loc
  | None => set_alt_cm (alt (current_loc (copter env))) ABOVE_HOME (location cmd)
  end.

(** [keeps2 f m]: running [m] does not change what [f] reads in the state. *)
Definition keeps2 {X A} (f : ModeAuto -> X) (m : M2 A) : Prop :=
  forall s, f (after2 (m s)) = f s.

(** "only pretend to be in auto RTL so long as mission still thinks its in
    a landing sequence or the mission has completed". *)
Definition auto_rtl_active (ms : Mission) : bool :=
  get_in_landing_sequence_flag ms || get_in_return_path_flag ms
  || state_is_MISSION_COMPLETE ms.

(** The three entries into Auto RTL. *)
Inductive Entry := By_landing_sequence | By_return_path | By_return_path_or_landing_sequence.

Definition auto_RTL_entry (e : Entry) :
    Env -> Mission -> Vehicle -> ModeReason -> M2 bool :=
  match e with
  | By_landing_sequence => jump_to_landing_sequence_auto_RTL
  | By_return_path => return_path_start_auto_RTL
  | By_return_path_or_landing_sequence => return_path_or_jump_to_landing_sequence_auto_RTL
  end.

(** The mission has what the entry looks for. *)
Definition entry_found (ms : Mission) (e : Entry) : bool :=
  match e with
  | By_landing_sequence => jump_to_landing_sequence ms
  | By_return_path => jump_to_closest_mission_leg ms
  | By_return_path_or_landing_sequence =>
      jump_to_closest_mission_leg ms || jump_to_landing_sequence ms
  end.

Definition is_mission_set_force_resume (c : Call) : bool :=
  match c with new (mission_set_force_resume _) => true | _ => false end.

Module Quiet.

(** A mission whose functions leave the mode alone. *)
Definition mission (in_landing_sequence : bool) : Mission :=
  {| state_is_MISSION_RUNNING := true; state_is_MISSION_COMPLETE := false;
     get_in_landing_sequence_flag := in_landing_sequence;
     get_in_return_path_flag := false;
     check_for_mission_change := false;
     jump_to_landing_sequence := in_landing_sequence;
     jump_to_closest_mission_leg := false;
     start_or_resume := ret2 tt; update := ret2 tt;
     restart_current_nav_cmd := ret2 true |}.

(** A vehicle that refuses every change of flight mode. *)
Definition vehicle (origin : bool) : Vehicle :=
  {| ahrs_get_origin := origin; position_ok := true; ap_initialised := true;
     copter_set_mode := fun _ _ => ret2 false |}.

End Quiet.

(** The calls by which [enter_auto_rtl] ends, by its result. *)
Definition enter_auto_rtl_end (v : Vehicle) (reason : ModeReason) (ok : bool) : list Call :=
  if ok then
    new (logger_Write_Mode reason)
    :: (if ap_initialised v then [new AP_Notify_events_user_mode_change] else [])
  else
    new (mission_set_force_resume false)
    :: new LOGGER_WRITE_ERROR_FLIGHT_MODE_AUTO_RTL
    :: (if ap_initialised v then [new AP_Notify_events_user_mode_change_failed] else []).

(** * Properties *)

(** ** Comparisons of floats *)

(** The comparison of floats decides the order of the rationals. *)
Lemma fltb_lt (a b : Q) : fltb a b = true <-> (a < b)%Q.
Proof.
  unfold fltb. rewrite negb_true_iff. split.
  - intros H. apply Qnot_le_lt. intros Hle.
    apply Qle_bool_iff in Hle. congruence.
  - intros H. destruct (Qle_bool b a) eqn:E; [|reflexivity].
    apply Qle_bool_iff in E. exfalso. exact (Qlt_not_le _ _ H E).
Qed.

(** The MAX macro on integers is the maximum. *)
Lemma MAXi_max (a b : Z) : MAXi a b = Z.max a b.
Proof. unfold MAXi. destruct (Z.gtb_spec a b); lia. Qed.

(** Dropping the fraction moves a number toward zero by less than one. *)
Lemma float_to_int_bounds (q : Q) :
  (q - 1 < inject_Z (float_to_int q))%Q /\ (inject_Z (float_to_int q) < q + 1)%Q.
Proof.
  destruct q as [n d]. unfold float_to_int, Qlt, Qminus, Qplus, Qopp, inject_Z.
  cbn [Qnum Qden].
  pose proof (Z.quot_rem' n (Zpos d)) as Hqr.
  pose proof (Z.rem_bound_abs n (Zpos d) ltac:(lia)) as Hr.
  assert (Hd : 0 < Zpos d) by lia.
  rewrite !Pos2Z.inj_mul.
  set (D := Zpos d) in *. set (k := Z.quot n D) in *. set (r := Z.rem n D) in *.
  split; nia.
Qed.

(** ** Symbolic runs *)

(** Runs the monadic code of a goal as far as it is determined, and splits
    on the conditions it meets. *)
Ltac run_code :=
  repeat first
    [ progress cbv beta iota zeta
        delta [bind modify get ret call when fst snd set_pp set_lta
               result after calls]
    | progress cbn [app]
    | match goal with
      | |- context [if ?b then _ else _] => destruct b eqn:?
      | |- context [match ?x with Some _ => _ | None => _ end] => destruct x eqn:?
      end ].

(** ** Sequencing *)

(** A sequence runs its first part, then the rest from the state the first
    part left; the calls of both are joined in order. *)
Lemma run_bind {A B} (m : M A) (k : A -> M B) (s : ModeAuto) :
  bind m k s =
  (result (k (result (m s)) (after (m s))),
   after (k (result (m s)) (after (m s))),
   calls (m s) ++ calls (k (result (m s)) (after (m s)))).
Proof.
  unfold bind, result, after, calls.
  destruct (m s) as [[a s1] l1]. cbn [fst snd].
  destruct (k a s1) as [[b s2] l2]. reflexivity.
Qed.

Lemma after_bind {A B} (m : M A) (k : A -> M B) (s : ModeAuto) :
  after (bind m k s) = after (k (result (m s)) (after (m s))).
Proof. rewrite run_bind. reflexivity. Qed.

Lemma result_bind {A B} (m : M A) (k : A -> M B) (s : ModeAuto) :
  result (bind m k s) = result (k (result (m s)) (after (m s))).
Proof. rewrite run_bind. reflexivity. Qed.

Lemma calls_bind {A B} (m : M A) (k : A -> M B) (s : ModeAuto) :
  calls (bind m k s) = calls (m s) ++ calls (k (result (m s)) (after (m s))).
Proof. rewrite run_bind. reflexivity. Qed.

(** Reduces the fields of states that have been assigned to. *)
Ltac read_fields :=
  cbn [_mode auto_RTL waiting_to_start desired_speed_override auto_yaw
       loiter_time loiter_time_max loiter_to_alt payload_place state
       circle_last_num_complete nav_delay_time_start_ms nav_delay_time_max_ms
       nav_scripting nav_attitude_time_start_ms condition_start condition_value
       set_mode set_auto_RTL set_waiting_to_start set_desired_speed_override
       set_auto_yaw set_loiter_time set_loiter_time_max set_loiter_to_alt
       set_payload_place set_state set_circle_last_num_complete
       set_nav_delay_time_start_ms set_nav_delay_time_max_ms set_nav_scripting
       set_nav_attitude_time_start_ms set_condition_start set_condition_value
       reached_destination_xy loiter_start_done reached_alt alt_error_cm
       target_alt lta_set_reached_destination_xy lta_set_loiter_start_done
       lta_set_reached_alt lta_set_alt_error_cm lta_set_target_alt
       pp_state PayloadPlace.state PayloadPlace.descent_established_time_ms
       PayloadPlace.place_start_time_ms PayloadPlace.descent_thrust_level
       PayloadPlace.descent_start_altitude_cm PayloadPlace.descent_speed_cms
       PayloadPlace.descent_max_cm pp_set_state pp_set_descent_established_time_ms
       pp_set_place_start_time_ms pp_set_descent_thrust_level
       pp_set_descent_start_altitude_cm pp_set_descent_speed_cms
       pp_set_descent_max_cm] in *.

(** ** Computations that leave part of the state alone *)

(** [keeps f] holds of the primitive steps and is preserved by sequencing. *)
Section Keeps.
Context {X : Type} (f : ModeAuto -> X).

Lemma keeps_ret {A} (a : A) : keeps f (ret a).
Proof. intros s. reflexivity. Qed.

Lemma keeps_get : keeps f get.
Proof. intros s. reflexivity. Qed.

Lemma keeps_call (a : Action) : keeps f (call a).
Proof. intros s. reflexivity. Qed.

Lemma keeps_bind {A B} (m : M A) (k : A -> M B) :
  keeps f m -> (forall a, keeps f (k a)) -> keeps f (bind m k).
Proof.
  intros Hm Hk s. rewrite after_bind, Hk, Hm. reflexivity.
Qed.

Lemma keeps_when (b : bool) (m : M unit) : keeps f m -> keeps f (when b m).
Proof. intros Hm. destruct b; [exact Hm | apply keeps_ret]. Qed.

Lemma keeps_modify (h : ModeAuto -> ModeAuto) :
  (forall s, f (h s) = f s) -> keeps f (modify h).
Proof. intros H s. apply H. Qed.
End Keeps.

(** Proves [keeps f m] by following the structure of [m]. *)
Ltac keeps_by_structure :=
  repeat first
    [ apply keeps_ret | apply keeps_get | apply keeps_call
    | apply keeps_bind; [|intros ?]
    | apply keeps_when
    | apply keeps_modify; intros ?; reflexivity
    | match goal with
      | |- keeps _ (if ?b then _ else _) => destruct b
      | |- keeps _ (match ?x with _ => _ end) => destruct x
      end ].

(** The payload-place controller does not touch the loiter-to-altitude
    struct. *)
Lemma PayloadPlace_run_keeps_loiter_to_alt env :
  keeps loiter_to_alt (PayloadPlace_run env).
Proof.
  unfold PayloadPlace_run, PayloadPlace_landed_block, PayloadPlace_gripper_block,
    PayloadPlace_state_switch, PayloadPlace_output, PayloadPlace_start_descent,
    PayloadPlace_case_Descent_Start, PayloadPlace_case_Descent,
    PayloadPlace_case_Release, PayloadPlace_case_Releasing, PayloadPlace_case_Delay,
    PayloadPlace_case_Ascent_Start, PayloadPlace_case_Ascent, wp_run, set_pp.
  keeps_by_structure.
Qed.

(** ** Location of a command (C7) *)

(** C7, as stated, fails: a command with latitude 0 and longitude 7 keeps
    its zero latitude, the default latitude 10 is not used. *)
Lemma loc_from_cmd_not_per_field :
  let cmd := Fixture.cmd MAV_CMD_NAV_WAYPOINT (Fixture.loc 0 7 500 ABOVE_HOME) 0 in
  let default_loc := Fixture.loc 10 20 300 ABOVE_HOME in
  lat (loc_from_cmd Fixture.flying cmd default_loc) = 0
  /\ resolves_per_field Fixture.flying cmd default_loc = false.
Proof. split; reflexivity. Qed.

(** C7, amended: [loc_from_cmd] takes latitude and longitude from the
    default location together, and only when both are zero in the command;
    it takes the altitude from the default location when the command's is
    zero, converted to the command's frame, or with the default's frame
    when the conversion fails; every other field is the command's.  A
    command (0, 0, 500) with default (10, 20, 300) resolves to
    (10, 20, 500). *)
Theorem loc_from_cmd_resolution (env : Env) (cmd : Mission_Command)
    (default_loc : Location) :
  let c := location cmd in
  let r := loc_from_cmd env cmd default_loc in
  (lat r, lng r) =
    (if (lat c =? 0) && (lng c =? 0) then (lat default_loc, lng default_loc)
     else (lat c, lng c))
  /\ (alt r, alt_frame r) =
       (if alt c =? 0 then
          match get_alt_cm (others env) default_loc (alt_frame c) with
          | Some default_alt => (default_alt, alt_frame c)
          | None => (alt default_loc, alt_frame default_loc)
          end
        else (alt c, alt_frame c))
  /\ loiter_ccw r = loiter_ccw c
  /\ (forall f f' : AltFrame,
        loc_from_cmd env (Fixture.cmd MAV_CMD_NAV_WAYPOINT (Fixture.loc 0 0 500 f) 0)
                     (Fixture.loc 10 20 300 f')
        = Fixture.loc 10 20 500 f).
Proof.
  cbv zeta. unfold loc_from_cmd, get_alt_frame, copy_alt_from.
  destruct (location cmd) as [la lo al fr ccw]. cbn [lat lng alt alt_frame loiter_ccw].
  destruct ((la =? 0) && (lo =? 0)); cbn [lat lng alt alt_frame set_lat_lng];
    (destruct (al =? 0);
     [destruct (get_alt_cm (others env) default_loc fr)|]);
    cbn; repeat split; reflexivity.
Qed.

(** ** Mode entry (C4) *)

(** C4, as stated, fails: [init] is entered from the Auto-RTL pseudo mode
    ([auto_RTL] set), landed with the motors armed and a mission that does
    not begin with a takeoff.  It returns false, and [auto_RTL] is cleared.
    The same happens when no mission is present. *)
Lemma init_refusal_clears_auto_RTL :
  let s := set_auto_RTL true (Fixture.mode RTL PayloadPlace.Done) in
  let landed :=
    Fixture.env (Fixture.with_mission (Fixture.vehicle true true true 0)) false 0 0
                (Fixture.gripper false false) (Some 0) in
  let r := init landed false s in
  let r' := init Fixture.flying false s in
  result r = false /\ auto_RTL s = true /\ auto_RTL (after r) = false
  /\ ~ refuses_without_change r s
  /\ result r' = false /\ ~ refuses_without_change r' s.
Proof.
  cbv zeta. split; [reflexivity|]. split; [reflexivity|]. split; [reflexivity|].
  split; [|split; [reflexivity|]];
    intros [_ H]; apply (f_equal auto_RTL) in H; discriminate H.
Qed.

(** Assigning to [auto_RTL] the value it has changes nothing. *)
Lemma set_auto_RTL_same (s : ModeAuto) : set_auto_RTL (auto_RTL s) s = s.
Proof. destruct s; reflexivity. Qed.

(** C4, amended: [init] first clears [auto_RTL], whatever follows.  With no
    mission present and [ignore_checks] false it then returns false with no
    other change; with the motors armed, the vehicle land-complete and a
    mission that does not start with a takeoff it sends "Auto: Missing
    Takeoff Cmd" and returns false with no other change.  Otherwise it
    returns true, with the submode Loiter, a yaw mode ROI replaced by Hold,
    the speed overrides zero and waiting-to-start set.  A refusal changes
    nothing when [auto_RTL] was clear already. *)
Theorem init_refuses_or_resets (env : Env) (ignore_checks : bool) (s : ModeAuto) :
  let r := init env ignore_checks s in
  (if negb (mission_present (copter env) || ignore_checks) then
     r = (false, set_auto_RTL false s, [])
   else if motors_armed (copter env) && land_complete (copter env)
           && negb (starts_with_takeoff_cmd (copter env)) then
     r = (false, set_auto_RTL false s,
          [gcs_send_text MAV_SEVERITY_CRITICAL "Auto: Missing Takeoff Cmd" []])
   else
     result r = true
     /\ _mode (after r) = LOITER
     /\ auto_yaw (after r)
        = (if AutoYaw.is_ROI (auto_yaw s) then AutoYaw.HOLD else auto_yaw s)
     /\ desired_speed_override (after r) = {| xy := 0; up := 0; down := 0 |}
     /\ is_positive (xy (desired_speed_override (after r))) = false
     /\ is_positive (up (desired_speed_override (after r))) = false
     /\ is_positive (down (desired_speed_override (after r))) = false
     /\ waiting_to_start (after r) = true
     /\ auto_RTL (after r) = false)
  /\ (if auto_RTL s then True else set_auto_RTL false s = s).
Proof.
  cbv zeta. split;
    [|destruct (auto_RTL s) eqn:E; [exact I|rewrite <- E; apply set_auto_RTL_same]].
  unfold init, result, after.
  destruct (mission_present (copter env) || ignore_checks); cbn [negb];
    [|reflexivity].
  destruct (motors_armed (copter env) && land_complete (copter env)
            && negb (starts_with_takeoff_cmd (copter env)));
    [reflexivity|].
  cbn [bind modify get ret call when fst snd app].
  destruct (AutoYaw.is_ROI (auto_yaw s)) eqn:Hroi;
    cbn [bind modify get ret call when fst snd app];
    repeat split; try reflexivity; cbn; rewrite ?Hroi; reflexivity.
Qed.

(** ** The verify callback (C5, C10) *)

(** C5: when the active flight mode is not the Auto mode, [verify_command]
    returns false for every command, whatever the state of the
    sub-controllers; it changes nothing and calls nothing. *)
Theorem verify_command_outside_auto (env : Env) (cmd : Mission_Command)
    (s : ModeAuto) :
  flightmode_is_mode_auto (copter env) = false ->
  verify_command env cmd s = (false, s, []).
Proof.
  intros H. unfold verify_command. rewrite H. reflexivity.
Qed.

Lemma verify_command_outside_auto_witness :
  let env := Fixture.env (Fixture.vehicle false false false 1000) true 1000 3
                         (Fixture.gripper false false) (Some 900) in
  let cmd := Fixture.cmd MAV_CMD_NAV_LOITER_TURNS (Fixture.loc 0 0 500 ABOVE_HOME) 2 in
  let s := Fixture.mode CIRCLE PayloadPlace.Done in
  flightmode_is_mode_auto (copter env) = false
  /\ verify_command env cmd s = (false, s, []).
Proof.
  cbv zeta. split; [reflexivity|].
  apply verify_command_outside_auto. reflexivity.
Defined.

(** Proves [silent] by running the handler along every path. *)
Ltac prove_silent :=
  intros s; unfold calls; run_code; reflexivity.

(** Handler by handler: none sends the mission-item-reached message. *)
Lemma verify_takeoff_silent env : silent (verify_takeoff env).
Proof. unfold verify_takeoff. prove_silent. Qed.

Lemma verify_nav_wp_silent env cmd : silent (verify_nav_wp env cmd).
Proof. unfold verify_nav_wp. prove_silent. Qed.

Lemma verify_land_silent env : silent (verify_land env).
Proof.
  unfold verify_land, land_start, set_submode. intros s. unfold calls.
  destruct (state s) eqn:Hst; run_code; rewrite ?Hst; run_code; reflexivity.
Qed.

Lemma verify_circle_silent env cmd : silent (verify_circle env cmd).
Proof. unfold verify_circle, circle_start, set_submode. prove_silent. Qed.

Lemma verify_loiter_time_silent env cmd : silent (verify_loiter_time env cmd).
Proof. unfold verify_loiter_time. prove_silent. Qed.

Lemma verify_spline_wp_silent env cmd : silent (verify_spline_wp env cmd).
Proof. unfold verify_spline_wp. prove_silent. Qed.

Lemma verify_nav_guided_enable_silent env cmd : silent (verify_nav_guided_enable env cmd).
Proof. unfold verify_nav_guided_enable. prove_silent. Qed.

Lemma verify_nav_delay_silent env cmd : silent (verify_nav_delay env cmd).
Proof. unfold verify_nav_delay. prove_silent. Qed.

Lemma verify_wait_delay_silent env : silent (verify_wait_delay env).
Proof. unfold verify_wait_delay. prove_silent. Qed.

Lemma verify_within_distance_silent env : silent (verify_within_distance env).
Proof. unfold verify_within_distance. prove_silent. Qed.

Lemma verify_loiter_to_alt_silent : silent verify_loiter_to_alt.
Proof. unfold verify_loiter_to_alt. prove_silent. Qed.

(** After a silent handler, the end of [verify_command] sends the message
    once if the command is complete and not at all otherwise. *)
Lemma verify_command_finish_reached (cmd : Mission_Command) (verify : M bool)
    (s : ModeAuto) :
  silent verify ->
  filter is_mission_item_reached (calls (verify_command_finish cmd verify s))
  = (if result (verify_command_finish cmd verify s)
     then [gcs_send_mission_item_reached_message (index cmd)] else []).
Proof.
  intros H. specialize (H s). unfold verify_command_finish, calls, result, bind in *.
  destruct (verify s) as [[b s1] l1]. cbn [fst snd] in *.
  destruct b; cbn [when call ret fst snd]; rewrite ?app_nil_r, ?filter_app, H;
    reflexivity.
Qed.

Create HintDb silent_db.
#[local] Hint Resolve verify_takeoff_silent verify_nav_wp_silent verify_land_silent
  verify_circle_silent verify_loiter_time_silent verify_spline_wp_silent
  verify_nav_guided_enable_silent verify_nav_delay_silent verify_wait_delay_silent
  verify_within_distance_silent verify_loiter_to_alt_silent : silent_db.

(** C10: for every command other than NAV_LOITER_TO_ALT, the calls of
    [verify_command] contain the mission-item-reached message for the
    command's index exactly once when it returns true, and not at all when
    it returns false.  For NAV_LOITER_TO_ALT the result of
    [verify_loiter_to_alt] is returned as it is, and the message is never
    sent. *)
Theorem verify_command_reached_message (env : Env) (cmd : Mission_Command)
    (s : ModeAuto) :
  let r := verify_command env cmd s in
  if MAV_CMD_is_NAV_LOITER_TO_ALT (id cmd) then
    filter is_mission_item_reached (calls r) = []
    /\ r = (if flightmode_is_mode_auto (copter env)
            then verify_loiter_to_alt s else (false, s, []))
  else
    filter is_mission_item_reached (calls r)
    = (if result r then [gcs_send_mission_item_reached_message (index cmd)] else []).
Proof.
  cbv zeta. unfold verify_command.
  destruct (flightmode_is_mode_auto (copter env)); cbn [negb].
  2: { destruct (MAV_CMD_is_NAV_LOITER_TO_ALT (id cmd)); [split|]; reflexivity. }
  destruct (id cmd); cbn [MAV_CMD_is_NAV_LOITER_TO_ALT];
    try (apply verify_command_finish_reached; auto with silent_db; prove_silent).
  split; [apply verify_loiter_to_alt_silent | reflexivity].
Qed.

(** ** Loiter to altitude (C3, C9) *)

(** The tick of the loiter-to-altitude controller, in one formula: what it
    does to the struct, and whether it got as far as the altitude check. *)
Lemma loiter_to_alt_run_struct (env : Env) (s : ModeAuto) :
  let e := loiter_to_alt_error_cm env s in
  let prev := alt_error_cm (loiter_to_alt s) in
  loiter_to_alt (after (loiter_to_alt_run env s)) =
  if loiter_to_alt_checks_altitude env s then
    {| reached_destination_xy := true;
       loiter_start_done := true;
       reached_alt := reached_alt (loiter_to_alt s)
                      || fltb (fabsf e) 5 || fltb (e * prev) 0;
       alt_error_cm := e;
       target_alt := target_alt (loiter_to_alt s) |}
  else loiter_to_alt s.
Proof.
  cbv zeta. unfold loiter_to_alt_run, loiter_to_alt_checks_altitude, wp_run.
  destruct (is_disarmed_or_landed (copter env) || negb (get_interlock (copter env)))
    eqn:G; cbn [negb andb]; [reflexivity|].
  apply orb_false_elim in G. destruct G as [G _]. rewrite G.
  cbv beta iota zeta
    delta [bind modify get ret call when fst snd set_lta after negb].
  destruct (reached_destination_xy (loiter_to_alt s)
            || reached_wp_destination_NE (wp_nav env)) eqn:R;
    destruct (loiter_start_done (loiter_to_alt s)) eqn:L;
    destruct (is_active_NE (pos_control env));
    destruct (fltb (fabsf (loiter_to_alt_error_cm env s)) 5);
    destruct (fltb (loiter_to_alt_error_cm env s * alt_error_cm (loiter_to_alt s)) 0);
    cbv beta iota zeta
      delta [bind modify get ret call when fst snd set_lta after negb];
    read_fields;
    destruct (loiter_to_alt s) as [rxy lsd ra prev tgt]; read_fields;
    subst; rewrite ?orb_true_r, ?orb_false_r;
    try reflexivity;
    destruct rxy; try discriminate R; reflexivity.
Qed.

(** C3, as stated, fails: flying at the target altitude (error 0 cm) on the
    way to the loiter point, the tick runs the waypoint controller and
    returns; the flag stays false. *)
Lemma loiter_to_alt_run_before_arrival :
  let s := Fixture.mode LOITER_TO_ALT PayloadPlace.Done in
  let r := loiter_to_alt_run Fixture.flying s in
  loiter_to_alt_error_cm Fixture.flying s = 0%Q
  /\ fltb (fabsf (loiter_to_alt_error_cm Fixture.flying s)) 5 = true
  /\ reached_alt (loiter_to_alt (after r)) = false
  /\ reached_alt_set_on_every_tick Fixture.flying s = false.
Proof. cbv zeta. repeat split; vm_compute; reflexivity. Qed.

(** An error that was positive and is negative has a negative product with
    its predecessor, however large it is. *)
Lemma overshoot_flips_sign (e prev : Q) :
  fltb 0 prev = true -> fltb e 0 = true -> fltb (e * prev) 0 = true.
Proof.
  rewrite !fltb_lt. intros Hp He.
  setoid_replace 0%Q with (0 * prev)%Q by ring.
  apply Qmult_lt_compat_r; assumption.
Qed.

(** The reached-altitude flag, once set, survives every tick. *)
Lemma loiter_to_alt_ticks_reached_alt (envs : list Env) (s : ModeAuto) :
  reached_alt (loiter_to_alt s) = true ->
  reached_alt (loiter_to_alt (loiter_to_alt_ticks envs s)) = true.
Proof.
  revert s. induction envs as [|env rest IH]; intros s H; [exact H|].
  cbn [loiter_to_alt_ticks]. apply IH.
  rewrite loiter_to_alt_run_struct.
  destruct (loiter_to_alt_checks_altitude env s); [|exact H].
  cbn [reached_alt]. rewrite H. reflexivity.
Qed.

(** C3, amended: a tick of the loiter-to-altitude controller performs the
    altitude check only when the vehicle is not disarmed-or-landed, the
    motor interlock is enabled and the horizontal destination has been
    reached (before or on this tick).  On such a tick the flag becomes true
    exactly when |error| < 5 cm or the product of the error with the one
    stored by the previous check is negative, and the error is stored; on
    any other tick flag and stored error are left as they are.  Once true
    the flag stays true over any number of ticks.  An error that was
    positive at the previous check and is negative now sets the flag,
    whatever its size. *)
Theorem loiter_to_alt_run_reached_alt (env : Env) (s : ModeAuto) :
  let r := loiter_to_alt_run env s in
  let e := loiter_to_alt_error_cm env s in
  let prev := alt_error_cm (loiter_to_alt s) in
  let checked := loiter_to_alt_checks_altitude env s in
  reached_alt (loiter_to_alt (after r))
  = reached_alt (loiter_to_alt s)
    || (checked && (fltb (fabsf e) 5 || fltb (e * prev) 0))
  /\ alt_error_cm (loiter_to_alt (after r)) = (if checked then e else prev)
  /\ (if checked && fltb 0 prev && fltb e 0
      then reached_alt (loiter_to_alt (after r)) = true else True)
  /\ (forall envs : list Env,
        implb (reached_alt (loiter_to_alt s))
              (reached_alt (loiter_to_alt (loiter_to_alt_ticks envs s))) = true).
Proof.
  cbv zeta. rewrite loiter_to_alt_run_struct.
  destruct (loiter_to_alt_checks_altitude env s) eqn:C; cbn [andb reached_alt alt_error_cm].
  - split; [|split; [reflexivity|split]].
    + rewrite <- orb_assoc. reflexivity.
    + destruct (fltb 0 (alt_error_cm (loiter_to_alt s))) eqn:Hp;
        destruct (fltb (loiter_to_alt_error_cm env s) 0) eqn:He; try exact I.
      rewrite (overshoot_flips_sign _ _ Hp He). apply orb_true_r.
    + intros envs. destruct (reached_alt (loiter_to_alt s)) eqn:H; [|reflexivity].
      cbn [implb]. apply loiter_to_alt_ticks_reached_alt. exact H.
  - split; [apply eq_sym, orb_false_r|split; [reflexivity|split; [exact I|]]].
    intros envs. destruct (reached_alt (loiter_to_alt s)) eqn:H; [|reflexivity].
    cbn [implb]. apply loiter_to_alt_ticks_reached_alt. exact H.
Qed.

(** The overshoot of C3 on numbers: the error was +40 cm at the previous
    check and is -30 cm now; the flag is set although 30 >= 5. *)
Example loiter_to_alt_run_overshoot :
  let env := Fixture.env (Fixture.vehicle true false false 970) true 970 0
                         (Fixture.gripper false false) (Some 900) in
  let s := set_loiter_to_alt
             {| reached_destination_xy := true; loiter_start_done := true;
                reached_alt := false; alt_error_cm := 40; target_alt := 1000 |}
             (Fixture.mode LOITER_TO_ALT PayloadPlace.Done) in
  loiter_to_alt_error_cm env s = (-30)%Q
  /\ fltb (fabsf (loiter_to_alt_error_cm env s)) 5 = false
  /\ reached_alt (loiter_to_alt (after (loiter_to_alt_run env s))) = true.
Proof. cbv zeta. repeat split; vm_compute; reflexivity. Qed.

(** No controller called by [run] clears the two flags once both are set. *)
Lemma run_submode_self_completed (env : Env) (s : ModeAuto) :
  self_completed s = true -> self_completed (after (run_submode env s)) = true.
Proof.
  unfold self_completed, run_submode. intros H.
  rewrite after_bind. cbn [get result after fst snd].
  assert (K : forall m : M unit, keeps loiter_to_alt m ->
              reached_destination_xy (loiter_to_alt (after (m s)))
              && reached_alt (loiter_to_alt (after (m s))) = true).
  { intros m Hm. rewrite (Hm s). exact H. }
  destruct (_mode s);
    try (apply K;
         solve [ apply PayloadPlace_run_keeps_loiter_to_alt
               | unfold takeoff_run, wp_run, land_run, rtl_run, circle_run,
                   nav_guided_run, loiter_run, nav_attitude_time_run;
                 keeps_by_structure ]).
  pose proof (loiter_to_alt_run_struct env s) as S. cbv zeta in S.
  rewrite S.
  destruct (loiter_to_alt_checks_altitude env s); [|exact H].
  apply andb_prop in H. destruct H as [_ H].
  cbn [reached_destination_xy reached_alt]. rewrite H. reflexivity.
Qed.

Lemma run_ticks_self_completed (envs : list Env) (s : ModeAuto) :
  self_completed s = true -> self_completed (run_ticks envs s) = true.
Proof.
  revert s. induction envs as [|env rest IH]; intros s H; [exact H|].
  cbn [run_ticks]. apply IH, run_submode_self_completed, H.
Qed.

(** After [set_submode] the submode is the one asked for. *)
Lemma set_submode_mode (m : SubMode) (s : ModeAuto) :
  _mode (after (set_submode m s)) = m.
Proof.
  unfold set_submode. cbv beta iota delta [bind get ret modify when call fst snd after].
  destruct (SubMode_eqb m (_mode s)) eqn:E.
  - destruct m, (_mode s); cbn in E; try discriminate E; reflexivity.
  - destruct (SubMode_eqb (_mode s) NAV_ATTITUDE_TIME); reflexivity.
Qed.

Lemma default_loc_for_cmd_keeps {X} (f : ModeAuto -> X) env :
  keeps f (default_loc_for_cmd env).
Proof. unfold default_loc_for_cmd. keeps_by_structure. Qed.

(** [wp_start] leaves the submode at WP when it succeeds and as it was when
    it fails. *)
Lemma wp_start_mode env l s :
  _mode (after (wp_start env l s)) = (if result (wp_start env l s) then WP else _mode s).
Proof.
  unfold wp_start. rewrite !after_bind, !result_bind.
  set (s1 := after (when _ _ _)).
  assert (H1 : _mode s1 = _mode s).
  { subst s1. cbn [get result after fst snd].
    apply (@keeps_when _ _mode). keeps_by_structure. }
  destruct (negb (set_wp_destination_loc (wp_nav env) l)); [exact H1|].
  rewrite !after_bind, !result_bind. cbn [ret result after fst snd].
  apply set_submode_mode.
Qed.

(** [do_loiter_unlimited] ends in WP or leaves the submode as it was. *)
Lemma do_loiter_unlimited_mode env cmd s :
  _mode (after (do_loiter_unlimited env cmd s)) = WP
  \/ _mode (after (do_loiter_unlimited env cmd s)) = _mode s.
Proof.
  unfold do_loiter_unlimited. rewrite !after_bind.
  set (d := result (default_loc_for_cmd env s)).
  set (s0 := after (default_loc_for_cmd env s)).
  assert (H0 : _mode s0 = _mode s) by apply default_loc_for_cmd_keeps.
  pose proof (wp_start_mode env (loc_from_cmd env cmd d) s0) as W.
  destruct (result (wp_start env (loc_from_cmd env cmd d) s0));
    cbn [negb when call ret after fst snd]; rewrite W; [left; reflexivity|].
  right. exact H0.
Qed.

(** C9: when [do_loiter_to_alt] cannot express the command's altitude above
    home, it sets both flags of the struct, reports "bad do_loiter_to_alt"
    and returns with the submode [do_loiter_unlimited] left (WP, or the
    previous one when the waypoint controller refused the destination):
    the LoiterToAlt submode is not entered.  From then on
    [verify_loiter_to_alt] answers true, after any number of ticks of the
    mode, and [verify_command] returns true for the command. *)
Theorem do_loiter_to_alt_unresolved_altitude (env : Env) (cmd : Mission_Command)
    (s : ModeAuto) :
  get_alt_cm (others env) (loiter_to_alt_target_loc env cmd) ABOVE_HOME = None ->
  let r := do_loiter_to_alt env cmd s in
  reached_destination_xy (loiter_to_alt (after r)) = true
  /\ reached_alt (loiter_to_alt (after r)) = true
  /\ _mode (after r) = _mode (after (do_loiter_unlimited env cmd s))
  /\ (_mode (after r) = WP \/ _mode (after r) = _mode s)
  /\ In (gcs_send_text MAV_SEVERITY_INFO "bad do_loiter_to_alt" []) (calls r)
  /\ (forall envs : list Env,
        result (verify_loiter_to_alt (run_ticks envs (after r))) = true)
  /\ (forall (envs : list Env) (env' : Env),
        flightmode_is_mode_auto (copter env') = true ->
        id cmd = MAV_CMD_NAV_LOITER_TO_ALT ->
        result (verify_command env' cmd (run_ticks envs (after r))) = true).
Proof.
  intros Hnone r.
  assert (Hafter : after r =
            set_loiter_to_alt
              (lta_set_reached_alt true
                 (lta_set_reached_destination_xy true
                    (loiter_to_alt (after (do_loiter_unlimited env cmd s)))))
              (after (do_loiter_unlimited env cmd s))).
  { subst r. unfold do_loiter_to_alt. rewrite after_bind, Hnone.
    cbv beta iota delta [bind modify call fst snd after set_lta].
    read_fields. reflexivity. }
  assert (Hself : self_completed (after r) = true).
  { unfold self_completed. rewrite Hafter. read_fields. reflexivity. }
  assert (Hticks : forall envs : list Env,
            result (verify_loiter_to_alt (run_ticks envs (after r))) = true).
  { intros envs. apply (run_ticks_self_completed envs) in Hself. exact Hself. }
  repeat split.
  - rewrite Hafter. read_fields. reflexivity.
  - rewrite Hafter. read_fields. reflexivity.
  - rewrite Hafter. read_fields. reflexivity.
  - rewrite Hafter. read_fields. apply do_loiter_unlimited_mode.
  - subst r. unfold do_loiter_to_alt. rewrite calls_bind, Hnone.
    apply in_or_app. right.
    cbv beta iota delta [bind modify call fst snd calls set_lta].
    left. reflexivity.
  - exact Hticks.
  - intros envs env' Hauto Hid. unfold verify_command. rewrite Hauto, Hid.
    cbn [negb]. apply Hticks.
Qed.

Lemma do_loiter_to_alt_unresolved_altitude_witness :
  let env := Fixture.env (Fixture.vehicle true false false 1000) false 1000 0
                         (Fixture.gripper false false) None in
  let cmd := Fixture.cmd MAV_CMD_NAV_LOITER_TO_ALT
                         (Fixture.loc 0 0 500 ABOVE_TERRAIN) 0 in
  let s := Fixture.mode LOITER PayloadPlace.Done in
  get_alt_cm (others env) (loiter_to_alt_target_loc env cmd) ABOVE_HOME = None
  /\ reached_destination_xy (loiter_to_alt (after (do_loiter_to_alt env cmd s))) = true
  /\ _mode (after (do_loiter_to_alt env cmd s)) = WP
  /\ result (verify_command env cmd (after (do_loiter_to_alt env cmd s))) = true.
Proof.
  cbv zeta. split; [reflexivity|].
  pose proof (do_loiter_to_alt_unresolved_altitude
                (Fixture.env (Fixture.vehicle true false false 1000) false 1000 0
                             (Fixture.gripper false false) None)
                (Fixture.cmd MAV_CMD_NAV_LOITER_TO_ALT
                             (Fixture.loc 0 0 500 ABOVE_TERRAIN) 0)
                (Fixture.mode LOITER PayloadPlace.Done) eq_refl) as H.
  cbv zeta in H. destruct H as (H1 & _ & _ & _ & _ & _ & H7).
  split; [exact H1|]. split; [reflexivity|].
  exact (H7 [] (Fixture.env (Fixture.vehicle true false false 1000) false 1000 0
                            (Fixture.gripper false false) None) eq_refl eq_refl).
Defined.

(** ** The tick on the ground (C1) *)

(** The ticks written with the guard: for a vehicle that is disarmed or
    landed they ask for safe ground handling, make no other call and
    change no state. *)
Lemma guarded_ticks_on_ground (env : Env) (s : ModeAuto) :
  is_disarmed_or_landed (copter env) = true ->
  guarded_submode (_mode s) = true ->
  run_submode env s = (tt, s, [make_safe_ground_handling]).
Proof.
  intros H G. unfold run_submode.
  cbv beta iota delta [bind get fst snd].
  destruct (_mode s); cbn [guarded_submode] in G; try discriminate G;
    unfold wp_run, land_run, loiter_run, loiter_to_alt_run, PayloadPlace_run,
      nav_attitude_time_run;
    rewrite ?H; cbn [orb];
    cbv beta iota delta [bind call when ret fst snd]; reflexivity.
Qed.

(** The Circle tick has no guard: whatever the vehicle, it updates the
    circle and position controllers and commands the thrust vector. *)
Lemma circle_tick_unguarded (env : Env) (s : ModeAuto) :
  _mode s = CIRCLE ->
  run_submode env s
  = (tt, s, [circle_nav_update_cms; failsafe_terrain_set_status;
             pos_control_update_U_controller;
             attitude_control_input_thrust_vector_heading]).
Proof.
  intros H. unfold run_submode.
  cbv beta iota delta [bind get fst snd]. rewrite H. reflexivity.
Qed.

(** C1: the code breaks the claim in the Circle submode.  The tick of a
    vehicle that is disarmed-or-landed updates the circle and position
    controllers and commands the thrust vector; safe ground handling is
    not requested, as it is by the ticks of the other submodes written in
    the mode ([guarded_ticks_on_ground]). *)
Lemma circle_run_on_ground :
  let s := Fixture.mode CIRCLE PayloadPlace.Done in
  let r := run_submode Fixture.on_ground s in
  is_disarmed_or_landed (copter Fixture.on_ground) = true
  /\ calls r = [circle_nav_update_cms; failsafe_terrain_set_status;
                pos_control_update_U_controller;
                attitude_control_input_thrust_vector_heading]
  /\ safe_on_ground (calls r) = false.
Proof. cbv zeta. repeat split; reflexivity. Qed.

(** ** Payload place (C2) *)

(** C2, as stated, fails: with the gripper opened by the pilot while the
    vehicle flies to the location, one call of [run] takes the state from
    [FlyToLocation] to [Done]. *)
Lemma PayloadPlace_run_gripper_open :
  let env := Fixture.env (Fixture.vehicle true false false 1000) false 1000 0
                         (Fixture.gripper true true) (Some 900) in
  let s := Fixture.mode NAV_PAYLOAD_PLACE PayloadPlace.FlyToLocation in
  pp_state (after (PayloadPlace_run env s)) = PayloadPlace.Done
  /\ moves_linearly env s = false.
Proof. cbv zeta. split; vm_compute; reflexivity. Qed.

(** No time has passed since now. *)
Lemma sub_uint32_diag (a : Z) : sub_uint32 a a = 0.
Proof. unfold sub_uint32, wrap_uint32. rewrite Z.sub_diag. reflexivity. Qed.

Ltac read_fields_goal :=
  cbn [_mode auto_yaw loiter_to_alt payload_place set_mode set_auto_yaw
       set_loiter_to_alt set_payload_place
       pp_state PayloadPlace.state PayloadPlace.descent_established_time_ms
       PayloadPlace.place_start_time_ms PayloadPlace.descent_thrust_level
       PayloadPlace.descent_start_altitude_cm PayloadPlace.descent_speed_cms
       PayloadPlace.descent_max_cm pp_set_state pp_set_descent_established_time_ms
       pp_set_place_start_time_ms pp_set_descent_thrust_level
       pp_set_descent_start_altitude_cm pp_set_descent_speed_cms
       pp_set_descent_max_cm].

(** Runs the code like [run_code], reading assigned fields on the way. *)
Ltac run_payload_place :=
  repeat first
    [ progress cbv beta iota zeta
        delta [bind modify get ret call when fst snd set_pp after]
    | progress read_fields_goal
    | rewrite sub_uint32_diag
    | match goal with
      | H : PayloadPlace.state (payload_place ?s) = _
        |- context [PayloadPlace.state (payload_place ?s)] => rewrite H
      | |- context [if ?b then _ else _] => destruct b eqn:?
      end ].

(** The first block of [run] moves Descent to Release when a landing is
    detected or suspected, and nothing else. *)
Lemma PayloadPlace_landed_block_state (env : Env) (s : ModeAuto) :
  pp_state (after (PayloadPlace_landed_block env s)) =
  if land_complete (copter env) || land_complete_maybe (copter env) then
    match pp_state s with
    | PayloadPlace.Descent => PayloadPlace.Release
    | a => a
    end
  else pp_state s.
Proof.
  unfold PayloadPlace_landed_block.
  destruct (land_complete (copter env) || land_complete_maybe (copter env));
    [|reflexivity].
  destruct (pp_state s) eqn:E; unfold pp_state in *; run_payload_place;
    rewrite ?E; reflexivity.
Qed.

(** The second block of [run], on an opened gripper, ends the command from
    FlyToLocation and Descent_Start and releases from Descent. *)
Lemma PayloadPlace_gripper_block_state (env : Env) (s : ModeAuto) :
  pp_state (after (PayloadPlace_gripper_block env s)) =
  if gripper_valid (payload env) && gripper_released (payload env) then
    match pp_state s with
    | PayloadPlace.FlyToLocation | PayloadPlace.Descent_Start => PayloadPlace.Done
    | PayloadPlace.Descent => PayloadPlace.Release
    | a => a
    end
  else pp_state s.
Proof.
  unfold PayloadPlace_gripper_block.
  destruct (gripper_valid (payload env) && gripper_released (payload env));
    [|reflexivity].
  destruct (pp_state s) eqn:E; unfold pp_state in *; run_payload_place;
    rewrite ?E; reflexivity.
Qed.

(** One pass through the main switch moves along [PayloadPlace_switch_edge].
    From Descent_Start the thrust calibration has just begun, so the
    release check is not reached. *)
Lemma PayloadPlace_state_switch_edge (env : Env) (s : ModeAuto) :
  PayloadPlace_switch_edge
    (pp_state s) (pp_state (after (PayloadPlace_state_switch env s))) = true.
Proof.
  unfold PayloadPlace_state_switch.
  cbv beta iota delta [bind get fst snd].
  destruct (pp_state s) eqn:E;
    unfold PayloadPlace_start_descent, PayloadPlace_case_Descent_Start,
      PayloadPlace_case_Descent, PayloadPlace_case_Release,
      PayloadPlace_case_Releasing, PayloadPlace_case_Delay,
      PayloadPlace_case_Ascent_Start, PayloadPlace_case_Ascent;
    unfold pp_state in *;
    run_payload_place; rewrite ?E; try reflexivity; try discriminate.
Qed.

(** The last switch of [run] only commands the controllers. *)
Lemma PayloadPlace_output_keeps_state (env : Env) :
  keeps pp_state (PayloadPlace_output env).
Proof. unfold PayloadPlace_output, wp_run. keeps_by_structure. Qed.

(** C2, amended: one call of [PayloadPlace::run] never moves the state
    backward in the order FlyToLocation, Descent_Start, Descent, Release,
    Releasing, Delay, Ascent_Start, Ascent, Done, and its moves are those of
    [PayloadPlace_edge]: besides the steps of the line and the two aborts of
    the descent to Ascent_Start (maximum descent reached, rangefinder not
    enabled) there are the abort from FlyToLocation or Descent_Start
    straight to Done when the gripper is found open, the step from Release
    to Delay without a gripper, and the runs through several states in one
    call (a landing or manual release met in Descent is released in the
    same call; Releasing and Delay fall through to Ascent and Done). *)
Theorem PayloadPlace_run_moves_forward (env : Env) (s : ModeAuto) :
  let a := pp_state s in
  let b := pp_state (after (PayloadPlace_run env s)) in
  PayloadPlace.rank a <= PayloadPlace.rank b /\ PayloadPlace_edge a b = true.
Proof.
  cbv zeta.
  assert (E : PayloadPlace_edge (pp_state s)
                (pp_state (after (PayloadPlace_run env s))) = true).
  { unfold PayloadPlace_run.
    destruct (is_disarmed_or_landed (copter env)).
    - cbn [call after fst snd]. destruct (pp_state s); reflexivity.
    - rewrite !after_bind. cbn [call result after fst snd].
      rewrite PayloadPlace_output_keeps_state.
      set (s1 := after (PayloadPlace_landed_block env s)).
      set (s2 := after (PayloadPlace_gripper_block env s1)).
      pose proof (PayloadPlace_state_switch_edge env s2) as H3.
      pose proof (PayloadPlace_gripper_block_state env s1) as H2.
      pose proof (PayloadPlace_landed_block_state env s) as H1.
      fold s1 in H1. fold s2 in H2. rewrite H2, H1 in H3. clear H1 H2.
      destruct (land_complete (copter env) || land_complete_maybe (copter env));
        destruct (gripper_valid (payload env) && gripper_released (payload env));
        destruct (pp_state s);
        destruct (pp_state (after (PayloadPlace_state_switch env s2)));
        solve [reflexivity | discriminate H3]. }
  split; [|exact E].
  destruct (pp_state s);
    destruct (pp_state (after (PayloadPlace_run env s)));
    solve [cbn; lia | discriminate E].
Qed.

(** Moves of [PayloadPlace_edge] off the line, on numbers: the abort of a
    descent that exceeds its maximum (1 m allowed, 2 m descended), a landing
    suspected in Descent with a gripper fitted, and a Delay that has expired
    with the vehicle already back at the start altitude. *)
Example PayloadPlace_run_off_the_line :
  let descending :=
    set_payload_place
      {| PayloadPlace.state := PayloadPlace.Descent;
         PayloadPlace.descent_established_time_ms := 0;
         PayloadPlace.place_start_time_ms := 0;
         PayloadPlace.descent_thrust_level := 1;
         PayloadPlace.descent_start_altitude_cm := 1000;
         PayloadPlace.descent_speed_cms := 50;
         PayloadPlace.descent_max_cm := 100 |}
      (Fixture.mode NAV_PAYLOAD_PLACE PayloadPlace.Descent) in
  let low := Fixture.env (Fixture.vehicle true false false 800) false 800 0
                         (Fixture.gripper false false) (Some 900) in
  let touched := Fixture.env (Fixture.vehicle true false true 990) false 990 0
                             (Fixture.gripper true false) (Some 900) in
  pp_state (after (PayloadPlace_run low descending)) = PayloadPlace.Ascent_Start
  /\ pp_state (after (PayloadPlace_run touched descending)) = PayloadPlace.Releasing
  /\ pp_state (after (PayloadPlace_run Fixture.flying
                        (Fixture.mode NAV_PAYLOAD_PLACE PayloadPlace.Delay)))
     = PayloadPlace.Done.
Proof. cbv zeta. repeat split; vm_compute; reflexivity. Qed.

(** ** Takeoff target (C8) *)

(** C8, as stated, fails by a fraction of a centimetre: landed at 1000.5 cm
    with a computed target of 900 cm, the minimum is 1100.5 cm cut to the
    [int32_t] 1100, and the target handed to the takeoff controller is
    1100 cm. *)
Lemma takeoff_start_fraction_dropped :
  let env := Fixture.env (Fixture.vehicle true true true 1000) false (2001 # 2) 0
                         (Fixture.gripper false false) (Some 900) in
  let dest_loc := Fixture.loc 0 0 900 ABOVE_ORIGIN in
  let s := Fixture.mode LOITER PayloadPlace.Done in
  fst (takeoff_alt_target env dest_loc) = 900
  /\ In (auto_takeoff_start 1100 false) (calls (takeoff_start env dest_loc s))
  /\ takeoff_target_clears_current_alt env dest_loc = false.
Proof.
  cbv zeta. split; [reflexivity|]. split; [|reflexivity].
  vm_compute. right. left. reflexivity.
Qed.

(** C8, amended: [takeoff_start] hands the takeoff controller the computed
    target or, if that is larger, the current altitude plus 100 cm when
    land-complete (plus 0 cm otherwise) with its fraction dropped; the
    target is therefore more than that sum minus 1 cm, and it is at least
    that sum when the sum is a whole number of centimetres.  At 1000 cm,
    landed, with a computed target of 900 cm the target is 1100 cm.  When
    the current location is not initialised nothing is handed over. *)
Theorem takeoff_start_clamps_target (env : Env) (dest_loc : Location)
    (s : ModeAuto) :
  let r := takeoff_start env dest_loc s in
  let current_alt_cm := takeoff_current_alt_cm env dest_loc in
  let min_climb := inject_Z (if land_complete (copter env) then 100 else 0) in
  let target := takeoff_alt_target_cm env dest_loc in
  (if current_loc_initialised (copter env) then
     In (auto_takeoff_start target (snd (takeoff_alt_target env dest_loc))) (calls r)
     /\ _mode (after r) = TAKEOFF
   else r = (tt, s, [INTERNAL_ERROR_flow_of_control]))
  /\ target = Z.max (fst (takeoff_alt_target env dest_loc))
                    (float_to_int (current_alt_cm + min_climb))
  /\ (current_alt_cm + min_climb - 1 < inject_Z target)%Q
  /\ (if Qeq_bool (current_alt_cm + min_climb)
                  (inject_Z (float_to_int (current_alt_cm + min_climb)))
      then (current_alt_cm + min_climb <= inject_Z target)%Q else True)
  /\ (let landed_at_1000 :=
        Fixture.env (Fixture.vehicle true true true 1000) false 1000 0
                    (Fixture.gripper false false) (Some 900) in
      takeoff_alt_target_cm landed_at_1000 (Fixture.loc 0 0 900 ABOVE_ORIGIN) = 1100).
Proof.
  cbv zeta.
  assert (Hmax : takeoff_alt_target_cm env dest_loc =
                 Z.max (fst (takeoff_alt_target env dest_loc))
                       (float_to_int
                          (takeoff_current_alt_cm env dest_loc
                           + inject_Z (if land_complete (copter env) then 100 else 0)))).
  { unfold takeoff_alt_target_cm, takeoff_alt_target_min_cm. apply MAXi_max. }
  set (q := (takeoff_current_alt_cm env dest_loc
             + inject_Z (if land_complete (copter env) then 100 else 0))%Q) in *.
  assert (Hge : float_to_int q <= takeoff_alt_target_cm env dest_loc)
    by (rewrite Hmax; apply Z.le_max_r).
  split; [|split; [exact Hmax|split; [|split]]].
  - unfold takeoff_start.
    destruct (current_loc_initialised (copter env)); cbn [negb]; [|reflexivity].
    split.
    + unfold set_submode. run_code; cbn [In]; auto 10.
    + rewrite !after_bind. apply set_submode_mode.
  - destruct (float_to_int_bounds q) as [Hlo _].
    eapply Qlt_le_trans; [exact Hlo|].
    rewrite <- Zle_Qle. exact Hge.
  - destruct (Qeq_bool q (inject_Z (float_to_int q))) eqn:Hz; [|exact I].
    apply Qeq_bool_iff in Hz. rewrite Hz, <- Zle_Qle. exact Hge.
  - reflexivity.
Qed.

(** ** Circle turns (C6) *)

(** While the vehicle moves to the edge of the circle a poll answers false
    and announces no circle. *)
Lemma verify_circle_moving_to_edge (env : Env) (cmd : Mission_Command)
    (s : ModeAuto) :
  _mode s = CIRCLE_MOVE_TO_EDGE ->
  result (verify_circle env cmd s) = false
  /\ filter is_starting_circle (calls (verify_circle env cmd s)) = [].
Proof.
  intros H. unfold verify_circle, circle_start, set_submode, result, calls.
  cbv beta iota delta [bind get fst snd]. rewrite H. cbn [SubMode_eqb].
  run_code; split; reflexivity.
Qed.

(** While circling a poll answers whether the turns flown have reached the
    turns asked for, and announces circle [int(turns flown) + 1] when the
    whole number of turns flown differs from the one it remembers. *)
Lemma verify_circle_circling (env : Env) (cmd : Mission_Command) (s : ModeAuto) :
  let num_circles_completed := fabsf (get_angle_total_turns (circle_nav env)) in
  SubMode_eqb (_mode s) CIRCLE_MOVE_TO_EDGE = false ->
  verify_circle env cmd s =
  if float_to_int num_circles_completed =? float_to_int (circle_last_num_complete s)
  then (fgeb num_circles_completed (loiter_turns cmd), s, [])
  else (fgeb num_circles_completed (loiter_turns cmd),
        set_circle_last_num_complete num_circles_completed s,
        [starting_circle (float_to_int num_circles_completed + 1)
                         (float_to_int (loiter_turns cmd))]).
Proof.
  intros num H. subst num. unfold verify_circle.
  cbv beta iota delta [bind get fst snd]. rewrite H.
  destruct (float_to_int (fabsf (get_angle_total_turns (circle_nav env)))
            =? float_to_int (circle_last_num_complete s));
    cbv beta iota delta [bind when modify call ret negb fst snd]; reflexivity.
Qed.

(** In general: when the poll that finds the requested turns flown also
    finds a new whole number of turns, it announces a circle whose number
    is beyond the turns requested, and then answers true. *)
Lemma verify_circle_completing_poll (env : Env) (cmd : Mission_Command)
    (s : ModeAuto) :
  let num_circles_completed := fabsf (get_angle_total_turns (circle_nav env)) in
  let k := float_to_int num_circles_completed + 1 in
  SubMode_eqb (_mode s) CIRCLE_MOVE_TO_EDGE = false ->
  float_to_int num_circles_completed <> float_to_int (circle_last_num_complete s) ->
  fgeb num_circles_completed (loiter_turns cmd) = true ->
  verify_circle env cmd s
  = (true, set_circle_last_num_complete num_circles_completed s,
     [starting_circle k (float_to_int (loiter_turns cmd))])
  /\ (loiter_turns cmd < inject_Z k)%Q.
Proof.
  intros num k Hmode Hnew Hdone. split.
  - rewrite (verify_circle_circling env cmd s Hmode). fold num.
    apply Z.eqb_neq in Hnew. rewrite Hnew, Hdone. reflexivity.
  - unfold fgeb, fleb in Hdone. apply Qle_bool_iff in Hdone.
    destruct (float_to_int_bounds num) as [Hlo _].
    eapply Qle_lt_trans; [exact Hdone|].
    subst k. rewrite inject_Z_plus.
    apply Qplus_lt_l with (z := (- (1))%Q).
    setoid_replace (inject_Z (float_to_int num) + inject_Z 1 + - (1))%Q
      with (inject_Z (float_to_int num)) by (change (inject_Z 1) with 1%Q; ring).
    exact Hlo.
Qed.

(** C6, on the code: a circle command of 2 turns is started next to the
    circle, and polled after half a turn, after one and a half turns and
    after two turns.  The polls answer false, false and true, as C6 says;
    they announce circles 1, 2 and 3: the poll that finds the two turns
    flown announces "starting circle 3/2" before it answers true. *)
Theorem verify_circle_announces_a_third_circle :
  let cmd := Fixture.cmd MAV_CMD_NAV_LOITER_TURNS (Fixture.loc 0 0 500 ABOVE_HOME) 2 in
  let after_turns (turns : Q) :=
    Fixture.env (Fixture.vehicle true false false 1000) true 1000 turns
                (Fixture.gripper false false) (Some 900) in
  let s := after (do_circle Fixture.flying cmd (Fixture.mode LOITER PayloadPlace.Done)) in
  _mode s = CIRCLE
  /\ circle_last_num_complete s = (-1)%Q
  /\ verify_circle_polls [after_turns (1 # 2); after_turns (3 # 2); after_turns (2 # 1)] cmd s
     = [(false, [starting_circle 1 2]);
        (false, [starting_circle 2 2]);
        (true, [starting_circle 3 2])].
Proof. cbv zeta. repeat split; vm_compute; reflexivity. Qed.

(** ** The claims on numbers *)

(** C10 on numbers: a do-command is complete at once and reported; a
    loiter-to-altitude command that has completed is not reported; a
    waypoint not yet reached is neither complete nor reported. *)
Example verify_command_reports :
  let done_loitering :=
    set_loiter_to_alt
      {| reached_destination_xy := true; loiter_start_done := true;
         reached_alt := true; alt_error_cm := 2; target_alt := 1000 |}
      (Fixture.mode LOITER_TO_ALT PayloadPlace.Done) in
  let command l c := Fixture.cmd c l 0 in
  let here := Fixture.loc 0 0 1000 ABOVE_HOME in
  verify_command Fixture.flying (command here MAV_CMD_DO_SET_HOME) done_loitering
  = (true, done_loitering, [gcs_send_mission_item_reached_message 3])
  /\ verify_command Fixture.flying (command here MAV_CMD_NAV_LOITER_TO_ALT) done_loitering
     = (true, done_loitering, [])
  /\ verify_command Fixture.flying (command here MAV_CMD_NAV_WAYPOINT) done_loitering
     = (false, done_loitering, []).
Proof. cbv zeta. repeat split; vm_compute; reflexivity. Qed.

(** C1 on numbers: the waypoint tick in the air and on the ground. *)
Example wp_run_in_the_air_and_on_ground :
  calls (run_submode Fixture.flying (Fixture.mode WP PayloadPlace.Done))
  = [motors_set_desired_spool_state_THROTTLE_UNLIMITED; wp_nav_update_wpnav;
     failsafe_terrain_set_status; pos_control_update_U_controller;
     attitude_control_input_thrust_vector_heading]
  /\ calls (run_submode Fixture.on_ground (Fixture.mode WP PayloadPlace.Done))
     = [make_safe_ground_handling].
Proof. split; reflexivity. Qed.

(** * Further properties *)

(** ** Assignments that change nothing *)

(** Assigning to [_mode] the value it has changes nothing. *)
Lemma set_mode_same (s : ModeAuto) : set_mode (_mode s) s = s.
Proof. destruct s; reflexivity. Qed.

(** Assigning to [auto_yaw] the value it has changes nothing. *)
Lemma set_auto_yaw_same (s : ModeAuto) : set_auto_yaw (auto_yaw s) s = s.
Proof. destruct s; reflexivity. Qed.

(** Equality of submodes, decided. *)
Lemma SubMode_eqb_eq (a b : SubMode) : SubMode_eqb a b = true <-> a = b.
Proof. split; [destruct a, b; cbn; congruence | intros ->; destruct b; reflexivity]. Qed.

(** ** The submode (X1) *)

(** What [set_submode] does, in one equation. *)
Lemma set_submode_run (m : SubMode) (s : ModeAuto) :
  set_submode m s =
  (tt, set_mode m s,
   if negb (SubMode_eqb m (_mode s)) && SubMode_eqb (_mode s) NAV_ATTITUDE_TIME
   then [failsafe_ekf_recheck] else []).
Proof.
  unfold set_submode. cbv beta iota delta [bind get fst snd].
  destruct (SubMode_eqb m (_mode s)) eqn:E; cbn [negb andb].
  - apply SubMode_eqb_eq in E. subst m. rewrite set_mode_same. reflexivity.
  - destruct (SubMode_eqb (_mode s) NAV_ATTITUDE_TIME); reflexivity.
Qed.

(** X1: [set_submode] sets the submode and nothing else; it asks for the
    EKF failsafe to be checked again exactly when it moves from a submode
    that needs no position estimate to one that needs it; a second call
    with the same submode changes nothing and calls nothing. *)
Theorem set_submode_recheck_and_idempotent (m : SubMode) (s : ModeAuto) :
  let r := set_submode m s in
  after r = set_mode m s
  /\ calls r = (if negb (requires_GPS s) && requires_GPS (after r)
                then [failsafe_ekf_recheck] else [])
  /\ set_submode m (after r) = (tt, after r, []).
Proof.
  cbv zeta. rewrite !set_submode_run. cbn [after calls fst snd].
  unfold requires_GPS. cbn [_mode set_mode].
  split; [reflexivity|]. split.
  - rewrite negb_involutive.
    destruct m, (_mode s); reflexivity.
  - cbn [_mode set_mode].
    replace (SubMode_eqb m m) with true by (destruct m; reflexivity).
    cbn [negb andb]. reflexivity.
Qed.

(** ** Starting the waypoint controller (X2, X3, X4) *)

(** What [wp_start] does, in one equation. *)
Lemma wp_start_run (env : Env) (dest_loc : Location) (s : ModeAuto) :
  wp_start env dest_loc s =
  if set_wp_destination_loc (wp_nav env) dest_loc then
    (true,
     set_mode WP (set_auto_yaw (wp_start_yaw env (auto_yaw s)) s),
     wp_start_init_calls env s
     ++ (if negb (SubMode_eqb WP (_mode s)) && SubMode_eqb (_mode s) NAV_ATTITUDE_TIME
         then [failsafe_ekf_recheck] else []))
  else (false, s, wp_start_init_calls env s).
Proof.
  unfold wp_start, wp_start_init_calls, wp_start_yaw.
  cbv beta iota delta [bind get fst snd].
  destruct (is_active (wp_nav env)); cbn [negb when];
    cbv beta iota delta [bind call ret when fst snd];
    destruct (is_positive (up (desired_speed_override s)));
    destruct (is_positive (down (desired_speed_override s)));
    cbv beta iota delta [bind call ret when fst snd]; cbn [app];
    destruct (set_wp_destination_loc (wp_nav env) dest_loc); cbn [negb];
    cbv beta iota delta [bind call ret when fst snd]; try reflexivity;
    (destruct (negb (AutoYaw.is_ROI (auto_yaw s))
               && negb (AutoYaw.is_FIXED (auto_yaw s) && wp_yaw_behavior_is_NONE (g env)));
     cbv beta iota delta [bind call ret when modify fst snd];
     rewrite set_submode_run; cbn [_mode set_auto_yaw app];
     rewrite ?set_auto_yaw_same, ?app_nil_r; reflexivity).
Qed.

(** X2: [wp_start] succeeds exactly when the waypoint controller accepts
    the destination.  A refused destination leaves the whole state of the
    mode as it was: neither submode nor yaw mode changes.  On success the
    submode is WP and the yaw mode is the default one, except that ROI is
    kept, and Fixed is kept when the waypoint yaw behaviour is "none". *)
Theorem wp_start_all_or_nothing (env : Env) (dest_loc : Location) (s : ModeAuto) :
  let r := wp_start env dest_loc s in
  result r = set_wp_destination_loc (wp_nav env) dest_loc
  /\ after r =
     (if result r
      then set_mode WP (set_auto_yaw (wp_start_yaw env (auto_yaw s)) s)
      else s)
  /\ (if result r then
        _mode (after r) = WP
        /\ auto_yaw (after r) =
           match auto_yaw s with
           | AutoYaw.ROI => AutoYaw.ROI
           | AutoYaw.FIXED =>
               if wp_yaw_behavior_is_NONE (g env) then AutoYaw.FIXED else AutoYaw.DEFAULT
           | _ => AutoYaw.DEFAULT
           end
      else _mode (after r) = _mode s /\ auto_yaw (after r) = auto_yaw s).
Proof.
  cbv zeta. rewrite wp_start_run.
  destruct (set_wp_destination_loc (wp_nav env) dest_loc);
    cbn [result after fst snd _mode auto_yaw set_mode set_auto_yaw];
    repeat split.
  unfold wp_start_yaw.
  destruct (auto_yaw s); cbn; try reflexivity.
  destruct (wp_yaw_behavior_is_NONE (g env)); reflexivity.
Qed.

(** A positive speed in cm/s is positive in m/s and comes back unchanged. *)
Lemma speed_cms_round_trip (v : Q) :
  (0 < v)%Q -> is_positive (v * (1 # 100))%Q = true /\ (v * (1 # 100) * 100 == v)%Q.
Proof.
  intros H. split; [|field].
  unfold is_positive, fgtb. apply fltb_lt.
  setoid_replace 0%Q with (0 * (1 # 100))%Q by ring.
  apply Qmult_lt_compat_r; [reflexivity | exact H].
Qed.

(** X3: a positive climb or descent speed set with [set_speed_up_cms] or
    [set_speed_down_cms] is remembered, and the next [wp_start] that finds
    the waypoint controller inactive hands the same speed to the controller
    it re-initialises. *)
Theorem set_speed_survives_wp_start (env : Env) (dest_loc : Location)
    (v : Q) (s : ModeAuto) :
  (0 < v)%Q ->
  is_active (wp_nav env) = false ->
  In (wp_nav_set_speed_up_cms (v * (1 # 100) * 100)%Q)
     (calls (wp_start env dest_loc (after (set_speed_up_cms v s))))
  /\ In (wp_nav_set_speed_down_cms (v * (1 # 100) * 100)%Q)
        (calls (wp_start env dest_loc (after (set_speed_down_cms v s))))
  /\ (v * (1 # 100) * 100 == v)%Q.
Proof.
  intros Hv Hact. destruct (speed_cms_round_trip v Hv) as [Hpos Heq].
  split; [|split; [|exact Heq]].
  - rewrite wp_start_run.
    assert (In (wp_nav_set_speed_up_cms (v * (1 # 100) * 100)%Q)
               (wp_start_init_calls env (after (set_speed_up_cms v s)))) as Hin.
    { unfold wp_start_init_calls. rewrite Hact.
      cbn [set_speed_up_cms bind call modify ret after fst snd
           desired_speed_override set_desired_speed_override up dso_set_up].
      rewrite Hpos. apply in_or_app. right. apply in_or_app. left. left. reflexivity. }
    destruct (set_wp_destination_loc (wp_nav env) dest_loc); cbn [calls snd];
      [apply in_or_app; left|]; exact Hin.
  - rewrite wp_start_run.
    assert (In (wp_nav_set_speed_down_cms (v * (1 # 100) * 100)%Q)
               (wp_start_init_calls env (after (set_speed_down_cms v s)))) as Hin.
    { unfold wp_start_init_calls. rewrite Hact.
      cbn [set_speed_down_cms bind call modify ret after fst snd
           desired_speed_override set_desired_speed_override down dso_set_down].
      rewrite Hpos. apply in_or_app. right. apply in_or_app. right. left. reflexivity. }
    destruct (set_wp_destination_loc (wp_nav env) dest_loc); cbn [calls snd];
      [apply in_or_app; left|]; exact Hin.
Qed.

Lemma set_speed_survives_wp_start_witness :
  let env := More.inactive Fixture.flying in
  (0 < 250)%Q /\ is_active (wp_nav env) = false
  /\ In (wp_nav_set_speed_up_cms (250 * (1 # 100) * 100)%Q)
        (calls (wp_start env (Fixture.loc 1 2 500 ABOVE_HOME)
                  (after (set_speed_up_cms 250 (Fixture.mode LOITER PayloadPlace.Done))))).
Proof.
  cbv zeta. split; [reflexivity|]. split; [reflexivity|].
  refine (proj1 (set_speed_survives_wp_start _ _ 250 _ _ _)); reflexivity.
Defined.

(** After a successful [init] the speed overrides are unset and the submode
    is Loiter. *)
Lemma init_success_state (env : Env) (ignore_checks : bool) (s : ModeAuto) :
  result (init env ignore_checks s) = true ->
  desired_speed_override (after (init env ignore_checks s))
  = {| xy := 0; up := 0; down := 0 |}
  /\ _mode (after (init env ignore_checks s)) = LOITER.
Proof.
  unfold init, result, after.
  destruct (mission_present (copter env) || ignore_checks);
    [|cbv beta iota delta [bind modify ret fst snd]; discriminate].
  destruct (motors_armed (copter env) && land_complete (copter env)
            && negb (starts_with_takeoff_cmd (copter env)));
    [cbv beta iota delta [bind modify ret call fst snd]; discriminate|].
  intros _.
  cbv beta iota delta [bind modify get ret call when fst snd].
  cbn [auto_yaw set_mode set_auto_RTL].
  destruct (AutoYaw.is_ROI (auto_yaw s)); split; reflexivity.
Qed.

(** X4: speed overrides do not survive the entry into the mode: the first
    [wp_start] after a successful [init] re-initialises an inactive
    waypoint controller at its default speed (speed argument 0) and sets no
    climb or descent speed. *)
Theorem init_forgets_speed_overrides (env env' : Env) (ignore_checks : bool)
    (dest_loc : Location) (s : ModeAuto) :
  result (init env ignore_checks s) = true ->
  let r := wp_start env' dest_loc (after (init env ignore_checks s)) in
  filter is_wp_nav_set_speed (calls r) = []
  /\ (if is_active (wp_nav env') then True
      else In (wp_nav_wp_and_spline_init_cm 0 false) (calls r)).
Proof.
  intros H. destruct (init_success_state env ignore_checks s H) as [Hd Hm].
  cbv zeta. rewrite wp_start_run.
  set (s1 := after (init env ignore_checks s)) in *.
  assert (Hc : wp_start_init_calls env' s1 =
               if is_active (wp_nav env') then []
               else [wp_nav_wp_and_spline_init_cm 0 false]).
  { unfold wp_start_init_calls. rewrite Hd, Hm. cbn [xy up down].
    destruct (is_active (wp_nav env')); reflexivity. }
  rewrite Hc.
  destruct (set_wp_destination_loc (wp_nav env') dest_loc); cbn [calls snd];
    destruct (is_active (wp_nav env')); cbn [app];
    try (destruct (negb (SubMode_eqb WP (_mode s1)) && SubMode_eqb (_mode s1) NAV_ATTITUDE_TIME));
    cbn; auto.
Qed.

Lemma init_forgets_speed_overrides_witness :
  let s := after (set_speed_up_cms 250 (Fixture.mode WP PayloadPlace.Done)) in
  up (desired_speed_override s) = (250 * (1 # 100))%Q
  /\ result (init Fixture.flying true s) = true
  /\ filter is_wp_nav_set_speed
       (calls (wp_start (More.inactive Fixture.flying) (Fixture.loc 1 2 500 ABOVE_HOME)
                 (after (init Fixture.flying true s)))) = [].
Proof.
  cbv zeta. split; [reflexivity|]. split; [reflexivity|].
  exact (proj1 (init_forgets_speed_overrides Fixture.flying (More.inactive Fixture.flying)
                  true (Fixture.loc 1 2 500 ABOVE_HOME)
                  (after (set_speed_up_cms 250 (Fixture.mode WP PayloadPlace.Done)))
                  eq_refl)).
Defined.

(** What [default_loc_for_cmd] does: it only reads. *)
Lemma default_loc_for_cmd_state (env : Env) (s : ModeAuto) :
  after (default_loc_for_cmd env s) = s
  /\ filter is_failsafe_terrain_on_event (calls (default_loc_for_cmd env s)) = [].
Proof.
  unfold default_loc_for_cmd.
  destruct (is_active (wp_nav env) && reached_wp_destination (wp_nav env));
    [destruct (get_wp_destination_loc (wp_nav env))|]; split; reflexivity.
Qed.

(** The re-initialisation of the waypoint controller raises no terrain
    failsafe. *)
Lemma wp_start_init_calls_no_terrain_event (env : Env) (s : ModeAuto) :
  filter is_failsafe_terrain_on_event (wp_start_init_calls env s) = [].
Proof.
  unfold wp_start_init_calls.
  destruct (is_active (wp_nav env)); [reflexivity|].
  destruct (is_positive (up (desired_speed_override s)));
    destruct (is_positive (down (desired_speed_override s))); reflexivity.
Qed.

(** X5: [do_loiter_unlimited] raises the terrain failsafe event exactly
    when the waypoint controller refuses the resolved target (once), and in
    that case leaves the state of the mode as it was; when the target is
    accepted the submode is WP. *)
Theorem do_loiter_unlimited_terrain_failsafe (env : Env) (cmd : Mission_Command)
    (s : ModeAuto) :
  let r := do_loiter_unlimited env cmd s in
  let target_loc := loc_from_cmd env cmd (result (default_loc_for_cmd env s)) in
  if set_wp_destination_loc (wp_nav env) target_loc then
    filter is_failsafe_terrain_on_event (calls r) = [] /\ _mode (after r) = WP
  else
    filter is_failsafe_terrain_on_event (calls r) = [failsafe_terrain_on_event]
    /\ after r = s.
Proof.
  cbv zeta. unfold do_loiter_unlimited.
  rewrite run_bind. destruct (default_loc_for_cmd_state env s) as [Hs Hc].
  rewrite Hs. rewrite run_bind, wp_start_run.
  set (d := result (default_loc_for_cmd env s)).
  destruct (set_wp_destination_loc (wp_nav env) (loc_from_cmd env cmd d));
    cbn [result after calls fst snd negb when call ret app _mode set_mode];
    rewrite !filter_app, Hc, wp_start_init_calls_no_terrain_event;
    (split; [|reflexivity]).
  - destruct (negb (SubMode_eqb WP (_mode s)) && SubMode_eqb (_mode s) NAV_ATTITUDE_TIME);
      reflexivity.
  - reflexivity.
Qed.

(** ** Waypoint arrival and dwell (X6, X7) *)

(** X6: the three verify handlers of the waypoint-like commands
    ([verify_nav_wp], [verify_spline_wp], [verify_loiter_time]) give the
    same answer and leave the same state; they differ only in that
    [verify_nav_wp] also raises the waypoint-complete tone.  Before the
    destination is reached each answers false, changes nothing and calls
    nothing. *)
Theorem verify_waypoint_handlers_agree (env : Env) (cmd : Mission_Command)
    (s : ModeAuto) :
  let nav := verify_nav_wp env cmd s in
  let spline := verify_spline_wp env cmd s in
  let timed := verify_loiter_time env cmd s in
  spline = timed
  /\ result nav = result spline
  /\ after nav = after spline
  /\ filter (fun a => negb (is_waypoint_complete_tone a)) (calls nav) = calls spline
  /\ (if reached_wp_destination (wp_nav env) then True
      else nav = (false, s, []) /\ spline = (false, s, [])).
Proof.
  cbv zeta. unfold verify_nav_wp, verify_spline_wp, verify_loiter_time.
  destruct (reached_wp_destination (wp_nav env)); cbn [negb];
    [|repeat split; reflexivity].
  cbv beta iota delta [bind get fst snd].
  destruct (loiter_time s =? 0); cbn [when];
    destruct (loiter_time_max s >? 0);
    cbv beta iota zeta delta [bind get modify ret call when fst snd result after calls];
    unfold loiter_timer_expired; cbn [loiter_time loiter_time_max set_loiter_time];
    repeat match goal with
           | |- context [if ?b then _ else _] => destruct b
           end;
    cbv beta iota zeta delta [bind get modify ret call when fst snd result after calls];
    repeat split; reflexivity.
Qed.

(** X7: the dwell of a waypoint is measured from the first poll that finds
    the destination reached.  That poll starts the timer and answers true
    only for a dwell of 0 s; a later poll answers true exactly when the
    whole seconds elapsed since the first one, counted on the wrapping
    32-bit millisecond clock, have reached the dwell. *)
Theorem verify_nav_wp_dwell (env0 env1 : Env) (cmd : Mission_Command)
    (s : ModeAuto) :
  reached_wp_destination (wp_nav env0) = true ->
  reached_wp_destination (wp_nav env1) = true ->
  loiter_time s = 0 ->
  millis (copter env0) <> 0 ->
  let first := verify_nav_wp env0 cmd s in
  let later := verify_nav_wp env1 cmd (after first) in
  loiter_time (after first) = millis (copter env0)
  /\ result first = (0 >=? loiter_time_max s)
  /\ result later
     = (sub_uint32 (millis (copter env1)) (millis (copter env0)) / 1000
        >=? loiter_time_max s)
  /\ loiter_time (after later) = millis (copter env0).
Proof.
  intros H0 H1 Hs Ht. cbv zeta.
  assert (F : after (verify_nav_wp env0 cmd s) = set_loiter_time (millis (copter env0)) s
              /\ result (verify_nav_wp env0 cmd s) = (0 >=? loiter_time_max s)).
  { unfold verify_nav_wp. rewrite H0. cbn [negb].
    cbv beta iota delta [bind get fst snd]. rewrite Hs. cbn [Z.eqb when].
    destruct (loiter_time_max s >? 0);
      cbv beta iota zeta delta [bind get modify ret call when fst snd result after];
      unfold loiter_timer_expired; cbn [loiter_time loiter_time_max set_loiter_time];
      rewrite sub_uint32_diag; change (0 / 1000) with 0;
      destruct (0 >=? loiter_time_max s);
      cbv beta iota zeta delta [bind get modify ret call when fst snd result after];
      try (destruct (loiter_time_max s =? 0));
      cbv beta iota zeta delta [bind get modify ret call when fst snd result after];
      split; reflexivity. }
  destruct F as [Fa Fr]. rewrite Fa, Fr.
  split; [reflexivity|]. split; [reflexivity|].
  unfold verify_nav_wp. rewrite H1. cbn [negb].
  cbv beta iota delta [bind get fst snd]. cbn [loiter_time set_loiter_time].
  apply Z.eqb_neq in Ht. rewrite Ht. cbn [when].
  cbv beta iota zeta delta [bind get modify ret call when fst snd result after].
  unfold loiter_timer_expired. cbn [loiter_time loiter_time_max set_loiter_time].
  destruct (sub_uint32 (millis (copter env1)) (millis (copter env0)) / 1000
            >=? loiter_time_max s);
    cbv beta iota zeta delta [bind get modify ret call when fst snd result after];
    try (destruct (loiter_time_max s =? 0));
    cbv beta iota zeta delta [bind get modify ret call when fst snd result after];
    split; reflexivity.
Qed.

Lemma verify_nav_wp_dwell_witness :
  let env0 := More.at_time 60000 (More.arrived Fixture.flying) in
  let env1 := More.at_time 64999 (More.arrived Fixture.flying) in
  let env2 := More.at_time 65000 (More.arrived Fixture.flying) in
  let cmd := Fixture.cmd MAV_CMD_NAV_WAYPOINT (Fixture.loc 1 2 500 ABOVE_HOME) 0 in
  let s := set_loiter_time_max 5 (Fixture.mode WP PayloadPlace.Done) in
  reached_wp_destination (wp_nav env0) = true
  /\ loiter_time s = 0 /\ millis (copter env0) <> 0
  /\ result (verify_nav_wp env0 cmd s) = false
  /\ result (verify_nav_wp env1 cmd (after (verify_nav_wp env0 cmd s))) = false
  /\ result (verify_nav_wp env2 cmd (after (verify_nav_wp env0 cmd s))) = true.
Proof.
  cbv zeta. split; [reflexivity|]. split; [reflexivity|]. split; [discriminate|].
  pose proof (verify_nav_wp_dwell
                (More.at_time 60000 (More.arrived Fixture.flying))
                (More.at_time 64999 (More.arrived Fixture.flying))
                (Fixture.cmd MAV_CMD_NAV_WAYPOINT (Fixture.loc 1 2 500 ABOVE_HOME) 0)
                (set_loiter_time_max 5 (Fixture.mode WP PayloadPlace.Done))
                eq_refl eq_refl eq_refl ltac:(discriminate)) as H.
  cbv zeta in H. destruct H as (_ & H2 & H3 & _).
  split; [rewrite H2; reflexivity|]. split; [rewrite H3; reflexivity|].
  reflexivity.
Defined.

(** ** Landing (X8) *)

Lemma land_start_run (env : Env) (s : ModeAuto) :
  after (land_start env s) = set_mode LAND (set_auto_yaw AutoYaw.HOLD s)
  /\ result (land_start env s) = tt
  /\ filter (fun a => match a with arming_disarm_LANDED => true | _ => false end)
            (calls (land_start env s)) = [].
Proof.
  unfold land_start.
  destruct (is_active_NE (pos_control env)), (is_active_U (pos_control env));
    cbn [negb when];
    cbv beta iota zeta delta [bind modify get ret call fst snd];
    rewrite set_submode_run;
    cbv beta iota zeta delta [result after calls fst snd];
    cbn [_mode set_auto_yaw];
    (split; [reflexivity|]); (split; [reflexivity|]);
    destruct (negb (SubMode_eqb LAND (_mode s)) && SubMode_eqb (_mode s) NAV_ATTITUDE_TIME);
    reflexivity.
Qed.

(** X8: [verify_land] reports a landing complete only in the Descending
    phase, with the vehicle land-complete and the motors at ground idle,
    and then only if the mission continues after landing or the motors are
    already disarmed; otherwise it disarms and keeps answering false, so
    that the mission stays on the land command.  In the FlyToLocation phase
    it answers false and never disarms; on arrival it starts the land
    controller (submode LAND, yaw held) and moves to Descending. *)
Theorem verify_land_completion (env : Env) (s : ModeAuto) :
  let r := verify_land env s in
  let landed := land_complete (copter env) && spool_state_is_GROUND_IDLE (copter env) in
  match state s with
  | FlyToLocation =>
      result r = false
      /\ filter (fun a => match a with arming_disarm_LANDED => true | _ => false end)
                (calls r) = []
      /\ (if reached_wp_destination (wp_nav env)
          then after r = set_state Descending (set_mode LAND (set_auto_yaw AutoYaw.HOLD s))
          else r = (false, s, []))
  | Descending =>
      result r = landed && (continue_after_land_check_for_takeoff (copter env)
                            || negb (motors_armed (copter env)))
      /\ calls r = (if landed
                       && negb (continue_after_land_check_for_takeoff (copter env))
                       && motors_armed (copter env)
                    then [arming_disarm_LANDED] else [])
      /\ after r = s
  end.
Proof.
  cbv zeta. unfold verify_land. cbv beta iota delta [bind get fst snd].
  destruct (state s) eqn:Hst.
  - destruct (reached_wp_destination (wp_nav env)); cbn [when];
      [|repeat split; reflexivity].
    destruct (land_start_run env s) as (Ha & _ & Hc).
    destruct (land_start env s) as [[u s1] l1].
    cbv beta iota zeta delta [result after calls fst snd] in Ha, Hc. subst s1.
    cbv beta iota zeta delta [bind modify ret result after calls fst snd].
    rewrite !filter_app, Hc. repeat split; reflexivity.
  - destruct (land_complete (copter env)), (spool_state_is_GROUND_IDLE (copter env)),
      (continue_after_land_check_for_takeoff (copter env)), (motors_armed (copter env));
      repeat split; reflexivity.
Qed.

(** ** Circles (X9, X10) *)

Lemma HIGHBYTE_range (p : Z) : 0 <= HIGHBYTE p <= 255.
Proof.
  unfold HIGHBYTE.
  assert (E : Z.land (Z.shiftr p 8) 255 = Z.shiftr p 8 mod 256)
    by (change 255 with (Z.ones 8); rewrite Z.land_ones by lia; reflexivity).
  rewrite E.
  pose proof (Z.mod_pos_bound (Z.shiftr p 8) 256 ltac:(lia)). lia.
Qed.

Lemma is_zero_inject_Z (z : Z) : is_zero (inject_Z z) = (z =? 0).
Proof.
  unfold is_zero, Qeq_bool, inject_Z. cbn [Qnum Qden].
  rewrite Z.mul_1_r. destruct z; reflexivity.
Qed.

Lemma set_auto_yaw_ROI_same (s : ModeAuto) (y : AutoYaw.Mode) :
  (if AutoYaw.is_ROI (auto_yaw s) then s else set_auto_yaw y s)
  = set_auto_yaw (if AutoYaw.is_ROI (auto_yaw s) then auto_yaw s else y) s.
Proof.
  destruct (AutoYaw.is_ROI (auto_yaw s)); [|reflexivity].
  rewrite set_auto_yaw_same. reflexivity.
Qed.

Lemma circle_start_run (s : ModeAuto) :
  circle_start s =
  (tt,
   set_mode CIRCLE (if AutoYaw.is_ROI (auto_yaw s) then s
                    else set_auto_yaw AutoYaw.CIRCLE s),
   circle_nav_init_NEU_cm ::
   (if negb (SubMode_eqb CIRCLE (_mode s)) && SubMode_eqb (_mode s) NAV_ATTITUDE_TIME
    then [failsafe_ekf_recheck] else [])).
Proof.
  unfold circle_start.
  cbv beta iota zeta delta [bind get call fst snd].
  destruct (AutoYaw.is_ROI (auto_yaw s)); cbn [negb when];
    cbv beta iota zeta delta [bind modify ret fst snd];
    rewrite set_submode_run; reflexivity.
Qed.

Lemma circle_movetoedge_start_run (env : Env) (circle_center : Location)
    (radius_m : Q) (ccw_turn : bool) (s : ModeAuto) :
  let r := circle_movetoedge_start env circle_center radius_m ccw_turn s in
  let far := fgtb (dist_to_edge (circle_nav env)) 300 in
  let circle_edge :=
    copy_alt_from circle_center (closest_point_on_circle (circle_nav env)) in
  after r = set_mode (if far then CIRCLE_MOVE_TO_EDGE else CIRCLE)
                     (set_auto_yaw (circle_yaw env (auto_yaw s)) s)
  /\ filter is_circle_nav_set_radius_cm (calls r)
     = (if is_zero radius_m then []
        else [circle_nav_set_radius_cm (radius_m * 100)%Q])
  /\ filter is_failsafe_terrain_on_event (calls r)
     = (if far && negb (set_wp_destination_loc (wp_nav env) circle_edge)
        then [failsafe_terrain_on_event] else []).
Proof.
  cbv zeta. unfold circle_movetoedge_start, circle_yaw.
  destruct (fgtb (dist_to_edge (circle_nav env)) 300).
  - destruct (is_zero radius_m),
      (set_wp_destination_loc (wp_nav env)
         (copy_alt_from circle_center (closest_point_on_circle (circle_nav env))));
      cbn [negb when andb];
      cbv beta iota zeta delta [bind get call ret fst snd];
      destruct (AutoYaw.is_ROI (auto_yaw s)) eqn:R; cbn [negb when];
      destruct (fgtb (dist_to_center (circle_nav env)) (get_radius_cm (circle_nav env))
                && fgtb (dist_to_center (circle_nav env)) 500);
      cbv beta iota zeta delta [bind modify ret fst snd];
      rewrite set_submode_run;
      cbv beta iota zeta delta [result after calls fst snd];
      try rewrite set_auto_yaw_same;
      cbn [_mode set_auto_yaw];
      (split; [reflexivity|]);
      destruct (negb (SubMode_eqb CIRCLE_MOVE_TO_EDGE (_mode s))
                && SubMode_eqb (_mode s) NAV_ATTITUDE_TIME);
      split; reflexivity.
  - destruct (is_zero radius_m); cbn [negb when andb];
      cbv beta iota zeta delta [bind get call ret fst snd];
      rewrite circle_start_run, set_auto_yaw_ROI_same;
      cbv beta iota zeta delta [result after calls fst snd];
      (split; [reflexivity|]);
      destruct (negb (SubMode_eqb CIRCLE (_mode s))
                && SubMode_eqb (_mode s) NAV_ATTITUDE_TIME);
      split; reflexivity.
Qed.

Lemma do_circle_run (env : Env) (cmd : Mission_Command) (s : ModeAuto) :
  exists c radius_m,
    radius_m = inject_Z (HIGHBYTE (p1 cmd) * circle_radius_scale cmd)
    /\ c = loc_from_cmd env cmd (subtract_pos_offsets env (current_loc (copter env)))
    /\ after (do_circle env cmd s)
       = set_circle_last_num_complete (-1)%Q
           (after (circle_movetoedge_start env c radius_m
                     (loiter_ccw (location cmd)) s))
    /\ calls (do_circle env cmd s)
       = calls (circle_movetoedge_start env c radius_m (loiter_ccw (location cmd)) s).
Proof.
  eexists. eexists. split; [reflexivity|]. split; [reflexivity|].
  unfold do_circle. cbv zeta.
  assert (E : match id cmd with
              | MAV_CMD_NAV_LOITER_TURNS =>
                  if Z.testbit (type_specific_bits cmd) 0
                  then (HIGHBYTE (p1 cmd) * 10) mod 2 ^ 16
                  else HIGHBYTE (p1 cmd)
              | _ => HIGHBYTE (p1 cmd)
              end = HIGHBYTE (p1 cmd) * circle_radius_scale cmd).
  { pose proof (HIGHBYTE_range (p1 cmd)) as B. unfold circle_radius_scale.
    destruct (id cmd); try (now rewrite Z.mul_1_r).
    destruct (Z.testbit (type_specific_bits cmd) 0); [|now rewrite Z.mul_1_r].
    apply Z.mod_small. lia. }
  rewrite E. rewrite after_bind, calls_bind.
  cbv beta iota zeta delta [modify result after calls fst snd].
  rewrite app_nil_r. split; reflexivity.
Qed.

(** X9: [do_circle] starts in submode CIRCLE when the vehicle is within 3 m
    of the circle's edge and in CIRCLE_MOVE_TO_EDGE otherwise, also when
    the edge is refused as a destination (then the terrain failsafe event
    is raised, and only then).  It resets the count of announced circles to
    -1, leaves a ROI yaw alone, and sets the radius only when the high byte
    of p1 is not 0; the radius is that byte in metres, times 10 for a
    LOITER_TURNS command with bit 0 of its type-specific bits set, and the
    16-bit product never wraps. *)
Theorem do_circle_start (env : Env) (cmd : Mission_Command) (s : ModeAuto) :
  let r := do_circle env cmd s in
  let far := fgtb (dist_to_edge (circle_nav env)) 300 in
  let circle_center :=
    loc_from_cmd env cmd (subtract_pos_offsets env (current_loc (copter env))) in
  let circle_edge :=
    copy_alt_from circle_center (closest_point_on_circle (circle_nav env)) in
  after r = set_circle_last_num_complete (-1)%Q
              (set_mode (if far then CIRCLE_MOVE_TO_EDGE else CIRCLE)
                 (set_auto_yaw (circle_yaw env (auto_yaw s)) s))
  /\ (if AutoYaw.is_ROI (auto_yaw s) then auto_yaw (after r) = auto_yaw s
      else AutoYaw.is_ROI (auto_yaw (after r)) = false)
  /\ filter is_circle_nav_set_radius_cm (calls r)
     = (if HIGHBYTE (p1 cmd) =? 0 then []
        else [circle_nav_set_radius_cm
                (inject_Z (HIGHBYTE (p1 cmd) * circle_radius_scale cmd) * 100)%Q])
  /\ filter is_failsafe_terrain_on_event (calls r)
     = (if far && negb (set_wp_destination_loc (wp_nav env) circle_edge)
        then [failsafe_terrain_on_event] else []).
Proof.
  cbv zeta.
  destruct (do_circle_run env cmd s) as (c & radius_m & Hr & Hc & Ha & Hl).
  destruct (circle_movetoedge_start_run env c radius_m (loiter_ccw (location cmd)) s)
    as (Ma & Mr & Mt).
  rewrite Ha, Hl, Ma, Mr, Mt. subst c radius_m.
  split; [reflexivity|]. split.
  - cbn [auto_yaw set_circle_last_num_complete set_mode set_auto_yaw].
    unfold circle_yaw. destruct (AutoYaw.is_ROI (auto_yaw s)) eqn:R; [reflexivity|].
    repeat match goal with
           | |- context [if ?b then _ else _] => destruct b
           end; reflexivity.
  - split; [|reflexivity].
    rewrite is_zero_inject_Z.
    assert (Z : (HIGHBYTE (p1 cmd) * circle_radius_scale cmd =? 0)
                = (HIGHBYTE (p1 cmd) =? 0)).
    { unfold circle_radius_scale.
      destruct (id cmd); try (now rewrite Z.mul_1_r).
      destruct (Z.testbit (type_specific_bits cmd) 0); [|now rewrite Z.mul_1_r].
      destruct (HIGHBYTE (p1 cmd)); reflexivity. }
    rewrite Z. reflexivity.
Qed.

Lemma float_to_int_fabsf_nonneg (q : Q) : 0 <= float_to_int (fabsf q).
Proof.
  destruct q as [n d]. unfold float_to_int, fabsf, Qabs. cbn [Qnum Qden].
  apply Z.quot_pos; lia.
Qed.

Lemma verify_circle_at_edge (env : Env) (cmd : Mission_Command) (s : ModeAuto) :
  _mode s = CIRCLE_MOVE_TO_EDGE ->
  reached_wp_destination (wp_nav env) = true ->
  verify_circle env cmd s =
  (false,
   set_mode CIRCLE (if AutoYaw.is_ROI (auto_yaw s) then s
                    else set_auto_yaw AutoYaw.CIRCLE s),
   [circle_nav_init_NEU_cm]).
Proof.
  intros Hm Hr. unfold verify_circle.
  cbv beta iota delta [bind get fst snd]. rewrite Hm, Hr. cbn [SubMode_eqb when].
  rewrite circle_start_run, Hm. cbn [SubMode_eqb negb andb].
  cbv beta iota zeta delta [ret]. cbn [app]. reflexivity.
Qed.

(** X10: after [do_circle] the first poll made in submode CIRCLE always
    announces a circle, numbered from 1, because [do_circle] leaves the
    count of announced circles at -1 and the turns flown are counted as a
    magnitude.  When [do_circle] started far from the edge, the poll that
    finds the edge reached answers false, announces nothing and switches to
    CIRCLE without touching the count. *)
Theorem first_circling_poll_announces (env0 env1 env2 : Env)
    (cmd : Mission_Command) (s : ModeAuto) :
  reached_wp_destination (wp_nav env1) = true ->
  let far := fgtb (dist_to_edge (circle_nav env0)) 300 in
  let started := after (do_circle env0 cmd s) in
  let edge_poll := verify_circle env1 cmd started in
  let circling := if far then after edge_poll else started in
  let poll := verify_circle env2 cmd circling in
  let flown := fabsf (get_angle_total_turns (circle_nav env2)) in
  (if far
   then result edge_poll = false /\ filter is_starting_circle (calls edge_poll) = []
   else True)
  /\ _mode circling = CIRCLE
  /\ calls poll = [starting_circle (float_to_int flown + 1)
                                   (float_to_int (loiter_turns cmd))]
  /\ 1 <= float_to_int flown + 1
  /\ result poll = fgeb flown (loiter_turns cmd).
Proof.
  intros Hr. cbv zeta.
  destruct (do_circle_run env0 cmd s) as (c & radius_m & _ & _ & Ha & _).
  destruct (circle_movetoedge_start_run env0 c radius_m (loiter_ccw (location cmd)) s)
    as (Ma & _ & _).
  rewrite Ha, Ma. clear Ha Ma.
  pose proof (float_to_int_fabsf_nonneg (get_angle_total_turns (circle_nav env2))) as Hn.
  assert (Hne : forall s',
             _mode s' = CIRCLE -> circle_last_num_complete s' = (-1)%Q ->
             calls (verify_circle env2 cmd s')
             = [starting_circle
                  (float_to_int (fabsf (get_angle_total_turns (circle_nav env2))) + 1)
                  (float_to_int (loiter_turns cmd))]
             /\ result (verify_circle env2 cmd s')
                = fgeb (fabsf (get_angle_total_turns (circle_nav env2)))
                       (loiter_turns cmd)).
  { intros s' Hm Hl.
    pose proof (verify_circle_circling env2 cmd s') as V. cbv zeta in V.
    rewrite Hm in V. specialize (V eq_refl). rewrite Hl in V.
    change (float_to_int (-1)%Q) with (-1) in V.
    destruct (float_to_int (fabsf (get_angle_total_turns (circle_nav env2))) =? -1) eqn:E.
    - apply Z.eqb_eq in E. lia.
    - rewrite V. split; reflexivity. }
  destruct (fgtb (dist_to_edge (circle_nav env0)) 300).
  - rewrite verify_circle_at_edge by (assumption || reflexivity).
    match goal with
    | |- context [verify_circle env2 cmd (after (?a, ?x, ?l))] =>
        change (after (a, x, l)) with x;
        change (result (a, x, l)) with a;
        change (calls (a, x, l)) with l;
        destruct (Hne x) as (Hc & Hres)
    end.
    + reflexivity.
    + match goal with
      | |- context [if ?b then _ else _] => destruct b
      end; reflexivity.
    + rewrite Hc, Hres. split; [split; reflexivity|]. split; [reflexivity|].
      split; [reflexivity|]. split; [lia|reflexivity].
  - split; [exact I|]. split; [reflexivity|].
    destruct (Hne (set_circle_last_num_complete (-1)%Q
                     (set_mode CIRCLE (set_auto_yaw (circle_yaw env0 (auto_yaw s)) s))))
      as (Hc & Hres); [reflexivity|reflexivity|].
    rewrite Hc, Hres. split; [reflexivity|]. split; [lia|reflexivity].
Qed.

Lemma first_circling_poll_announces_witness :
  let env0 := More.with_circle_nav (More.outside_circle 0) Fixture.flying in
  let env1 := More.arrived env0 in
  let env2 := More.with_circle_nav (More.outside_circle (1 # 4)) Fixture.flying in
  let cmd := Fixture.cmd MAV_CMD_NAV_LOITER_TURNS (Fixture.loc 1 2 500 ABOVE_HOME) 2 in
  reached_wp_destination (wp_nav env1) = true
  /\ calls (verify_circle env2 cmd
              (after (verify_circle env1 cmd
                        (after (do_circle env0 cmd (Fixture.mode WP PayloadPlace.Done))))))
     = [starting_circle 1 2].
Proof.
  cbv zeta. split; [reflexivity|].
  pose proof (first_circling_poll_announces
                (More.with_circle_nav (More.outside_circle 0) Fixture.flying)
                (More.arrived (More.with_circle_nav (More.outside_circle 0) Fixture.flying))
                (More.with_circle_nav (More.outside_circle (1 # 4)) Fixture.flying)
                (Fixture.cmd MAV_CMD_NAV_LOITER_TURNS (Fixture.loc 1 2 500 ABOVE_HOME) 2)
                (Fixture.mode WP PayloadPlace.Done) eq_refl) as H.
  cbv zeta in H. destruct H as (_ & _ & H & _).
  exact H.
Defined.

(** ** Payload place: release, abort, completion (X11 to X14) *)

(** What [PayloadPlace::run] does in the Descent phase when the vehicle
    flies, no landing is detected or suspected and the gripper is not
    open: the first two blocks do nothing, and the state moves as the
    Descent label decides. *)
Lemma PayloadPlace_run_Descent (env : Env) (s : ModeAuto) :
  pp_state s = PayloadPlace.Descent ->
  is_disarmed_or_landed (copter env) = false ->
  land_complete (copter env) || land_complete_maybe (copter env) = false ->
  gripper_valid (payload env) && gripper_released (payload env) = false ->
  after (PayloadPlace_run env s) = after (PayloadPlace_case_Descent env s)
  /\ filter is_warning (calls (PayloadPlace_run env s))
     = filter is_warning (calls (PayloadPlace_case_Descent env s)).
Proof.
  intros Hs Hf Hl Hg.
  unfold PayloadPlace_run, PayloadPlace_landed_block, PayloadPlace_gripper_block,
    PayloadPlace_state_switch, PayloadPlace_output.
  rewrite Hf, Hl, Hg. cbn [when].
  cbv beta iota delta [bind call ret get fst snd]. rewrite Hs.
  pose proof (PayloadPlace_state_switch_edge env s) as H.
  unfold PayloadPlace_state_switch in H.
  cbv beta iota delta [bind get fst snd] in H. rewrite Hs in H.
  destruct (PayloadPlace_case_Descent env s) as [[u s1] l1] eqn:E.
  cbn [after calls fst snd] in *.
  destruct (pp_state s1); try discriminate H;
    cbn [after calls fst snd app filter is_warning];
    rewrite !filter_app; cbn [filter is_warning]; rewrite app_nil_r;
    split; reflexivity.
Qed.

(** X11: a payload is not released on a guess.  In the Descent phase, with
    the vehicle flying, no landing detected or suspected and the gripper
    not opened by hand, one call of [PayloadPlace::run] leaves the Descent
    phase for a release only on the evidence of the thrust: unless the
    descent rate is established, the 2 s thrust calibration is over, the
    thrust is at or below the placed fraction of the calibrated level, and
    this has lasted more than 500 ms, the state stays Descent or aborts to
    Ascent_Start. *)
Theorem PayloadPlace_release_needs_evidence (env : Env) (s : ModeAuto) :
  pp_state s = PayloadPlace.Descent ->
  is_disarmed_or_landed (copter env) = false ->
  land_complete (copter env) || land_complete_maybe (copter env) = false ->
  gripper_valid (payload env) && gripper_released (payload env) = false ->
  PayloadPlace_thrust_says_placed env s = false ->
  pp_state (after (PayloadPlace_run env s)) = PayloadPlace.Descent
  \/ pp_state (after (PayloadPlace_run env s)) = PayloadPlace.Ascent_Start.
Proof.
  intros Hs Hf Hl Hg He.
  destruct (PayloadPlace_run_Descent env s Hs Hf Hl Hg) as [Ha _]. rewrite Ha.
  unfold PayloadPlace_thrust_says_placed in He. cbv zeta in He.
  unfold PayloadPlace_case_Descent. unfold pp_state in *.
  run_payload_place; read_fields_goal; rewrite ?Hs;
    try (left; reflexivity); try (right; reflexivity);
    exfalso; revert He;
    repeat match goal with
           | E : ?b = _ |- _ => rewrite E
           end;
    cbn [negb andb]; discriminate.
Qed.

Lemma PayloadPlace_release_needs_evidence_witness :
  let s := set_payload_place
      {| PayloadPlace.state := PayloadPlace.Descent;
         PayloadPlace.descent_established_time_ms := 50000;
         PayloadPlace.place_start_time_ms := 59600;
         PayloadPlace.descent_thrust_level := 1 # 2;
         PayloadPlace.descent_start_altitude_cm := 1000;
         PayloadPlace.descent_speed_cms := 50;
         PayloadPlace.descent_max_cm := 0 |}
      (Fixture.mode NAV_PAYLOAD_PLACE PayloadPlace.Descent) in
  let env := More.with_payload
      {| gripper_valid := true; gripper_released := false;
         rangefinder_enabled := false; rangefinder_alt_ok := false;
         rangefinder_glitch_count := 0; rangefinder_alt_cm := 0;
         get_throttle_in := 1 # 10 |} Fixture.flying in
  PayloadPlace_thrust_says_placed env s = false
  /\ pp_state (after (PayloadPlace_run env s)) = PayloadPlace.Descent.
Proof.
  cbv zeta. split; [reflexivity|].
  destruct (PayloadPlace_release_needs_evidence
              (More.with_payload
                 {| gripper_valid := true; gripper_released := false;
                    rangefinder_enabled := false; rangefinder_alt_ok := false;
                    rangefinder_glitch_count := 0; rangefinder_alt_cm := 0;
                    get_throttle_in := 1 # 10 |} Fixture.flying)
              (set_payload_place
                 {| PayloadPlace.state := PayloadPlace.Descent;
                    PayloadPlace.descent_established_time_ms := 50000;
                    PayloadPlace.place_start_time_ms := 59600;
                    PayloadPlace.descent_thrust_level := 1 # 2;
                    PayloadPlace.descent_start_altitude_cm := 1000;
                    PayloadPlace.descent_speed_cms := 50;
                    PayloadPlace.descent_max_cm := 0 |}
                 (Fixture.mode NAV_PAYLOAD_PLACE PayloadPlace.Descent))
              eq_refl eq_refl eq_refl eq_refl eq_refl) as [H|H].
  - exact H.
  - discriminate H.
Defined.

(** X12: a descent is given up for two reasons only.  Under the conditions
    of X11, one call of [PayloadPlace::run] aborts to Ascent_Start, with a
    warning, only if the descent has exceeded the command's maximum or a
    rangefinder maximum is configured while the rangefinder is not
    enabled; exceeding the maximum always aborts, whatever the thrust says,
    and a maximum of 0 never does. *)
Theorem PayloadPlace_abort_causes (env : Env) (s : ModeAuto) :
  pp_state s = PayloadPlace.Descent ->
  is_disarmed_or_landed (copter env) = false ->
  land_complete (copter env) || land_complete_maybe (copter env) = false ->
  gripper_valid (payload env) && gripper_released (payload env) = false ->
  let r := PayloadPlace_run env s in
  (if PayloadPlace_descent_given_up env s then True
   else pp_state (after r) <> PayloadPlace.Ascent_Start
        /\ filter is_warning (calls r) = [])
  /\ (if PayloadPlace_max_descent_exceeded env s
      then pp_state (after r) = PayloadPlace.Ascent_Start
           /\ filter is_warning (calls r)
              = [gcs_send_text MAV_SEVERITY_WARNING "%s Reached maximum descent" []]
      else True)
  /\ (if is_zero (PayloadPlace.descent_max_cm (payload_place s))
      then PayloadPlace_max_descent_exceeded env s = false else True).
Proof.
  intros Hs Hf Hl Hg. cbv zeta.
  destruct (PayloadPlace_run_Descent env s Hs Hf Hl Hg) as [Ha Hc]. rewrite Ha, Hc.
  clear Ha Hc.
  split; [|split].
  - destruct (PayloadPlace_descent_given_up env s) eqn:G; [exact I|].
    unfold PayloadPlace_descent_given_up, PayloadPlace_max_descent_exceeded in G.
    cbv zeta in G.
    unfold PayloadPlace_case_Descent. unfold pp_state in *.
    run_payload_place; read_fields_goal; rewrite ?Hs;
      try (split; [discriminate|reflexivity]);
      exfalso; revert G;
      repeat match goal with
             | E : ?b = _ |- _ => rewrite E
             end;
      cbn [negb andb orb]; discriminate.
  - unfold PayloadPlace_max_descent_exceeded. cbv zeta.
    unfold PayloadPlace_case_Descent.
    cbv beta iota zeta delta [bind get fst snd].
    destruct (negb (is_zero (PayloadPlace.descent_max_cm (payload_place s)))
              && fgtb (PayloadPlace.descent_start_altitude_cm (payload_place s)
                       - get_pos_desired_U_cm (pos_control env))
                      (PayloadPlace.descent_max_cm (payload_place s))); [|exact I].
    split; reflexivity.
  - unfold PayloadPlace_max_descent_exceeded. cbv zeta.
    destruct (is_zero (PayloadPlace.descent_max_cm (payload_place s))); [|exact I].
    reflexivity.
Qed.

Lemma PayloadPlace_abort_causes_witness :
  let s := set_payload_place
      {| PayloadPlace.state := PayloadPlace.Descent;
         PayloadPlace.descent_established_time_ms := 0;
         PayloadPlace.place_start_time_ms := 0;
         PayloadPlace.descent_thrust_level := 1;
         PayloadPlace.descent_start_altitude_cm := 1100;
         PayloadPlace.descent_speed_cms := 50;
         PayloadPlace.descent_max_cm := 50 |}
      (Fixture.mode NAV_PAYLOAD_PLACE PayloadPlace.Descent) in
  PayloadPlace_max_descent_exceeded Fixture.flying s = true
  /\ pp_state (after (PayloadPlace_run Fixture.flying s)) = PayloadPlace.Ascent_Start.
Proof.
  cbv zeta. split; [reflexivity|].
  pose proof (PayloadPlace_abort_causes Fixture.flying
                (set_payload_place
                   {| PayloadPlace.state := PayloadPlace.Descent;
                      PayloadPlace.descent_established_time_ms := 0;
                      PayloadPlace.place_start_time_ms := 0;
                      PayloadPlace.descent_thrust_level := 1;
                      PayloadPlace.descent_start_altitude_cm := 1100;
                      PayloadPlace.descent_speed_cms := 50;
                      PayloadPlace.descent_max_cm := 50 |}
                   (Fixture.mode NAV_PAYLOAD_PLACE PayloadPlace.Descent))
                eq_refl eq_refl eq_refl eq_refl) as H.
  cbv zeta in H. destruct H as (_ & H & _).
  exact (proj1 H).
Defined.

Lemma PayloadPlace_run_Done (env : Env) (s : ModeAuto) :
  pp_state s = PayloadPlace.Done ->
  after (PayloadPlace_run env s) = s
  /\ filter is_input_pos_vel_accel_U_cm (calls (PayloadPlace_run env s))
     = (if is_disarmed_or_landed (copter env) then []
        else [pos_control_input_pos_vel_accel_U_cm
                (PayloadPlace.descent_start_altitude_cm (payload_place s))]).
Proof.
  intros Hs.
  unfold PayloadPlace_run, PayloadPlace_landed_block, PayloadPlace_gripper_block,
    PayloadPlace_state_switch, PayloadPlace_output.
  destruct (is_disarmed_or_landed (copter env)); [split; reflexivity|].
  destruct (land_complete (copter env) || land_complete_maybe (copter env)),
    (gripper_valid (payload env) && gripper_released (payload env));
    cbn [when];
    repeat (progress (rewrite ?Hs;
                      cbv beta iota zeta delta [bind call ret get fst snd after calls]));
    split; reflexivity.
Qed.

(** X13: Done is final.  Once the payload-place state machine is Done, any
    number of further calls of the mode's run function in the
    NAV_PAYLOAD_PLACE submode leave every variable of the mode as it is,
    so [PayloadPlace::verify] keeps answering true; each call made while
    the vehicle flies commands the altitude at which the descent started. *)
Theorem PayloadPlace_Done_is_final (envs : list Env) (env : Env) (s : ModeAuto) :
  _mode s = NAV_PAYLOAD_PLACE ->
  pp_state s = PayloadPlace.Done ->
  run_ticks envs s = s
  /\ PayloadPlace_verify (run_ticks envs s) = true
  /\ filter is_input_pos_vel_accel_U_cm (calls (run_submode env (run_ticks envs s)))
     = (if is_disarmed_or_landed (copter env) then []
        else [pos_control_input_pos_vel_accel_U_cm
                (PayloadPlace.descent_start_altitude_cm (payload_place s))]).
Proof.
  intros Hm Hs.
  assert (R : forall e, run_submode e s = PayloadPlace_run e s).
  { intros e. unfold run_submode. cbv beta iota delta [bind get fst snd].
    rewrite Hm. destruct (PayloadPlace_run e s) as [[u s1] l1]. reflexivity. }
  assert (T : run_ticks envs s = s).
  { induction envs as [|e rest IH]; [reflexivity|].
    cbn [run_ticks]. rewrite R.
    destruct (PayloadPlace_run_Done e s Hs) as [Ha _]. rewrite Ha. exact IH. }
  rewrite T. split; [reflexivity|]. split.
  - unfold PayloadPlace_verify. rewrite Hs. reflexivity.
  - rewrite R. apply PayloadPlace_run_Done, Hs.
Qed.

Lemma PayloadPlace_Done_is_final_witness :
  let s := Fixture.mode NAV_PAYLOAD_PLACE PayloadPlace.Done in
  let envs := [Fixture.flying; Fixture.on_ground; More.arrived Fixture.flying] in
  run_ticks envs s = s /\ PayloadPlace_verify (run_ticks envs s) = true.
Proof.
  cbv zeta.
  destruct (PayloadPlace_Done_is_final
              [Fixture.flying; Fixture.on_ground; More.arrived Fixture.flying]
              Fixture.flying
              (Fixture.mode NAV_PAYLOAD_PLACE PayloadPlace.Done) eq_refl eq_refl)
    as (H1 & H2 & _).
  split; [exact H1 | exact H2].
Defined.

Lemma MINf_le_l (a b : Q) : (MINf a b <= a)%Q.
Proof.
  unfold MINf, fltb. destruct (Qle_bool b a) eqn:E; cbn [negb].
  - apply Qle_bool_iff, E.
  - apply Qle_refl.
Qed.

Lemma PayloadPlace_case_Descent_thrust_level (env : Env) (s : ModeAuto) :
  let calibrating :=
    negb (PayloadPlace_max_descent_exceeded env s)
    && negb (fgtb (get_vel_desired_U_cms (pos_control env))
                  (- (95 # 100) * PayloadPlace.descent_speed_cms (payload_place s))%Q)
    && (sub_uint32 (millis (copter env))
                   (PayloadPlace.descent_established_time_ms (payload_place s))
        <? descent_thrust_cal_duration_ms) in
  PayloadPlace_thrust_level (after (PayloadPlace_case_Descent env s))
  = if calibrating
    then MINf (PayloadPlace_thrust_level s) (get_throttle_in (payload env))
    else PayloadPlace_thrust_level s.
Proof.
  cbv zeta.
  unfold PayloadPlace_case_Descent, PayloadPlace_max_descent_exceeded,
    PayloadPlace_thrust_level.
  cbv beta iota zeta delta [bind get fst snd].
  destruct (negb (is_zero (PayloadPlace.descent_max_cm (payload_place s)))
            && fgtb (PayloadPlace.descent_start_altitude_cm (payload_place s)
                     - get_pos_desired_U_cm (pos_control env))
                    (PayloadPlace.descent_max_cm (payload_place s)));
    cbn [negb andb]; [reflexivity|].
  destruct (fgtb (get_vel_desired_U_cms (pos_control env))
                 (- (95 # 100) * PayloadPlace.descent_speed_cms (payload_place s)));
    cbn [negb andb]; [reflexivity|].
  destruct (sub_uint32 (millis (copter env))
                       (PayloadPlace.descent_established_time_ms (payload_place s))
            <? descent_thrust_cal_duration_ms); [reflexivity|].
  run_payload_place; reflexivity.
Qed.

(** X14: the thrust level calibrated for the descent only ever goes down.
    One call of [PayloadPlace::run] from any state but Descent_Start, which
    starts a new calibration at 1, leaves the level at or below its
    previous value, and leaves it unchanged outside the Descent phase. *)
Theorem PayloadPlace_thrust_level_never_rises (env : Env) (s : ModeAuto) :
  pp_state s <> PayloadPlace.Descent_Start ->
  (PayloadPlace_thrust_level (after (PayloadPlace_run env s))
   <= PayloadPlace_thrust_level s)%Q
  /\ (if PayloadPlace.eqb (pp_state s) PayloadPlace.Descent then True
      else PayloadPlace_thrust_level (after (PayloadPlace_run env s))
           = PayloadPlace_thrust_level s).
Proof.
  intros Hs.
  assert (K1 : keeps PayloadPlace_thrust_level (PayloadPlace_landed_block env)).
  { unfold PayloadPlace_landed_block, set_pp. keeps_by_structure. }
  assert (K2 : keeps PayloadPlace_thrust_level (PayloadPlace_gripper_block env)).
  { unfold PayloadPlace_gripper_block, set_pp. keeps_by_structure. }
  assert (K4 : keeps PayloadPlace_thrust_level (PayloadPlace_output env)).
  { unfold PayloadPlace_output, wp_run. keeps_by_structure. }
  unfold PayloadPlace_run.
  destruct (is_disarmed_or_landed (copter env)).
  { cbn [call after fst snd]. split; [apply Qle_refl|].
    destruct (PayloadPlace.eqb (pp_state s) PayloadPlace.Descent); [exact I|reflexivity]. }
  rewrite !after_bind. cbn [call result after fst snd].
  rewrite K4.
  set (s1 := after (PayloadPlace_landed_block env s)).
  set (s2 := after (PayloadPlace_gripper_block env s1)).
  assert (L : PayloadPlace_thrust_level s2 = PayloadPlace_thrust_level s)
    by (subst s2 s1; rewrite K2, K1; reflexivity).
  pose proof (PayloadPlace_gripper_block_state env s1) as H2.
  pose proof (PayloadPlace_landed_block_state env s) as H1.
  fold s1 in H1. fold s2 in H2. rewrite H1 in H2. clear H1.
  rewrite <- L.
  assert (S : (pp_state s2 = PayloadPlace.Descent -> pp_state s = PayloadPlace.Descent)
              /\ pp_state s2 <> PayloadPlace.Descent_Start).
  { rewrite H2.
    destruct (land_complete (copter env) || land_complete_maybe (copter env)),
      (gripper_valid (payload env) && gripper_released (payload env)),
      (pp_state s); split; congruence. }
  destruct S as [S1 S2]. clear H2.
  unfold PayloadPlace_state_switch. rewrite after_bind. cbn [get result after fst snd].
  destruct (pp_state s2) eqn:E2.
  2: contradiction.
  2: { rewrite (S1 eq_refl). cbn [PayloadPlace.eqb].
       rewrite PayloadPlace_case_Descent_thrust_level.
       split; [|exact I].
       match goal with
       | |- context [if ?b then _ else _] => destruct b
       end; [apply MINf_le_l | apply Qle_refl]. }
  all: match goal with
       | |- context [after (?m ?x)] =>
           assert (K3 : keeps PayloadPlace_thrust_level m)
             by (unfold PayloadPlace_start_descent, PayloadPlace_case_Release,
                   PayloadPlace_case_Releasing, PayloadPlace_case_Delay,
                   PayloadPlace_case_Ascent_Start, PayloadPlace_case_Ascent, set_pp;
                 keeps_by_structure);
           rewrite K3
       end;
    (split; [apply Qle_refl|]);
    destruct (PayloadPlace.eqb (pp_state s) PayloadPlace.Descent);
    [exact I|reflexivity].
Qed.

Lemma PayloadPlace_thrust_level_never_rises_witness :
  let s := set_payload_place
      {| PayloadPlace.state := PayloadPlace.Descent;
         PayloadPlace.descent_established_time_ms := 59000;
         PayloadPlace.place_start_time_ms := 59000;
         PayloadPlace.descent_thrust_level := 1;
         PayloadPlace.descent_start_altitude_cm := 1000;
         PayloadPlace.descent_speed_cms := -50;
         PayloadPlace.descent_max_cm := 0 |}
      (Fixture.mode NAV_PAYLOAD_PLACE PayloadPlace.Descent) in
  pp_state s <> PayloadPlace.Descent_Start
  /\ (PayloadPlace_thrust_level (after (PayloadPlace_run Fixture.flying s)) <= 1)%Q.
Proof.
  cbv zeta. split; [discriminate|].
  exact (proj1 (PayloadPlace_thrust_level_never_rises Fixture.flying
                  (set_payload_place
                     {| PayloadPlace.state := PayloadPlace.Descent;
                        PayloadPlace.descent_established_time_ms := 59000;
                        PayloadPlace.place_start_time_ms := 59000;
                        PayloadPlace.descent_thrust_level := 1;
                        PayloadPlace.descent_start_altitude_cm := 1000;
                        PayloadPlace.descent_speed_cms := -50;
                        PayloadPlace.descent_max_cm := 0 |}
                     (Fixture.mode NAV_PAYLOAD_PLACE PayloadPlace.Descent))
                  ltac:(discriminate))).
Defined.

(** ** Conditions (X15, X16) *)

Lemma MAXi_0_wrap (z : Z) : z < 2 ^ 32 -> wrap_uint32 (MAXi z 0) = Z.max z 0.
Proof.
  intros H. rewrite MAXi_max. unfold wrap_uint32.
  apply Z.mod_small. change (2 ^ 32) with 4294967296 in *. lia.
Qed.

(** X15: a condition delay started by [do_wait_delay] stores the product
    of the seconds and 1000, rounded to single precision and then cut to a
    whole number of milliseconds.  Provided that product is finite and
    fits an [int32_t] (the conversion is undefined otherwise), the delay
    is over at the first poll at which strictly more milliseconds than
    that have elapsed on the wrapping 32-bit clock; a delay of zero or
    less is over once 1 ms has elapsed, not at the millisecond it started.
    The poll that finds the delay over resets the stored value to 0;
    other polls change nothing. *)
Theorem wait_delay_elapses (env0 env1 : Env) (seconds : float32) (s : ModeAuto) :
  let product := float32_mul seconds (float32_of_int 1000) in
  float32_is_finite product = true ->
  - 2 ^ 31 <= float32_to_int product < 2 ^ 31 ->
  let started := after (do_wait_delay env0 seconds s) in
  let r := verify_wait_delay env1 started in
  let elapsed := sub_uint32 (millis (copter env1)) (millis (copter env0)) in
  condition_value started = float32_to_int product
  /\ result r = (elapsed >? Z.max (float32_to_int product) 0)
  /\ after r = (if result r then set_condition_value 0 started else started)
  /\ calls r = [].
Proof.
  cbv zeta. intros _ H.
  unfold do_wait_delay, verify_wait_delay.
  cbv beta iota zeta delta [bind get modify after fst snd].
  cbn [condition_start condition_value set_condition_start set_condition_value].
  rewrite MAXi_0_wrap by (change (2 ^ 31) with 2147483648 in H;
                          change (2 ^ 32) with 4294967296; lia).
  destruct (sub_uint32 (millis (copter env1)) (millis (copter env0))
            >? Z.max (float32_to_int (float32_mul seconds (float32_of_int 1000))) 0);
    repeat split; reflexivity.
Qed.

(** A delay of 4.1 s, as the [float] nearest to 4.1, is stored as 4100 ms:
    it is not over 4100 ms after its start and is over 1 ms later. *)
Lemma wait_delay_elapses_witness :
  let seconds := float32_div (float32_of_int 41) (float32_of_int 10) in
  let product := float32_mul seconds (float32_of_int 1000) in
  let s := Fixture.mode WP PayloadPlace.Done in
  let started := after (do_wait_delay (More.at_time 60000 Fixture.flying) seconds s) in
  seconds = SpecFloat.S754_finite false 8598323 (-21)
  /\ float32_is_finite product = true
  /\ - 2 ^ 31 <= float32_to_int product < 2 ^ 31
  /\ condition_value started = 4100
  /\ result (verify_wait_delay (More.at_time 64100 Fixture.flying) started) = false
  /\ result (verify_wait_delay (More.at_time 64101 Fixture.flying) started) = true.
Proof.
  cbv zeta.
  assert (F : float32_is_finite
                (float32_mul (float32_div (float32_of_int 41) (float32_of_int 10))
                             (float32_of_int 1000)) = true) by reflexivity.
  assert (B : - 2 ^ 31
              <= float32_to_int
                   (float32_mul (float32_div (float32_of_int 41) (float32_of_int 10))
                                (float32_of_int 1000)) < 2 ^ 31)
    by (split; [vm_compute; discriminate | vm_compute; reflexivity]).
  split; [reflexivity|]. split; [exact F|]. split; [exact B|].
  pose proof (wait_delay_elapses (More.at_time 60000 Fixture.flying)
              (More.at_time 64100 Fixture.flying)
              (float32_div (float32_of_int 41) (float32_of_int 10))
              (Fixture.mode WP PayloadPlace.Done) F B) as H.
  cbv zeta in H. destruct H as (Hv & Hr & _).
  split; [rewrite Hv; vm_compute; reflexivity|].
  split; [rewrite Hr; vm_compute; reflexivity|].
  vm_compute; reflexivity.
Defined.




(** ** Land and payload-place commands (X17, X18, X19) *)

Lemma target_at_current_alt_run (env : Env) (rd : Reads) (cmd : Mission_Command)
    (report : string) (s : ModeAuto) :
  target_at_current_alt env rd cmd report s
  = (target_of env rd cmd, s,
     match shift_alt_to_current_alt env rd (location cmd) with
     | Some _ => []
     | None => [LOGGER_WRITE_ERROR_MISSING_TERRAIN_DATA;
                gcs_send_text MAV_SEVERITY_CRITICAL report []]
     end).
Proof.
  unfold target_at_current_alt, target_of.
  destruct (shift_alt_to_current_alt env rd (location cmd)); reflexivity.
Qed.

Lemma shift_alt_to_current_alt_position (env : Env) (rd : Reads)
    (target_loc l : Location) :
  shift_alt_to_current_alt env rd target_loc = Some l ->
  lat l = lat target_loc /\ lng l = lng target_loc.
Proof.
  unfold shift_alt_to_current_alt.
  destruct (AltFrame_eqb (get_alt_frame target_loc) ABOVE_TERRAIN
            && terrain_source_is_TERRAIN_FROM_RANGEFINDER rd).
  - destruct (get_rangefinder_height_interpolated_cm rd); [|discriminate].
    intros H. inversion H. split; reflexivity.
  - destruct (change_alt_frame rd (current_loc (copter env)) (get_alt_frame target_loc));
      [|discriminate].
    intros H. inversion H. split; reflexivity.
Qed.

Lemma target_of_position (env : Env) (rd : Reads) (cmd : Mission_Command) :
  lat (target_of env rd cmd) = lat (location cmd)
  /\ lng (target_of env rd cmd) = lng (location cmd).
Proof.
  unfold target_of.
  destruct (shift_alt_to_current_alt env rd (location cmd)) eqn:E.
  - apply (shift_alt_to_current_alt_position env rd _ _ E).
  - split; reflexivity.
Qed.

Lemma wp_start_terrain_event (env : Env) (l : Location) (s : ModeAuto) :
  filter is_failsafe_terrain_on_event (calls (wp_start env l s)) = [].
Proof.
  rewrite wp_start_run.
  destruct (set_wp_destination_loc (wp_nav env) l); cbn [calls snd];
    rewrite ?filter_app, wp_start_init_calls_no_terrain_event; [|reflexivity].
  destruct (negb (SubMode_eqb WP (_mode s)) && SubMode_eqb (_mode s) NAV_ATTITUDE_TIME);
    reflexivity.
Qed.

(** X17: a land command with a location first flies there: [do_land] sets
    the phase FlyToLocation and offers the waypoint controller the
    command's latitude and longitude at the current altitude; if the
    controller refuses, the terrain failsafe event is raised once and
    nothing but the phase has changed, otherwise the submode is WP.  A
    command without a location starts the land controller at once: phase
    Descending, submode LAND, yaw held, and from then on [verify_land]
    answers from the landing detector alone, changing nothing. *)
Theorem do_land_phases (env : Env) (rd : Reads) (cmd : Mission_Command)
    (s : ModeAuto) :
  let r := do_land env rd cmd s in
  if location_provided cmd then
    state (after r) = FlyToLocation
    /\ lat (target_of env rd cmd) = lat (location cmd)
    /\ lng (target_of env rd cmd) = lng (location cmd)
    /\ (if set_wp_destination_loc (wp_nav env) (target_of env rd cmd)
        then _mode (after r) = WP
             /\ filter is_failsafe_terrain_on_event (calls r) = []
        else after r = set_state FlyToLocation s
             /\ filter is_failsafe_terrain_on_event (calls r)
                = [failsafe_terrain_on_event])
  else
    after r = set_mode LAND (set_auto_yaw AutoYaw.HOLD (set_state Descending s))
    /\ filter is_failsafe_terrain_on_event (calls r) = []
    /\ (forall env' : Env,
          verify_land env' (after r)
          = (land_complete (copter env') && spool_state_is_GROUND_IDLE (copter env')
             && (continue_after_land_check_for_takeoff (copter env')
                 || negb (motors_armed (copter env'))),
             after r,
             if land_complete (copter env') && spool_state_is_GROUND_IDLE (copter env')
                && negb (continue_after_land_check_for_takeoff (copter env'))
                && motors_armed (copter env')
             then [arming_disarm_LANDED] else [])).
Proof.
  cbv zeta. unfold do_land.
  destruct (location_provided cmd).
  - rewrite run_bind. cbn [modify result after calls fst snd].
    rewrite run_bind, target_at_current_alt_run. cbn [result after calls fst snd].
    rewrite run_bind.
    pose proof (wp_start_terrain_event env (target_of env rd cmd)
                  (set_state FlyToLocation s)) as T.
    rewrite wp_start_run in *.
    destruct (target_of_position env rd cmd) as [Hlat Hlng].
    destruct (set_wp_destination_loc (wp_nav env) (target_of env rd cmd));
      cbn [result after calls fst snd negb when call ret app
           state _mode set_mode set_auto_yaw set_state] in *;
      (split; [reflexivity|]); (split; [exact Hlat|]); (split; [exact Hlng|]);
      (split; [reflexivity|]);
      rewrite !filter_app, ?wp_start_init_calls_no_terrain_event;
      destruct (shift_alt_to_current_alt env rd (location cmd));
      repeat match goal with
             | |- context [if ?b then _ else _] => destruct b
             end; reflexivity.
  - rewrite run_bind. cbn [modify result after calls fst snd].
    destruct (land_start_run env (set_state Descending s)) as (Ha & _ & Hc).
    assert (Hs : after (land_start env (set_state Descending s))
                 = set_mode LAND (set_auto_yaw AutoYaw.HOLD (set_state Descending s)))
      by exact Ha.
    split; [exact Hs|]. split.
    + unfold land_start.
      destruct (is_active_NE (pos_control env)), (is_active_U (pos_control env));
        cbn [negb when];
        cbv beta iota zeta delta [bind modify get ret call fst snd];
        rewrite set_submode_run;
        cbv beta iota zeta delta [calls fst snd]; cbn [app];
        match goal with
        | |- context [if ?b then _ else _] => destruct b
        end; reflexivity.
    + intros env'. rewrite Hs. unfold verify_land.
      cbv beta iota delta [bind get fst snd].
      cbn [state set_mode set_auto_yaw set_state].
      destruct (land_complete (copter env')), (spool_state_is_GROUND_IDLE (copter env')),
        (continue_after_land_check_for_takeoff (copter env')),
        (motors_armed (copter env')); reflexivity.
Qed.


(** X19: [do_payload_place] always restarts the state machine: whatever
    state the previous placing ended in, the state afterwards is
    FlyToLocation (command with a location) or Descent_Start (without), so
    [PayloadPlace::verify] answers false.  The maximum descent is taken
    from p1 and the submode becomes NAV_PAYLOAD_PLACE, whose controller the
    next run calls, unless the waypoint controller refused the location:
    then the terrain failsafe event is raised once, and the submode and
    the maximum descent are left as they were. *)
Theorem do_payload_place_restarts (env : Env) (rd : Reads) (cmd : Mission_Command)
    (s : ModeAuto) :
  let r := do_payload_place env rd cmd s in
  let refused :=
    location_provided cmd
    && negb (set_wp_destination_loc (wp_nav env) (target_of env rd cmd)) in
  pp_state (after r)
  = (if location_provided cmd then PayloadPlace.FlyToLocation
     else PayloadPlace.Descent_Start)
  /\ PayloadPlace_verify (after r) = false
  /\ (if refused then
        after r = set_payload_place
                    (pp_set_state PayloadPlace.FlyToLocation (payload_place s)) s
        /\ filter is_failsafe_terrain_on_event (calls r) = [failsafe_terrain_on_event]
      else
        _mode (after r) = NAV_PAYLOAD_PLACE
        /\ PayloadPlace.descent_max_cm (payload_place (after r)) = inject_Z (p1 cmd)
        /\ filter is_failsafe_terrain_on_event (calls r) = []
        /\ (forall env' : Env,
              run_submode env' (after r) = PayloadPlace_run env' (after r))).
Proof.
  cbv zeta.
  assert (D : forall s', _mode s' = NAV_PAYLOAD_PLACE ->
                forall env', run_submode env' s' = PayloadPlace_run env' s').
  { intros s' Hm env'. unfold run_submode. cbv beta iota delta [bind get fst snd].
    rewrite Hm. destruct (PayloadPlace_run env' s') as [[u s1] l1]. reflexivity. }
  unfold do_payload_place, PayloadPlace_verify.
  destruct (location_provided cmd); cbn [andb].
  - rewrite run_bind. cbn [set_pp modify result after calls fst snd].
    rewrite run_bind, target_at_current_alt_run. cbn [result after calls fst snd].
    rewrite run_bind.
    match goal with
    | |- context [wp_start env ?l ?s0] =>
        pose proof (wp_start_terrain_event env l s0) as T
    end.
    rewrite wp_start_run in *.
    destruct (set_wp_destination_loc (wp_nav env) (target_of env rd cmd));
      cbn [result after calls fst snd negb call] in *.
    + rewrite run_bind. cbn [set_pp modify result after calls fst snd].
      rewrite set_submode_run. cbn [result after calls fst snd].
      unfold pp_state.
      cbn [payload_place _mode set_mode set_auto_yaw set_payload_place
           PayloadPlace.state PayloadPlace.descent_max_cm pp_set_state
           pp_set_descent_max_cm].
      split; [reflexivity|]. split; [reflexivity|]. split; [reflexivity|].
      split; [reflexivity|]. split.
      * rewrite !filter_app, ?wp_start_init_calls_no_terrain_event. cbn [app filter].
        destruct (shift_alt_to_current_alt env rd (location cmd));
          match goal with
          | |- context [if ?b then _ else _] => destruct b
          end; reflexivity.
      * apply D. reflexivity.
    + unfold pp_state. cbn [payload_place set_payload_place PayloadPlace.state pp_set_state].
      split; [reflexivity|]. split; [reflexivity|]. split; [reflexivity|].
      rewrite !filter_app, ?wp_start_init_calls_no_terrain_event.
      destruct (shift_alt_to_current_alt env rd (location cmd)); reflexivity.
  - rewrite run_bind.
    assert (S : exists l,
               PayloadPlace_start_descent env s
               = (tt, set_payload_place
                        (pp_set_state PayloadPlace.Descent_Start (payload_place s))
                        (set_auto_yaw AutoYaw.HOLD s), l)
               /\ filter is_failsafe_terrain_on_event l = []).
    { unfold PayloadPlace_start_descent.
      destruct (is_active_NE (pos_control env)), (is_active_U (pos_control env));
        cbn [negb when];
        cbv beta iota zeta delta [bind modify get ret call set_pp fst snd];
        cbn [payload_place set_auto_yaw app];
        eexists; split; reflexivity. }
    destruct S as (l & S & Hl). rewrite S. cbn [result after calls fst snd].
    rewrite run_bind. cbn [set_pp modify result after calls fst snd].
    rewrite set_submode_run. cbn [result after calls fst snd].
    unfold pp_state.
    cbn [payload_place _mode set_mode set_auto_yaw set_payload_place
         PayloadPlace.state PayloadPlace.descent_max_cm pp_set_state
         pp_set_descent_max_cm].
    split; [reflexivity|]. split; [reflexivity|]. split; [reflexivity|].
    split; [reflexivity|]. split.
    + rewrite !filter_app, Hl. cbn [app filter].
      match goal with
      | |- context [if ?b then _ else _] => destruct b
      end; reflexivity.
    + apply D. reflexivity.
Qed.

(** ** Waypoint commands (X20, X21) *)

(** A command with a dwell never stages the next destination. *)
Lemma set_next_wp_dwell (env : Env) (rd : Reads) (cmd : Mission_Command)
    (default_loc : Location) :
  (p1 cmd >? 0) = true -> set_next_wp env rd cmd default_loc = true.
Proof. intros H. unfold set_next_wp. rewrite H. reflexivity. Qed.

(** X20: [do_nav_wp] raises the terrain failsafe event at most once: when
    the waypoint controller refuses the target, and then the state of the
    mode is left as it was, or when it refuses the next destination.  Once
    the target is accepted the submode is WP, the dwell timer is cleared
    and the dwell is p1 seconds, also when the next destination is
    refused.  A command with a dwell (p1 > 0) never stages the next
    destination, so it cannot fail for it. *)
Theorem do_nav_wp_stages (env : Env) (rd : Reads) (cmd : Mission_Command)
    (s : ModeAuto) :
  let r := do_nav_wp env rd cmd s in
  let target_loc := loc_from_cmd env cmd (result (default_loc_for_cmd env s)) in
  (if set_wp_destination_loc (wp_nav env) target_loc then
     _mode (after r) = WP
     /\ loiter_time (after r) = 0
     /\ loiter_time_max (after r) = p1 cmd
     /\ filter is_failsafe_terrain_on_event (calls r)
        = (if set_next_wp env rd cmd target_loc then []
           else [failsafe_terrain_on_event])
   else
     after r = s
     /\ filter is_failsafe_terrain_on_event (calls r) = [failsafe_terrain_on_event])
  /\ (if p1 cmd >? 0 then set_next_wp env rd cmd target_loc = true else True).
Proof.
  cbv zeta. split.
  - unfold do_nav_wp.
    rewrite run_bind. destruct (default_loc_for_cmd_state env s) as [Hs Hc].
    rewrite Hs. rewrite run_bind, wp_start_run.
    set (d := result (default_loc_for_cmd env s)).
    destruct (set_wp_destination_loc (wp_nav env) (loc_from_cmd env cmd d));
      cbn [result after calls fst snd negb].
    + rewrite !run_bind. cbn [modify result after calls fst snd].
      destruct (set_next_wp env rd cmd (loc_from_cmd env cmd d));
        cbn [negb when call ret result after calls fst snd];
        cbn [_mode loiter_time loiter_time_max set_loiter_time set_loiter_time_max
             set_mode set_auto_yaw];
        (split; [reflexivity|]); (split; [reflexivity|]); (split; [reflexivity|]);
        rewrite !filter_app, Hc, wp_start_init_calls_no_terrain_event;
        cbn [app filter];
        destruct (negb (SubMode_eqb WP (_mode s)) && SubMode_eqb (_mode s) NAV_ATTITUDE_TIME);
        reflexivity.
    + cbn [call result after calls fst snd].
      split; [reflexivity|].
      rewrite !filter_app, Hc, wp_start_init_calls_no_terrain_event. reflexivity.
  - destruct (p1 cmd >? 0) eqn:E; [|exact I].
    apply set_next_wp_dwell, E.
Qed.

(** X21: [do_spline_wp] enters the WP submode only when the spline
    controller has accepted both the destination and the next
    destination.  A refused destination leaves the state of the mode as it
    was; a refused next destination leaves submode and yaw mode as they
    were although the dwell timer has been reset.  Either refusal raises
    the terrain failsafe event, once. *)
Theorem do_spline_wp_stages (env : Env) (rd : Reads) (cmd : Mission_Command)
    (s : ModeAuto) :
  let r := do_spline_wp env rd cmd s in
  let default_loc := result (default_loc_for_cmd env s) in
  let dest_loc := loc_from_cmd env cmd default_loc in
  let spline := get_spline_from_cmd env rd cmd default_loc in
  fst (fst spline) = dest_loc
  /\ (if set_spline_destination_loc rd dest_loc (snd (fst spline)) (snd spline) then
        if set_next_wp env rd cmd dest_loc then
          after r = set_mode WP
                      (set_auto_yaw (wp_start_yaw env (auto_yaw s))
                         (set_loiter_time_max (p1 cmd) (set_loiter_time 0 s)))
          /\ filter is_failsafe_terrain_on_event (calls r) = []
        else
          after r = set_loiter_time_max (p1 cmd) (set_loiter_time 0 s)
          /\ filter is_failsafe_terrain_on_event (calls r) = [failsafe_terrain_on_event]
      else
        after r = s
        /\ filter is_failsafe_terrain_on_event (calls r) = [failsafe_terrain_on_event]).
Proof.
  cbv zeta.
  assert (G : fst (fst (get_spline_from_cmd env rd cmd (result (default_loc_for_cmd env s))))
              = loc_from_cmd env cmd (result (default_loc_for_cmd env s))).
  { unfold get_spline_from_cmd.
    destruct (p1 cmd =? 0); [|reflexivity].
    destruct (get_next_nav_cmd rd (index cmd + 1)); reflexivity. }
  split; [exact G|].
  unfold do_spline_wp.
  rewrite run_bind. destruct (default_loc_for_cmd_state env s) as [Hs Hc].
  rewrite Hs.
  set (d := result (default_loc_for_cmd env s)) in *.
  destruct (get_spline_from_cmd env rd cmd d) as [[dest next] next_is_spline].
  cbn [fst snd] in G |- *. subst dest.
  destruct (set_spline_destination_loc rd (loc_from_cmd env cmd d) next next_is_spline);
    cbn [negb].
  - rewrite !run_bind. cbn [modify result after calls fst snd].
    destruct (set_next_wp env rd cmd (loc_from_cmd env cmd d)); cbn [negb].
    + rewrite run_bind. cbn [get result after calls fst snd].
      cbn [auto_yaw set_loiter_time set_loiter_time_max].
      unfold wp_start_yaw.
      destruct (negb (AutoYaw.is_ROI (auto_yaw s))
                && negb (AutoYaw.is_FIXED (auto_yaw s) && wp_yaw_behavior_is_NONE (g env)));
        rewrite run_bind; cbn [when modify ret result after calls fst snd];
        rewrite set_submode_run; cbn [result after calls fst snd];
        rewrite ?set_auto_yaw_same;
        (split; [reflexivity|]);
        rewrite !filter_app, Hc; cbn [filter app];
        match goal with
        | |- context [if ?b then _ else _] => destruct b
        end; reflexivity.
    + cbn [call result after calls fst snd]. split; [reflexivity|].
      rewrite !filter_app, Hc. reflexivity.
  - cbn [call result after calls fst snd]. split; [reflexivity|].
    rewrite !filter_app, Hc. reflexivity.
Qed.

(** ** Loiter to altitude: no completion before arrival (X22) *)

Lemma loiter_to_alt_run_before_arrival_struct (env : Env) (s : ModeAuto) :
  reached_destination_xy (loiter_to_alt s) = false ->
  reached_wp_destination_NE (wp_nav env) = false ->
  reached_destination_xy (loiter_to_alt (after (loiter_to_alt_run env s))) = false
  /\ _mode (after (loiter_to_alt_run env s)) = _mode s.
Proof.
  intros Hx Hr.
  assert (K : keeps _mode (loiter_to_alt_run env)).
  { unfold loiter_to_alt_run, wp_run, set_lta. keeps_by_structure. }
  split; [|apply K].
  pose proof (loiter_to_alt_run_struct env s) as H. cbv zeta in H.
  rewrite H. unfold loiter_to_alt_checks_altitude. rewrite Hx, Hr.
  cbn [orb]. rewrite andb_false_r. exact Hx.
Qed.

(** X22: a loiter-to-altitude command whose altitude could be resolved
    does not complete before the vehicle has arrived: from
    [do_loiter_to_alt] on, as long as no run of the mode finds the
    horizontal destination reached, the submode stays LOITER_TO_ALT and
    [verify_loiter_to_alt] answers false, whatever the altitude. *)
Theorem loiter_to_alt_waits_for_arrival (env : Env) (cmd : Mission_Command)
    (s : ModeAuto) (a : Z) (envs : list Env) :
  get_alt_cm (others env) (loiter_to_alt_target_loc env cmd) ABOVE_HOME = Some a ->
  never_arrives envs = true ->
  let later := run_ticks envs (after (do_loiter_to_alt env cmd s)) in
  _mode later = LOITER_TO_ALT
  /\ target_alt (loiter_to_alt later) = a
  /\ result (verify_loiter_to_alt later) = false.
Proof.
  intros Ha Hn. cbv zeta.
  set (s0 := after (do_loiter_to_alt env cmd s)).
  assert (H0 : _mode s0 = LOITER_TO_ALT
               /\ reached_destination_xy (loiter_to_alt s0) = false
               /\ target_alt (loiter_to_alt s0) = a).
  { subst s0. unfold do_loiter_to_alt. rewrite after_bind, Ha.
    set (s1 := after (do_loiter_unlimited env cmd s)).
    cbv beta iota zeta delta [bind modify call set_lta after fst snd].
    rewrite set_submode_run. cbn [fst snd]. split; [reflexivity|].
    split; reflexivity. }
  clearbody s0. revert s0 H0 Hn.
  induction envs as [|e rest IH]; intros s0 (Hm & Hx & Ht) Hn.
  - cbn [run_ticks]. split; [exact Hm|]. split; [exact Ht|].
    unfold verify_loiter_to_alt. cbv beta iota delta [bind get ret result fst snd].
    rewrite Hx. reflexivity.
  - cbn [run_ticks never_arrives forallb] in *.
    apply andb_prop in Hn. destruct Hn as [He Hn].
    apply negb_true_iff in He.
    apply IH; [|exact Hn].
    assert (R : run_submode e s0 = loiter_to_alt_run e s0).
    { unfold run_submode. cbv beta iota delta [bind get fst snd].
      rewrite Hm. destruct (loiter_to_alt_run e s0) as [[u s1] l1]. reflexivity. }
    rewrite R.
    destruct (loiter_to_alt_run_before_arrival_struct e s0 Hx He) as [Hx' Hm'].
    split; [rewrite Hm'; exact Hm|]. split; [exact Hx'|].
    assert (K : keeps (fun s => target_alt (loiter_to_alt s)) (loiter_to_alt_run e)).
    { pose proof (loiter_to_alt_run_struct e s0) as H. cbv zeta in H.
      intros s'. pose proof (loiter_to_alt_run_struct e s') as H'. cbv zeta in H'.
      rewrite H'. destruct (loiter_to_alt_checks_altitude e s'); reflexivity. }
    rewrite K. exact Ht.
Qed.

Lemma loiter_to_alt_waits_for_arrival_witness :
  let cmd := Fixture.cmd MAV_CMD_NAV_LOITER_TO_ALT (Fixture.loc 1 2 500 ABOVE_HOME) 0 in
  let s := Fixture.mode LOITER PayloadPlace.Done in
  let envs := [Fixture.flying; Fixture.flying] in
  never_arrives envs = true
  /\ result (verify_loiter_to_alt
               (run_ticks envs (after (do_loiter_to_alt Fixture.flying cmd s)))) = false.
Proof.
  cbv zeta. split; [reflexivity|].
  exact (proj2 (proj2 (loiter_to_alt_waits_for_arrival Fixture.flying
                         (Fixture.cmd MAV_CMD_NAV_LOITER_TO_ALT
                            (Fixture.loc 1 2 500 ABOVE_HOME) 0)
                         (Fixture.mode LOITER PayloadPlace.Done) 900
                         [Fixture.flying; Fixture.flying] eq_refl eq_refl))).
Defined.

(** ** The run of the mode (X23, X24) *)

Lemma run_bind2 {A B} (m : M2 A) (k : A -> M2 B) (s : ModeAuto) :
  bind2 m k s =
  (result2 (k (result2 (m s)) (after2 (m s))),
   after2 (k (result2 (m s)) (after2 (m s))),
   calls2 (m s) ++ calls2 (k (result2 (m s)) (after2 (m s)))).
Proof.
  unfold bind2, result2, after2, calls2.
  destruct (m s) as [[a s1] l1]. cbn [fst snd].
  destruct (k a s1) as [[b s2] l2]. reflexivity.
Qed.

Lemma lift_run {A} (m : M A) (s : ModeAuto) :
  lift m s = (result (m s), after (m s), map old (calls (m s))).
Proof. unfold lift. destruct (m s) as [[a s1] l1]. reflexivity. Qed.

(** [run] is: the mission, the controller of the submode, the check of
    Auto RTL. *)
Lemma run_parts (env : Env) (ms : Mission) (v : Vehicle) (s : ModeAuto) :
  run env ms v s =
  let r1 := run_mission ms v s in
  let r2 := run_submode env (after2 r1) in
  let leave := auto_RTL (after r2) && negb (auto_rtl_active ms) in
  (tt,
   (if leave then set_auto_RTL false (after r2) else after r2),
   calls2 r1 ++ map old (calls r2)
   ++ (if leave then [new (logger_Write_Mode AUTO_RTL_EXIT)] else [])).
Proof.
  cbv zeta. unfold run, auto_rtl_active.
  rewrite run_bind2.
  destruct (run_mission ms v s) as [[u s1] l1]. cbn [result2 after2 calls2 fst snd].
  rewrite run_bind2, lift_run. cbn [result2 after2 calls2 fst snd].
  rewrite run_bind2. cbn [get2 result2 after2 calls2 fst snd app].
  destruct (auto_RTL (after (run_submode env s1))
            && negb (get_in_landing_sequence_flag ms || get_in_return_path_flag ms
                     || state_is_MISSION_COMPLETE ms));
    cbn [when2 ret2 result2 after2 calls2 fst snd]; [|reflexivity].
  rewrite run_bind2. cbn [modify2 call2 result2 after2 calls2 fst snd app].
  reflexivity.
Qed.

(** The controllers of the submodes touch neither the Auto RTL flag nor
    the waiting-to-start flag. *)
Lemma run_submode_keeps_flags (env : Env) :
  keeps auto_RTL (run_submode env) /\ keeps waiting_to_start (run_submode env).
Proof.
  split;
    unfold run_submode, takeoff_run, wp_run, land_run, rtl_run, circle_run,
      nav_guided_run, loiter_run, loiter_to_alt_run, nav_attitude_time_run,
      PayloadPlace_run, PayloadPlace_landed_block, PayloadPlace_gripper_block,
      PayloadPlace_state_switch, PayloadPlace_output, PayloadPlace_start_descent,
      PayloadPlace_case_Descent_Start, PayloadPlace_case_Descent,
      PayloadPlace_case_Release, PayloadPlace_case_Releasing, PayloadPlace_case_Delay,
      PayloadPlace_case_Ascent_Start, PayloadPlace_case_Ascent, set_pp, set_lta;
    unfold wp_run; keeps_by_structure.
Qed.

(** X23: the mission is not started before the vehicle has an origin.
    While the mode waits to start and the AHRS has no origin, [run]
    neither starts nor updates the mission, whatever those functions would
    do: it runs the controller of the submode, leaves Auto RTL if the
    mission is in no landing sequence or return path and not complete,
    and keeps waiting. *)
Theorem run_waits_for_origin (env : Env) (ms : Mission) (v : Vehicle)
    (s : ModeAuto) :
  waiting_to_start s = true ->
  ahrs_get_origin v = false ->
  let r := run env ms v s in
  let tick := run_submode env s in
  let leave := auto_RTL s && negb (auto_rtl_active ms) in
  after2 r = (if leave then set_auto_RTL false (after tick) else after tick)
  /\ calls2 r = map old (calls tick)
                ++ (if leave then [new (logger_Write_Mode AUTO_RTL_EXIT)] else [])
  /\ waiting_to_start (after2 r) = true.
Proof.
  intros Hw Ho. cbv zeta. rewrite run_parts. cbv zeta.
  assert (P : run_mission ms v s = (tt, s, [])).
  { unfold run_mission, bind2, get2. rewrite Hw, Ho. reflexivity. }
  rewrite P. cbn [result2 after2 calls2 fst snd app].
  destruct (run_submode_keeps_flags env) as [Ka Kw].
  rewrite (Ka s).
  split; [reflexivity|]. split; [reflexivity|].
  destruct (auto_RTL s && negb (auto_rtl_active ms));
    cbn [waiting_to_start set_auto_RTL]; rewrite (Kw s); exact Hw.
Qed.

Lemma run_waits_for_origin_witness :
  let s := set_waiting_to_start true (Fixture.mode LOITER PayloadPlace.Done) in
  waiting_to_start s = true
  /\ calls2 (run Fixture.flying (Quiet.mission false) (Quiet.vehicle false) s)
     = map old (calls (loiter_run Fixture.flying s)).
Proof.
  cbv zeta. split; [reflexivity|].
  rewrite (proj1 (proj2 (run_waits_for_origin Fixture.flying (Quiet.mission false)
                           (Quiet.vehicle false)
                           (set_waiting_to_start true
                              (Fixture.mode LOITER PayloadPlace.Done))
                           eq_refl eq_refl))).
  reflexivity.
Defined.

Lemma run_mission_keeps_auto_RTL (ms : Mission) (v : Vehicle) :
  keeps2 auto_RTL (start_or_resume ms) ->
  keeps2 auto_RTL (update ms) ->
  keeps2 auto_RTL (restart_current_nav_cmd ms) ->
  keeps2 auto_RTL (run_mission ms v).
Proof.
  intros Hs Hu Hr s. unfold run_mission.
  rewrite run_bind2. cbn [get2 result2 after2 calls2 fst snd].
  destruct (waiting_to_start s).
  - destruct (ahrs_get_origin v); cbn [when2]; [|reflexivity].
    rewrite !run_bind2, lift_run.
    cbn [modify2 call result after2 after calls2 fst snd auto_RTL set_waiting_to_start].
    apply Hs.
  - rewrite run_bind2. cbn [after2 fst snd]. rewrite Hu.
    destruct (check_for_mission_change ms); cbn [when2]; [|reflexivity].
    rewrite run_bind2. cbn [get2 result2 after2 calls2 fst snd].
    destruct (state_is_MISSION_RUNNING ms && SubMode_eqb (_mode s) WP);
      cbn [when2]; [|reflexivity].
    rewrite run_bind2. cbn [after2 fst snd].
    destruct (result2 (restart_current_nav_cmd ms s));
      rewrite lift_run; cbn [call after after2 fst snd]; apply Hr.
Qed.

(** X24: [run] never enters Auto RTL and does not stay in it without
    cause.  When the functions of the mission leave the flag alone, the
    flag after a run is the flag before it, cleared exactly when the
    mission is in no landing sequence, on no return path and not
    complete, and the exit from Auto RTL is logged exactly then, after the
    controller has run.  The controller that runs is the one of the
    submode the mission's functions have left. *)
Theorem run_leaves_auto_RTL (env : Env) (ms : Mission) (v : Vehicle)
    (s : ModeAuto) :
  keeps2 auto_RTL (start_or_resume ms) ->
  keeps2 auto_RTL (update ms) ->
  keeps2 auto_RTL (restart_current_nav_cmd ms) ->
  let r := run env ms v s in
  let mission_part := run_mission ms v s in
  let tick := run_submode env (after2 mission_part) in
  auto_RTL (after2 r) = auto_RTL s && auto_rtl_active ms
  /\ calls2 r
     = calls2 mission_part ++ map old (calls tick)
       ++ (if auto_RTL s && negb (auto_rtl_active ms)
           then [new (logger_Write_Mode AUTO_RTL_EXIT)] else []).
Proof.
  intros Hs Hu Hr. cbv zeta. rewrite run_parts. cbv zeta.
  pose proof (run_mission_keeps_auto_RTL ms v Hs Hu Hr s) as K1.
  destruct (run_submode_keeps_flags env) as [Ka _].
  rewrite (Ka (after2 (run_mission ms v s))), K1.
  cbn [after2 calls2 fst snd].
  destruct (auto_RTL s) eqn:Ea, (auto_rtl_active ms);
    cbn [andb negb auto_RTL set_auto_RTL];
    rewrite ?(Ka (after2 (run_mission ms v s))), ?K1, ?Ea; split; reflexivity.
Qed.

Lemma run_leaves_auto_RTL_witness :
  let s := set_auto_RTL true (Fixture.mode LAND PayloadPlace.Done) in
  auto_RTL (after2 (run Fixture.flying (Quiet.mission true) (Quiet.vehicle true) s)) = true
  /\ auto_RTL (after2 (run Fixture.flying (Quiet.mission false) (Quiet.vehicle true) s))
     = false.
Proof.
  cbv zeta. split.
  - rewrite (proj1 (run_leaves_auto_RTL Fixture.flying (Quiet.mission true)
                      (Quiet.vehicle true)
                      (set_auto_RTL true (Fixture.mode LAND PayloadPlace.Done))
                      (fun s => eq_refl) (fun s => eq_refl) (fun s => eq_refl))).
    reflexivity.
  - reflexivity.
Defined.

(** ** Auto RTL and the end of the mission (X25, X26) *)

Lemma enter_auto_rtl_run (env : Env) (v : Vehicle) (reason : ModeReason)
    (s : ModeAuto) :
  let m := if flightmode_is_mode_auto (copter env) then (true, s, [])
           else copter_set_mode v Number_AUTO reason s in
  enter_auto_rtl env v reason s
  = (result2 m,
     (if result2 m then set_auto_RTL true (after2 m) else after2 m),
     new (mission_set_force_resume true) :: calls2 m
     ++ enter_auto_rtl_end v reason (result2 m)).
Proof.
  cbv zeta. unfold enter_auto_rtl, enter_auto_rtl_end.
  rewrite run_bind2. cbn [call2 result2 after2 calls2 fst snd app].
  rewrite run_bind2.
  assert (E : (if flightmode_is_mode_auto (copter env) then ret2 true
               else copter_set_mode v Number_AUTO reason) s
              = (if flightmode_is_mode_auto (copter env) then (true, s, [])
                 else copter_set_mode v Number_AUTO reason s))
    by (destruct (flightmode_is_mode_auto (copter env)); reflexivity).
  rewrite E.
  destruct (if flightmode_is_mode_auto (copter env) then (true, s, [])
            else copter_set_mode v Number_AUTO reason s) as [[ok s1] l1].
  cbn [result2 after2 calls2 fst snd].
  destruct ok, (ap_initialised v);
    cbv beta iota zeta delta [bind2 modify2 call2 when2 ret2 result2 after2 calls2 fst snd];
    cbn [app]; reflexivity.
Qed.

Lemma auto_RTL_entry_run (e : Entry) (env : Env) (ms : Mission) (v : Vehicle)
    (reason : ModeReason) (s : ModeAuto) :
  if entry_found ms e then
    auto_RTL_entry e env ms v reason s = enter_auto_rtl env v reason s
  else
    result2 (auto_RTL_entry e env ms v reason s) = false
    /\ after2 (auto_RTL_entry e env ms v reason s) = s
    /\ filter is_mission_set_force_resume
         (calls2 (auto_RTL_entry e env ms v reason s)) = [].
Proof.
  destruct e; cbn [entry_found auto_RTL_entry];
    unfold jump_to_landing_sequence_auto_RTL, return_path_start_auto_RTL,
      return_path_or_jump_to_landing_sequence_auto_RTL, auto_RTL_not_found;
    repeat match goal with
           | |- context [jump_to_landing_sequence ms] =>
               destruct (jump_to_landing_sequence ms)
           | |- context [jump_to_closest_mission_leg ms] =>
               destruct (jump_to_closest_mission_leg ms)
           end;
    cbn [negb andb orb]; try reflexivity;
    destruct (ap_initialised v); repeat split; reflexivity.
Qed.

(** X25: the three entries into Auto RTL.  When the mission has no
    landing sequence (or return path) to jump to, the entry fails and has
    touched nothing: not the state of the mode, not the mission's
    force-resume flag, and no change of flight mode has been asked for.
    Otherwise the entry returns what the change to the Auto mode returns,
    or true when the vehicle is in Auto already; on success the mode is in
    Auto RTL, in which arming is refused whatever the options say; on
    failure the force-resume flag, set before the attempt, is set back.
    Leaving the mode always ends Auto RTL. *)
Theorem auto_RTL_entry_outcomes (e : Entry) (env : Env) (ms ms' : Mission)
    (v : Vehicle) (reason : ModeReason) (Option_AllowArming : Z) (s : ModeAuto) :
  let r := auto_RTL_entry e env ms v reason s in
  let m := if flightmode_is_mode_auto (copter env) then (true, s, [])
           else copter_set_mode v Number_AUTO reason s in
  (if entry_found ms e then
     result2 r = result2 m
     /\ after2 r = (if result2 m then set_auto_RTL true (after2 m) else after2 m)
     /\ calls2 r = new (mission_set_force_resume true) :: calls2 m
                   ++ enter_auto_rtl_end v reason (result2 m)
   else
     result2 r = false /\ after2 r = s
     /\ filter is_mission_set_force_resume (calls2 r) = [])
  /\ (if result2 r
      then auto_RTL (after2 r) = true
           /\ allows_arming env Option_AllowArming (after2 r) = false
      else True)
  /\ auto_RTL (after2 (exit ms' (after2 r))) = false.
Proof.
  cbv zeta.
  pose proof (auto_RTL_entry_run e env ms v reason s) as H.
  pose proof (enter_auto_rtl_run env v reason s) as E. cbv zeta in E.
  split; [|split].
  - destruct (entry_found ms e); [|exact H].
    rewrite H, E. repeat split; reflexivity.
  - destruct (entry_found ms e).
    + rewrite H, E. cbn [result2 after2 fst snd].
      destruct (result2 (if flightmode_is_mode_auto (copter env) then (true, s, [])
                         else copter_set_mode v Number_AUTO reason s));
        [split; reflexivity | exact I].
    + destruct H as (Hr & _). rewrite Hr. exact I.
  - unfold exit. rewrite !run_bind2. reflexivity.
Qed.

(** X26: at the end of the mission the vehicle is disarmed only on the
    ground, and a change to the Land mode is asked for only in flight
    without a good position; in both cases the state of the mode is not
    touched by [exit_mission] itself.  In flight with a good position
    [exit_mission] loiters: the submode is LOITER and the yaw is held, set
    directly, so that the EKF failsafe is not rechecked whatever the
    submode was, and neither a disarm nor a change of mode is asked for. *)
Theorem exit_mission_outcomes (env : Env) (v : Vehicle) (s : ModeAuto) :
  let r := exit_mission env v s in
  if land_complete (copter env) then
    r = (tt, s, [new AP_Notify_events_mission_complete;
                 new arming_disarm_MISSIONEXIT])
  else if position_ok v then
    r = (tt, set_auto_yaw AutoYaw.HOLD (set_mode LOITER s),
         [new AP_Notify_events_mission_complete;
          new wp_nav_set_wp_destination_NEU_cm_stopping_point])
  else
    after2 r = after2 (copter_set_mode v Number_LAND MISSION_END s)
    /\ calls2 r = new AP_Notify_events_mission_complete
                  :: calls2 (copter_set_mode v Number_LAND MISSION_END s).
Proof.
  cbv zeta. unfold exit_mission, loiter_start.
  rewrite run_bind2. cbn [call2 result2 after2 calls2 fst snd].
  destruct (land_complete (copter env)); cbn [negb]; [reflexivity|].
  destruct (position_ok v); cbn [negb]; [reflexivity|].
  rewrite !run_bind2. cbn [ret2 result2 after2 calls2 fst snd negb app].
  rewrite run_bind2. cbn [ret2 result2 after2 calls2 fst snd app].
  rewrite app_nil_r. split; reflexivity.
Qed.

(** ** Script commands (X27) *)

Lemma uint16_increment_differs (n : Z) : (n + 1) mod 2 ^ 16 <> n.
Proof.
  change (2 ^ 16) with 65536. intros H.
  pose proof (Z.mod_pos_bound (n + 1) 65536 ltac:(lia)) as B.
  rewrite (Z.mod_eq (n + 1) 65536) in H by lia.
  assert (D : (n + 1) / 65536 = 0).
  { apply Z.div_small. lia. }
  lia.
Qed.

(** X27: a script can only complete the command it was given.
    [do_nav_script_time] gives every command a new id, different from the
    previous one also when the 16-bit counter wraps; afterwards the script
    reads the new id with the command, a completion reported with the
    previous id is ignored, and one reported with the new id makes
    [verify_nav_script_time] answer true.  Without a timeout the command
    is not complete before that.  When the guided controller cannot be
    initialised the command is marked done at once, without a new id and
    without entering the NAV_SCRIPT_TIME submode, so that the mission does
    not get stuck. *)
Theorem script_completes_its_own_command (env env' : Env) (mode_guided_init : bool)
    (content : nav_script_time_Command) (x : Scripting.t) (s : ModeAuto) :
  let r := do_nav_script_time env mode_guided_init content x s in
  let x' := result r in
  let stale := nav_script_time_done (Scripting.id x) x' (after r) in
  let current := nav_script_time_done (Scripting.id x') x' (after r) in
  if mode_guided_init then
    Scripting.id x' <> Scripting.id x
    /\ _mode (after r) = NAV_SCRIPT_TIME
    /\ nav_script_time x' (after r) = Some x'
    /\ stale = (tt, after r, [])
    /\ result (verify_nav_script_time env' (after current)) = true
    /\ (if script_timeout_s content >? 0 then True
        else result (verify_nav_script_time env' (after r)) = false)
  else
    x' = x
    /\ _mode (after r) = _mode s
    /\ result (verify_nav_script_time env' (after r)) = true.
Proof.
  cbv zeta. unfold do_nav_script_time.
  destruct mode_guided_init.
  - rewrite !run_bind. cbn [modify ret result after calls fst snd].
    rewrite set_submode_run. cbn [result after calls fst snd Scripting.id].
    pose proof (uint16_increment_differs (Scripting.id x)) as D.
    split; [exact D|]. split; [reflexivity|].
    unfold nav_script_time, nav_script_time_done, verify_nav_script_time.
    cbv beta iota delta [bind get fst snd].
    cbn [_mode set_mode set_nav_scripting SubMode_eqb andb Scripting.id].
    split; [reflexivity|]. split.
    + apply Z.eqb_neq in D. rewrite Z.eqb_sym in D. rewrite D. reflexivity.
    + rewrite Z.eqb_refl. cbn [when modify ret result after fst snd].
      cbn [nav_scripting set_nav_scripting set_mode ns_set_done done timeout_s orb].
      split; [reflexivity|].
      destruct (script_timeout_s content >? 0); [exact I|reflexivity].
  - rewrite run_bind. cbn [modify ret result after calls fst snd].
    split; [reflexivity|]. split; [reflexivity|].
    unfold verify_nav_script_time. cbv beta iota delta [bind get ret result fst snd].
    reflexivity.
Qed.

(** ** Speed commands (X28) *)

(** X28: a speed command with a speed that is not positive does nothing.
    With a positive speed it sets the speed of its kind on the waypoint
    controller at once, in cm/s, and stores it, so that the next
    [wp_start] that finds the controller inactive re-initialises it with
    exactly the same speed: climb and descent speeds are set again, the
    horizontal speed is the one the controller is initialised with. *)
Theorem do_change_speed_is_kept (env : Env) (dest_loc : Location)
    (speed_type : SPEED_TYPE) (target_ms : Q) (s : ModeAuto) :
  let r := do_change_speed speed_type target_ms s in
  let again := wp_start_init_calls env (after2 r) in
  if fgtb target_ms 0 then
    match speed_type with
    | SPEED_TYPE_CLIMB_SPEED =>
        calls2 r = [old (wp_nav_set_speed_up_cms (target_ms * 100)%Q)]
        /\ (if is_active (wp_nav env) then again = []
            else In (wp_nav_set_speed_up_cms (target_ms * 100)%Q) again)
    | SPEED_TYPE_DESCENT_SPEED =>
        calls2 r = [old (wp_nav_set_speed_down_cms (target_ms * 100)%Q)]
        /\ (if is_active (wp_nav env) then again = []
            else In (wp_nav_set_speed_down_cms (target_ms * 100)%Q) again)
    | SPEED_TYPE_AIRSPEED | SPEED_TYPE_GROUNDSPEED =>
        calls2 r = [new (wp_nav_set_speed_NE_cms (target_ms * 100)%Q)]
        /\ (if is_active (wp_nav env) then again = []
            else exists from_takeoff,
                   In (wp_nav_wp_and_spline_init_cm (target_ms * 100)%Q from_takeoff)
                      again)
    | SPEED_TYPE_other => r = (tt, s, [])
    end
    /\ (exists rest, calls (wp_start env dest_loc (after2 r)) = again ++ rest)
  else r = (tt, s, []).
Proof.
  cbv zeta. unfold do_change_speed.
  destruct (fgtb target_ms 0) eqn:P; cbn [when2]; [|reflexivity].
  assert (Hpos : is_positive target_ms = true) by exact P.
  split.
  - destruct speed_type;
      cbv beta iota zeta delta [bind2 lift call call2 modify2 ret2 after2 calls2 fst snd];
      cbn [map app]; try reflexivity;
      (split; [reflexivity|]);
      unfold wp_start_init_calls;
      destruct (is_active (wp_nav env)); try reflexivity;
      cbn [desired_speed_override set_desired_speed_override xy up down
           dso_set_xy dso_set_up dso_set_down];
      rewrite Hpos.
    + eexists. left. reflexivity.
    + eexists. left. reflexivity.
    + right. left. reflexivity.
    + right.
      destruct (is_positive (up (desired_speed_override s)));
        [right; left | left]; reflexivity.
  - rewrite wp_start_run.
    destruct (set_wp_destination_loc (wp_nav env) dest_loc); cbn [calls snd].
    + eexists. reflexivity.
    + exists []. rewrite app_nil_r. reflexivity.
Qed.

(** ** Entering the mode, then running it (X29) *)

Lemma init_success_flags (env : Env) (ignore_checks : bool) (s : ModeAuto) :
  result (init env ignore_checks s) = true ->
  waiting_to_start (after (init env ignore_checks s)) = true
  /\ auto_RTL (after (init env ignore_checks s)) = false.
Proof.
  unfold init, result, after.
  destruct (mission_present (copter env) || ignore_checks);
    [|cbv beta iota delta [bind modify ret fst snd]; discriminate].
  destruct (motors_armed (copter env) && land_complete (copter env)
            && negb (starts_with_takeoff_cmd (copter env)));
    [cbv beta iota delta [bind modify ret call fst snd]; discriminate|].
  intros _.
  cbv beta iota delta [bind modify get ret call when fst snd].
  cbn [auto_yaw set_mode set_auto_RTL].
  destruct (AutoYaw.is_ROI (auto_yaw s)); split; reflexivity.
Qed.

(** X29: after the mode has been entered, it loiters until the vehicle
    has an origin: a run that follows a successful [init] while the AHRS
    has no origin only calls the loiter controller, whatever the mission
    holds, and leaves the state of the mode as [init] left it, so does
    any number of such runs. *)
Theorem init_then_run_loiters (env0 env : Env) (ignore_checks : bool)
    (ms : Mission) (v : Vehicle) (s : ModeAuto) :
  result (init env0 ignore_checks s) = true ->
  ahrs_get_origin v = false ->
  let entered := after (init env0 ignore_checks s) in
  run env ms v entered
  = (tt, entered, map old (calls (loiter_run env entered))).
Proof.
  intros Hi Ho. cbv zeta.
  destruct (init_success_flags env0 ignore_checks s Hi) as [Hw Ha].
  destruct (init_success_state env0 ignore_checks s Hi) as [_ Hm].
  set (s0 := after (init env0 ignore_checks s)) in *.
  rewrite run_parts. cbv zeta.
  assert (P : run_mission ms v s0 = (tt, s0, [])).
  { unfold run_mission, bind2, get2. rewrite Hw, Ho. reflexivity. }
  rewrite P. cbn [result2 after2 calls2 fst snd app].
  assert (R : run_submode env s0 = loiter_run env s0).
  { unfold run_submode. cbv beta iota delta [bind get fst snd].
    rewrite Hm. destruct (loiter_run env s0) as [[u s1] l1]. reflexivity. }
  rewrite R.
  assert (L : after (loiter_run env s0) = s0).
  { unfold loiter_run. destruct (is_disarmed_or_landed (copter env)); reflexivity. }
  rewrite L, Ha. cbn [andb]. rewrite app_nil_r. reflexivity.
Qed.

Lemma init_then_run_loiters_witness :
  let s := Fixture.mode WP PayloadPlace.Done in
  result (init Fixture.flying true s) = true
  /\ after2 (run Fixture.flying (Quiet.mission false) (Quiet.vehicle false)
               (after (init Fixture.flying true s)))
     = after (init Fixture.flying true s).
Proof.
  cbv zeta. split; [reflexivity|].
  rewrite (init_then_run_loiters Fixture.flying Fixture.flying true
             (Quiet.mission false) (Quiet.vehicle false)
             (Fixture.mode WP PayloadPlace.Done) eq_refl eq_refl).
  reflexivity.
Defined.

(** ** Taking off and landing, as the vehicle is told (X30) *)

(** X30: the mode reports taking off exactly until the takeoff command is
    verified: after [takeoff_start], at any later reading of the takeoff
    controller, [is_taking_off] is the negation of what [verify_takeoff]
    answers, and [is_landing] is false.  After a land command without a
    location [is_landing] is true.  In no state does the mode report both
    taking off and landing. *)
Theorem taking_off_until_takeoff_verified (env env' : Env) (rd : Reads)
    (dest_loc : Location) (cmd : Mission_Command) (mode_rtl_is_landing : bool)
    (s : ModeAuto) :
  current_loc_initialised (copter env) = true ->
  location_provided cmd = false ->
  let climbing := after (takeoff_start env dest_loc s) in
  let landing := after (do_land env rd cmd s) in
  is_taking_off env' climbing = negb (result (verify_takeoff env' climbing))
  /\ is_landing mode_rtl_is_landing climbing = false
  /\ is_landing mode_rtl_is_landing landing = true
  /\ is_taking_off env' landing = false
  /\ (forall s' : ModeAuto,
        is_landing mode_rtl_is_landing s' && is_taking_off env' s' = false).
Proof.
  intros Hi Hl. cbv zeta.
  assert (Hc : _mode (after (takeoff_start env dest_loc s)) = TAKEOFF).
  { unfold takeoff_start. rewrite Hi. cbn [negb].
    rewrite !after_bind. apply set_submode_mode. }
  assert (Hd : _mode (after (do_land env rd cmd s)) = LAND).
  { unfold do_land. rewrite Hl. rewrite after_bind.
    cbn [modify result after fst snd].
    destruct (land_start_run env (set_state Descending s)) as (Ha & _).
    rewrite Ha. reflexivity. }
  unfold is_taking_off, is_landing. rewrite Hc, Hd. cbn [SubMode_eqb andb].
  split.
  - unfold verify_takeoff. rewrite result_bind.
    cbn [ret result fst]. reflexivity.
  - repeat split. intros s'.
    destruct (_mode s'); cbn [SubMode_eqb andb]; try reflexivity.
    apply andb_false_r.
Qed.

Lemma taking_off_until_takeoff_verified_witness :
  let cmd := Fixture.cmd MAV_CMD_NAV_LAND (Fixture.loc 0 0 0 ABOVE_HOME) 0 in
  let rd := {| terrain_source_is_TERRAIN_FROM_RANGEFINDER := false;
               get_rangefinder_height_interpolated_cm := None;
               get_pos_offset_U_cm := 0;
               change_alt_frame := fun l _ => Some l;
               set_wp_destination_next_loc := fun _ => true;
               set_spline_destination_loc := fun _ _ _ => true;
               set_spline_destination_next_loc := fun _ _ _ => true;
               get_next_nav_cmd := fun _ => None |} in
  let s := Fixture.mode LOITER PayloadPlace.Done in
  current_loc_initialised (copter Fixture.flying) = true
  /\ location_provided cmd = false
  /\ is_taking_off Fixture.flying
       (after (takeoff_start Fixture.flying (Fixture.loc 0 0 900 ABOVE_HOME) s)) = true
  /\ is_landing false (after (do_land Fixture.flying rd cmd s)) = true.
Proof.
  cbv zeta. split; [reflexivity|]. split; [reflexivity|].
  pose proof (taking_off_until_takeoff_verified Fixture.flying Fixture.flying
                {| terrain_source_is_TERRAIN_FROM_RANGEFINDER := false;
                   get_rangefinder_height_interpolated_cm := None;
                   get_pos_offset_U_cm := 0;
                   change_alt_frame := fun l _ => Some l;
                   set_wp_destination_next_loc := fun _ => true;
                   set_spline_destination_loc := fun _ _ _ => true;
                   set_spline_destination_next_loc := fun _ _ _ => true;
                   get_next_nav_cmd := fun _ => None |}
                (Fixture.loc 0 0 900 ABOVE_HOME)
                (Fixture.cmd MAV_CMD_NAV_LAND (Fixture.loc 0 0 0 ABOVE_HOME) 0)
                false (Fixture.mode LOITER PayloadPlace.Done) eq_refl eq_refl) as H.
  cbv zeta in H. destruct H as (H1 & _ & H3 & _).
  split; [rewrite H1; reflexivity | exact H3].
Defined.
